(** * Loss-chain analyzer: a shallow embedding of [loss_chain_analyzer.py]

    The development follows the source file top to bottom: the Python
    primitives the analyzer relies on ([Py]), the shape of the match feed
    ([Feed]), the three dataclasses, the [LossChainAnalyzer] methods, and
    then the properties of those methods.

    Modelling conventions.
    - A Python [str] is a [string]; characters are code points below 256.
    - A Python [float] is an exact rational of [Q]: the scores are sums of
      a handful of small constants and quotients of list lengths, and every
      statement below is about their order or their exact value as
      rationals.  Equality of scores is [Qeq].  Two scores that are equal
      as rationals can differ in the last bit as floats, so no statement
      says how the sort of the targets orders such scores.
    - [defaultdict(set)] is a [gmap string (gset string)]; iterating a set
      enumerates [elements], one order for each set of contents.  The order
      in which the interpreter walks a set also depends on the hash seed of
      the process and on the history of the table, so no statement says
      which order it is: the statements hold for every order, or speak of
      the lines of one run in the order in which that run walks the set.
    - [athlete_records] is a [dict] whose iteration order (insertion order)
      is observable in the leaderboards, so it is an association list.
    - [print_loss_chains] returns the lines it prints, in order; the
      progress messages printed by the other methods are left out. *)

From Stdlib Require Import ZArith QArith Lqa Lia List String Ascii.
From stdpp Require Import base gmap sets list strings pretty sorting.

Open Scope string_scope.
Open Scope list_scope.

(** * Python primitives *)

Module Py.

(** Exceptions that escape the analyzer's methods. *)
Inductive exn : Type :=
| AttributeError (msg : string)
| TypeError (msg : string).

Inductive result (A : Type) : Type :=
| Ok (a : A)
| Raise (e : exn).
Arguments Ok {A} a.
Arguments Raise {A} e.

Definition bind {A B} (m : result A) (k : A -> result B) : result B :=
  match m with
  | Ok a => k a
  | Raise e => Raise e
  end.

(** A [for] loop whose body may raise. *)
Fixpoint for_each {A S} (body : S -> A -> result S) (xs : list A) (s : S)
  : result S :=
  match xs with
  | [] => Ok s
  | x :: xs' => bind (body s x) (for_each body xs')
  end.

(** The list that a [for] loop walks: [None] is not iterable. *)
Definition iter {A} (v : option (list A)) : result (list A) :=
  match v with
  | Some l => Ok l
  | None => Raise (TypeError "'NoneType' object is not iterable")
  end.

(** ** Strings *)

Definition code (c : ascii) : N := N_of_ascii c.

(** The white space that [int] drops around a literal, among the code
    points below 256: tab to carriage return, space, NEL and the no-break
    space. *)
Definition is_space (c : ascii) : bool :=
  let n := code c in
  ((9 <=? n) && (n <=? 13) || (n =? 32) || (n =? 133) || (n =? 160))%N.

Definition is_digit (c : ascii) : bool :=
  let n := code c in ((48 <=? n) && (n <=? 57))%N.

Definition digit_value (c : ascii) : Z := Z.of_N (code c) - 48.

Fixpoint lstrip (s : list ascii) : list ascii :=
  match s with
  | c :: s' => if is_space c then lstrip s' else s
  | [] => []
  end.

Definition strip (s : list ascii) : list ascii :=
  rev (lstrip (rev (lstrip s))).

(** The digit part of a decimal literal: digits, with single underscores
    allowed between two digits. [prev] tells whether the previous
    character was a digit. *)
Fixpoint digits (acc : Z) (prev : bool) (s : list ascii) : option Z :=
  match s with
  | [] => if prev then Some acc else None
  | c :: s' =>
      if is_digit c then digits (10 * acc + digit_value c) true s'
      else if Ascii.eqb c "_" then
             if prev then digits acc false s' else None
      else None
  end.

(** [int(s)] in base ten; [None] stands for [ValueError].  Surrounding
    white space is dropped, one sign is allowed, then come the digits.  The
    interpreter's configurable cap on the number of digits is not part of
    the model. *)
Definition int (s : string) : option Z :=
  match strip (list_ascii_of_string s) with
  | c :: s' =>
      if Ascii.eqb c "-" then Z.opp <$> digits 0 false s'
      else if Ascii.eqb c "+" then digits 0 false s'
      else digits 0 false (c :: s')
  | [] => None
  end.

(** [s.split(sep)] for a one-character separator. *)
Fixpoint split (sep : ascii) (s : string) : list string :=
  match s with
  | EmptyString => [""]
  | String c s' =>
      if Ascii.eqb c sep then "" :: split sep s'
      else match split sep s' with
           | h :: t => String c h :: t
           | [] => [String c ""]
           end
  end.

(** [str.lower] and [str.upper], character by character.  A string is
    its code points, all below 256 here.  Among them [str.lower] changes
    [A]-[Z] and the capitals of the upper half, 192 to 222 without the
    multiplication sign 215, each to the code point 32 above it.
    [str.upper] changes [a]-[z] and 224 to 254 without the division sign
    247, each to the code point 32 below.  The capitals of the micro sign,
    of the sharp s and of the y with diaeresis (181, 223, 255) are not code
    points below 256 (the second is the two letters SS): these three are
    left as they are, which no code of [SAUDI_CODES] or [ASIAN_COUNTRIES],
    the only strings compared with an upper-cased one, can tell apart. *)
Definition upper_char (c : ascii) : ascii :=
  let n := code c in
  if ((97 <=? n) && (n <=? 122)
      || (224 <=? n) && (n <=? 254) && negb (n =? 247))%N
  then ascii_of_N (n - 32) else c.

Definition lower_char (c : ascii) : ascii :=
  let n := code c in
  if ((65 <=? n) && (n <=? 90)
      || (192 <=? n) && (n <=? 222) && negb (n =? 215))%N
  then ascii_of_N (n + 32) else c.

Fixpoint map_chars (f : ascii -> ascii) (s : string) : string :=
  match s with
  | EmptyString => EmptyString
  | String c s' => String (f c) (map_chars f s')
  end.

Definition upper : string -> string := map_chars upper_char.
Definition lower : string -> string := map_chars lower_char.

(** [needle in hay] on strings. *)
Fixpoint contains (needle hay : string) : bool :=
  String.prefix needle hay
  || match hay with
     | EmptyString => false
     | String _ hay' => contains needle hay'
     end.

(** Truth value of a string-or-None. *)
Definition truthy (v : option string) : bool :=
  match v with
  | Some s => negb (String.eqb s "")
  | None => false
  end.

(** [f"{v}"] for an int-or-None. *)
Definition format_int (v : option Z) : string :=
  match v with
  | Some z => pretty z
  | None => "None"
  end.

(** ** Lists *)

(** [l[-k:]]. *)
Definition last_n {A} (k : nat) (l : list A) : list A :=
  drop (length l - k) l.

(** [l[:n]] for an arbitrary int [n]. *)
Definition slice_to {A} (n : Z) (l : list A) : list A :=
  if (0 <=? n)%Z then take (Z.to_nat n) l
  else take (length l - Z.to_nat (- n)) l.

(** [list.sort(key=...)]: a stable sort, ascending in the key.  [le] is
    the order of the keys. *)
Section Sort.
Context {A K : Type} (le : K -> K -> bool) (key : A -> K).

Fixpoint insert_by (x : A) (l : list A) : list A :=
  match l with
  | [] => [x]
  | y :: l' =>
      if le (key x) (key y) then x :: l else y :: insert_by x l'
  end.

Definition sort_by (l : list A) : list A := foldr insert_by [] l.

(** The order in which the result is sorted. *)
Definition key_le (x y : A) : Prop := le (key x) (key y) = true.
End Sort.

(** ** Numbers *)

Definition Qltb (x y : Q) : bool := negb (Qle_bool y x).

(** [min(x, y)]: the first argument unless the second is smaller. *)
Definition min (x y : Q) : Q := if Qltb y x then y else x.

Definition of_nat (n : nat) : Q := inject_Z (Z.of_nat n).

(** ** Dictionaries and sets *)

(** An insertion-ordered [dict] with string keys. *)
Definition dict (V : Type) : Type := list (string * V).

Fixpoint dict_get {V} (k : string) (d : dict V) : option V :=
  match d with
  | [] => None
  | (k', v) :: d' => if String.eqb k k' then Some v else dict_get k d'
  end.

Definition dict_mem {V} (k : string) (d : dict V) : bool :=
  match dict_get k d with Some _ => true | None => false end.

(** [d[k] = v]: in place for a key that is present, at the end otherwise. *)
Fixpoint dict_set {V} (k : string) (v : V) (d : dict V) : dict V :=
  match d with
  | [] => [(k, v)]
  | (k', v') :: d' =>
      if String.eqb k k' then (k, v) :: d' else (k', v') :: dict_set k v d'
  end.

(** Mutation of the object stored under [k] (a present key). *)
Fixpoint dict_update {V} (f : V -> V) (k : string) (d : dict V) : dict V :=
  match d with
  | [] => []
  | (k', v') :: d' =>
      if String.eqb k k' then (k', f v') :: d'
      else (k', v') :: dict_update f k d'
  end.

Definition dict_values {V} (d : dict V) : list V := snd <$> d.
Definition dict_keys {V} (d : dict V) : list string := fst <$> d.

(** [g.get(k, set())] on a [defaultdict(set)]: no entry is created. *)
Definition graph_get (g : gmap string (gset string)) (k : string)
  : gset string :=
  default ∅ (g !! k).

(** [g[k].add(x)] on a [defaultdict(set)]: the entry is created when it
    is missing. *)
Definition graph_add (g : gmap string (gset string)) (k x : string)
  : gmap string (gset string) :=
  <[k := graph_get g k ∪ {[x]}]> g.

End Py.

(** [x ← m; k] sequences two steps, stopping at the first exception. *)
#[global] Instance result_bind : MBind Py.result := fun _ _ k m => Py.bind m k.
#[global] Instance result_ret : MRet Py.result := fun _ a => Py.Ok a.

(** * The match feed

    The parsed JSON document [all_matches.json].  A key of a JSON object is
    [Missing], holds [null], or holds a value; [Feed.get] and [Feed.get_or]
    are [dict.get] without and with a default, and return [None] for
    Python's [None].  The values are of the types that the bracket parser
    writes, and the elements of the three lists are objects.  The country
    of a corner, which both dataclasses declare a [str], is a plain option
    ([None]: the key is missing). *)

Module Feed.

Inductive field (A : Type) : Type :=
| Missing
| Null
| Val (a : A).
Arguments Missing {A}.
Arguments Null {A}.
Arguments Val {A} a.

Definition get {A} (f : field A) : option A :=
  match f with
  | Val a => Some a
  | Missing | Null => None
  end.

Definition get_or {A} (d : A) (f : field A) : option A :=
  match f with
  | Val a => Some a
  | Missing => Some d
  | Null => None
  end.

Record Corner : Type := {
  name : field string;
  country : option string;
  score : field Z
}.

(** The empty object [{}]. *)
Definition empty : Corner :=
  {| name := Missing; country := None; score := Missing |}.

Record Match : Type := {
  round : field string;
  red_corner : field Corner;
  blue_corner : field Corner;
  winner : field string
}.

Record Category : Type := {
  category : field string;
  matches : field (list Match)
}.

Record Event : Type := {
  event_name : field string;
  verid : field string;
  categories : field (list Category)
}.

Record Data : Type := {
  events : field (list Event)
}.

(** The elements under a key that holds a list; none when the key is
    missing or holds [null]. *)
Definition items {A} (f : field (list A)) : list A :=
  match f with
  | Val l => l
  | Missing | Null => []
  end.

(** [corner.get(...)] where [corner] may be [None]. *)
Definition attr {A} (corner : option Corner) (read : Corner -> A)
  : Py.result A :=
  match corner with
  | Some c => Py.Ok (read c)
  | None => Py.Raise (Py.AttributeError "'NoneType' object has no attribute 'get'")
  end.

End Feed.

(** * Constants and dataclasses *)

Definition SAUDI_CODES : gset string := {[ "KSA"; "SAU"; "SAUDI" ]}.

Definition ASIAN_COUNTRIES : gset string :=
  {[ "KSA"; "SAU"; "UAE"; "KAZ"; "UZB"; "JPN"; "KOR"; "CHN"; "MNG"; "MGL";
     "THA"; "VIE"; "INA"; "MAS"; "SGP"; "PHI"; "IND"; "PAK"; "IRN"; "IRI";
     "JOR"; "KUW"; "BRN"; "QAT"; "OMA"; "YEM"; "SYR"; "LBN"; "IRQ" ]}.

Record MatchResult : Type := {
  winner : string;
  winner_country : string;
  loser : string;
  loser_country : string;
  score : option string;
  event : option string;
  category : option string;
  round : option string;
  date : option string
}.

Record AthleteRecord : Type := {
  name : string;
  country : string;
  wins : list MatchResult;
  losses : list MatchResult
}.

Definition total_matches (self : AthleteRecord) : nat :=
  length (wins self) + length (losses self).

Definition win_rate (self : AthleteRecord) : Q :=
  let total := (length (wins self) + length (losses self))%nat in
  if (0 <? total)%nat
  then (Py.of_nat (length (wins self)) / Py.of_nat total)%Q
  else 0%Q.

(** One entry of [ScoutingTarget.key_losses]. *)
Record KeyLoss : Type := {
  kl_to : string;
  kl_country : string;
  kl_score : option string;
  kl_event : option string;
  kl_round : option string
}.

(** One entry of the local list [close_losses]. *)
Record CloseLoss : Type := {
  cl_to : string;
  cl_score : option string;
  cl_event : option string
}.

(** A reasoning line: the f-string it comes from, with the values that
    fill it. *)
Inductive Reason : Type :=
| LostTo (beaten_by saudi_name : string)
    (* "Lost to {loser} - whom {saudi_record.name} has beaten" *)
| LowerWinRate (opponent_rate saudi_rate : Q)
    (* "Lower win rate ({opponent_rate:.0%} vs {saudi_rate:.0%})" *)
| FormDeclining (recent : nat)
    (* "Recent form declining ({recent} losses in recent matches)" *)
| LessExperienced (opponent_total saudi_total : nat)
    (* "Less experienced ({opponent_total} vs {saudi_total} matches)" *)
| HasCloseLosses (n : nat).
    (* "Has {n} close losses (competitive but beatable)" *)

Record ScoutingTarget : Type := {
  opponent_name : string;
  opponent_country : string;
  beatability_score : Q;
  reasoning : list Reason;
  key_losses : list KeyLoss;
  shared_opponents : list string;
  recent_form : string;
  world_rank : option Z
}.

(** * The analyzer *)

Record LossChainAnalyzer : Type := {
  matches : list MatchResult;
  athlete_records : Py.dict AthleteRecord;
  loss_graph : gmap string (gset string);
  win_graph : gmap string (gset string)
}.

Definition __init__ : LossChainAnalyzer :=
  {| matches := []; athlete_records := []; loss_graph := ∅; win_graph := ∅ |}.

Definition add_win (m : MatchResult) (r : AthleteRecord) : AthleteRecord :=
  {| name := name r; country := country r;
     wins := wins r ++ [m]; losses := losses r |}.

Definition add_loss (m : MatchResult) (r : AthleteRecord) : AthleteRecord :=
  {| name := name r; country := country r;
     wins := wins r; losses := losses r ++ [m] |}.

Definition _update_records (self : LossChainAnalyzer) (m : MatchResult)
  : LossChainAnalyzer :=
  (* Update winner record *)
  let records := athlete_records self in
  let records :=
    if negb (Py.dict_mem (winner m) records)
    then Py.dict_set (winner m)
           {| name := winner m; country := winner_country m;
              wins := []; losses := [] |} records
    else records in
  let records := Py.dict_update (add_win m) (winner m) records in
  (* Update loser record *)
  let records :=
    if negb (Py.dict_mem (loser m) records)
    then Py.dict_set (loser m)
           {| name := loser m; country := loser_country m;
              wins := []; losses := [] |} records
    else records in
  let records := Py.dict_update (add_loss m) (loser m) records in
  (* Update graphs *)
  {| matches := matches self;
     athlete_records := records;
     loss_graph := Py.graph_add (loss_graph self) (loser m) (winner m);
     win_graph := Py.graph_add (win_graph self) (winner m) (loser m) |}.

(** [self.matches.append(result)]. *)
Definition append_match (self : LossChainAnalyzer) (result : MatchResult)
  : LossChainAnalyzer :=
  {| matches := matches self ++ [result];
     athlete_records := athlete_records self;
     loss_graph := loss_graph self;
     win_graph := win_graph self |}.

(** The body of the innermost loop of [load_matches]: one match entry of
    the feed, with the analyzer and the running [count]. *)
Definition load_entry (event_name cat_name : option string)
    (st : LossChainAnalyzer * nat) (entry : Feed.Match)
  : Py.result (LossChainAnalyzer * nat) :=
  let '(self, count) := st in
  let red := Feed.get_or Feed.empty (Feed.red_corner entry) in
  let blue := Feed.get_or Feed.empty (Feed.blue_corner entry) in
  let winner_ := Feed.get_or "" (Feed.winner entry) in
  if negb (Py.truthy winner_) then Py.Ok st else
  red_name ← Feed.attr red (fun c => Feed.get (Feed.name c));
  if negb (Py.truthy red_name) then Py.Ok st else
  blue_name ← Feed.attr blue (fun c => Feed.get (Feed.name c));
  if negb (Py.truthy blue_name) then Py.Ok st else
  (* Both corners are objects from here on: the reads below, which the
     source spreads over the two branches and the constructor call, cannot
     raise. *)
  red_country ← Feed.attr red (fun c => default "" (Feed.country c));
  blue_country ← Feed.attr blue (fun c => default "" (Feed.country c));
  red_score ← Feed.attr red (fun c => Feed.get_or 0%Z (Feed.score c));
  blue_score ← Feed.attr blue (fun c => Feed.get_or 0%Z (Feed.score c));
  (* Determine loser *)
  let '(loser_, loser_country_, winner_country_) :=
    if bool_decide (winner_ = red_name)
    then (blue_name, blue_country, red_country)
    else (red_name, red_country, blue_country) in
  (* Create match result *)
  let result :=
    {| winner := default "" winner_;
       winner_country := winner_country_;
       loser := default "" loser_;
       loser_country := loser_country_;
       score := Some (Py.format_int red_score +:+ "-" +:+ Py.format_int blue_score);
       event := event_name;
       category := cat_name;
       round := Feed.get_or "Unknown" (Feed.round entry);
       date := None |} in
  let self := append_match self result in
  Py.Ok (_update_records self result, S count).

Definition load_category (event_name : option string)
    (st : LossChainAnalyzer * nat) (cat : Feed.Category)
  : Py.result (LossChainAnalyzer * nat) :=
  let cat_name := Feed.get_or "" (Feed.category cat) in
  entries ← Py.iter (Feed.get_or [] (Feed.matches cat));
  Py.for_each (load_entry event_name cat_name) entries st.

Definition load_event (st : LossChainAnalyzer * nat) (ev : Feed.Event)
  : Py.result (LossChainAnalyzer * nat) :=
  let event_name := Feed.get_or "" (Feed.event_name ev) in
  cats ← Py.iter (Feed.get_or [] (Feed.categories ev));
  Py.for_each (load_category event_name) cats st.

(** [load_matches]: [file] is [None] when the path does not exist, and the
    parsed document otherwise.  The result is the analyzer after the call
    and the returned count. *)
Definition load_matches (self : LossChainAnalyzer) (file : option Feed.Data)
  : Py.result (LossChainAnalyzer * nat) :=
  match file with
  | None => Py.Ok (self, 0%nat)
  | Some data =>
      evs ← Py.iter (Feed.get_or [] (Feed.events data));
      Py.for_each load_event evs (self, 0%nat)
  end.

Definition get_saudi_athletes (self : LossChainAnalyzer) : list AthleteRecord :=
  let saudi :=
    foldl (fun saudi record =>
             if bool_decide (Py.upper (country record) ∈ SAUDI_CODES)
             then saudi ++ [record] else saudi)
          [] (Py.dict_values (athlete_records self)) in
  Py.sort_by Z.leb (fun x => (- Z.of_nat (total_matches x))%Z) saudi.

(** [match.category.lower()] raises when the category is [None]. *)
Definition category_lower (m : MatchResult) : Py.result string :=
  match category m with
  | Some c => Py.Ok (Py.lower c)
  | None => Py.Raise (Py.AttributeError "'NoneType' object has no attribute 'lower'")
  end.

Fixpoint _athlete_in_category_loop (ms : list MatchResult)
    (athlete_name category_ : string) : Py.result bool :=
  match ms with
  | [] => Py.Ok false
  | m :: ms' =>
      if String.eqb (winner m) athlete_name || String.eqb (loser m) athlete_name
      then
        c ← category_lower m;
        if Py.contains (Py.lower category_) c then Py.Ok true
        else _athlete_in_category_loop ms' athlete_name category_
      else _athlete_in_category_loop ms' athlete_name category_
  end.

Definition _athlete_in_category (self : LossChainAnalyzer)
    (athlete_name category_ : string) : Py.result bool :=
  _athlete_in_category_loop (matches self) athlete_name category_.

Definition get_asian_opponents (self : LossChainAnalyzer)
    (category_ : option string) : Py.result (list AthleteRecord) :=
  Py.for_each
    (fun opponents '(name_, record) =>
       if bool_decide (Py.upper (country record) ∈ ASIAN_COUNTRIES) then
         if negb (bool_decide (Py.upper (country record) ∈ SAUDI_CODES)) then
           match category_ with
           | None => Py.Ok (opponents ++ [record])
           | Some c =>
               b ← _athlete_in_category self name_ c;
               Py.Ok (if b : bool then opponents ++ [record] else opponents)
           end
         else Py.Ok opponents
       else Py.Ok opponents)
    (athlete_records self) [].

Definition find_shared_opponents (self : LossChainAnalyzer)
    (saudi_name opponent_name_ : string) : list string :=
  let saudi_faced :=
    Py.graph_get (win_graph self) saudi_name
    ∪ Py.graph_get (loss_graph self) saudi_name in
  let opp_faced :=
    Py.graph_get (win_graph self) opponent_name_
    ∪ Py.graph_get (loss_graph self) opponent_name_ in
  elements (saudi_faced ∩ opp_faced).

(** ** [calculate_beatability]

    The five numbered blocks of the method, each a step on the two local
    accumulators [score] and [reasoning]. *)

(** 1. Shared losses - opponent lost to someone Saudi beat. *)
Definition shared_losses_signal (self : LossChainAnalyzer)
    (saudi_record opponent_record : AthleteRecord)
    (acc : Q * list Reason) : Q * list Reason :=
  let '(score_, reasoning_) := acc in
  let saudi_victims := Py.graph_get (win_graph self) (name saudi_record) in
  let opponent_losses_to :=
    Py.graph_get (loss_graph self) (name opponent_record) in
  let shared_losses := saudi_victims ∩ opponent_losses_to in
  if bool_decide (shared_losses ≠ ∅) then
    ((score_ + (3 # 10) * Py.of_nat (size shared_losses))%Q,
     foldl (fun r loser_ => r ++ [LostTo loser_ (name saudi_record)])
           reasoning_ (elements shared_losses))
  else (score_, reasoning_).

(** 2. Win rate comparison. *)
Definition win_rate_signal (saudi_record opponent_record : AthleteRecord)
    (acc : Q * list Reason) : Q * list Reason :=
  let '(score_, reasoning_) := acc in
  if Py.Qltb (win_rate opponent_record) (win_rate saudi_record) then
    let diff := (win_rate saudi_record - win_rate opponent_record)%Q in
    ((score_ + (2 # 10) * diff)%Q,
     reasoning_ ++ [LowerWinRate (win_rate opponent_record)
                                 (win_rate saudi_record)])
  else (score_, reasoning_).

(** 3. Recent form (using last 3 matches); also yields the form label. *)
Definition recent_form_signal (opponent_record : AthleteRecord)
    (acc : Q * list Reason) : Q * list Reason * string :=
  let '(score_, reasoning_) := acc in
  let recent_losses :=
    if (3 <=? length (losses opponent_record))%nat
    then Py.last_n 3 (losses opponent_record) else losses opponent_record in
  let recent_wins :=
    if (3 <=? length (wins opponent_record))%nat
    then Py.last_n 3 (wins opponent_record) else wins opponent_record in
  if (length recent_wins <? length recent_losses)%nat then
    ((score_ + (15 # 100))%Q,
     reasoning_ ++ [FormDeclining (length recent_losses)], "declining")
  else if (length recent_losses <? length recent_wins)%nat then
    (score_, reasoning_, "improving")
  else (score_, reasoning_, "stable").

(** 4. Experience gap (if Saudi has more matches). *)
Definition experience_signal (saudi_record opponent_record : AthleteRecord)
    (acc : Q * list Reason) : Q * list Reason :=
  let '(score_, reasoning_) := acc in
  if (total_matches opponent_record <? total_matches saudi_record)%nat then
    ((score_ + (1 # 10))%Q,
     reasoning_ ++ [LessExperienced (total_matches opponent_record)
                                    (total_matches saudi_record)])
  else (score_, reasoning_).

(** 5. The body of the loop that collects close losses; an exception of
    [int] is swallowed by the bare [except]. *)
Definition close_losses_body (close_losses : list CloseLoss)
    (loss : MatchResult) : list CloseLoss :=
  if Py.truthy (score loss) then
    let parts := Py.split "-" (default "" (score loss)) in
    match parts with
    | [p0; p1] =>
        match Py.int p0, Py.int p1 with
        | Some s1, Some s2 =>
            let diff := Z.abs (s1 - s2) in
            if (diff <=? 3)%Z then
              close_losses ++ [{| cl_to := winner loss;
                                  cl_score := score loss;
                                  cl_event := event loss |}]
            else close_losses
        | _, _ => close_losses
        end
    | _ => close_losses
    end
  else close_losses.

Definition close_losses_signal (opponent_record : AthleteRecord)
    (acc : Q * list Reason) : Q * list Reason :=
  let '(score_, reasoning_) := acc in
  let close_losses := foldl close_losses_body [] (losses opponent_record) in
  if (0 <? length close_losses)%nat then
    ((score_ + (1 # 10) * Py.of_nat (Nat.min (length close_losses) 3))%Q,
     reasoning_ ++ [HasCloseLosses (length close_losses)])
  else (score_, reasoning_).

Definition calculate_beatability (self : LossChainAnalyzer)
    (saudi_record opponent_record : AthleteRecord) : ScoutingTarget :=
  let acc : Q * list Reason := (0%Q, []) in
  let acc := shared_losses_signal self saudi_record opponent_record acc in
  let acc := win_rate_signal saudi_record opponent_record acc in
  let '(acc, form) := recent_form_signal opponent_record acc in
  let acc := experience_signal saudi_record opponent_record acc in
  let acc := close_losses_signal opponent_record acc in
  (* Get key losses for scouting *)
  let key_losses_ :=
    foldl (fun ks loss =>
             ks ++ [{| kl_to := winner loss;
                       kl_country := winner_country loss;
                       kl_score := score loss;
                       kl_event := event loss;
                       kl_round := round loss |}])
          [] (Py.last_n 5 (losses opponent_record)) in
  let shared :=
    find_shared_opponents self (name saudi_record) (name opponent_record) in
  {| opponent_name := name opponent_record;
     opponent_country := country opponent_record;
     beatability_score := Py.min (fst acc) 1%Q;
     reasoning := snd acc;
     key_losses := key_losses_;
     shared_opponents := shared;
     recent_form := form;
     world_rank := None |}.

(** ** Reports *)

Record AthleteReport : Type := {
  saudi_athlete : string;
  report_country : string;
  total_wins : nat;
  total_losses : nat;
  report_win_rate : Q;
  scouting_targets : list ScoutingTarget
}.

Record Report : Type := {
  generated_at : string;
  total_matches_analyzed : nat;
  scouting_reports : list AthleteReport
}.

(** The body of the loop over the Saudi athletes. *)
Definition athlete_report (self : LossChainAnalyzer)
    (opponents : list AthleteRecord) (saudi : AthleteRecord) : AthleteReport :=
  (* Analyze each opponent *)
  let targets :=
    foldl (fun targets opp =>
             if String.eqb (name opp) (name saudi) then targets
             else
               let target := calculate_beatability self saudi opp in
               if Py.Qltb 0 (beatability_score target)
               then targets ++ [target] else targets)
          [] opponents in
  (* Sort by beatability score (highest first) *)
  let targets :=
    Py.sort_by Qle_bool (fun x => (- beatability_score x)%Q) targets in
  (* Take top 10 targets *)
  {| saudi_athlete := name saudi;
     report_country := country saudi;
     total_wins := length (wins saudi);
     total_losses := length (losses saudi);
     report_win_rate := win_rate saudi;
     scouting_targets := Py.slice_to 10 targets |}.

(** [generate_scouting_report]; [now] is the timestamp read from the clock. *)
Definition generate_scouting_report (self : LossChainAnalyzer) (now : string)
    (saudi_name category_ : option string) : Py.result Report :=
  let report reports :=
    {| generated_at := now;
       total_matches_analyzed := length (matches self);
       scouting_reports := reports |} in
  (* Get Saudi athletes to analyze *)
  let saudi_athletes :=
    if Py.truthy saudi_name
    then List.filter
           (fun r => Py.contains (Py.lower (default "" saudi_name))
                                 (Py.lower (name r)))
           (get_saudi_athletes self)
    else get_saudi_athletes self in
  match saudi_athletes with
  | [] => Py.Ok (report [])
  | _ =>
      (* Get Asian opponents *)
      opponents ← get_asian_opponents self category_;
      Py.Ok (report
               (foldl (fun reports saudi =>
                         reports ++ [athlete_report self opponents saudi])
                      [] saudi_athletes))
  end.

(** The categories of an athlete's matches. *)
Definition categories_seen (record : AthleteRecord) : gset string :=
  foldl (fun seen m =>
           if Py.truthy (category m)
           then seen ∪ {[ default "" (category m) ]} else seen)
        ∅ (wins record ++ losses record).

(** [category_athletes[cat].append(record)] for every category of
    [record], on a [defaultdict(list)]. *)
Definition add_to_categories (category_athletes : gmap string (list AthleteRecord))
    (record : AthleteRecord) : gmap string (list AthleteRecord) :=
  foldl (fun ca cat => <[cat := default [] (ca !! cat) ++ [record]]> ca)
        category_athletes (elements (categories_seen record)).

(** Sort each category by total matches (most active first), keep top N. *)
Definition rank_categories (top_n : Z)
    (category_athletes : gmap string (list AthleteRecord))
  : gmap string (list AthleteRecord) :=
  (fun l =>
     Py.slice_to top_n
       (Py.sort_by Z.leb (fun x => (- Z.of_nat (total_matches x))%Z) l))
  <$> category_athletes.

Definition get_top_asian_athletes_by_category (self : LossChainAnalyzer)
    (top_n : Z) : gmap string (list AthleteRecord) :=
  let category_athletes :=
    foldl (fun ca '(name_, record) =>
             if bool_decide (Py.upper (country record) ∈ ASIAN_COUNTRIES)
             then add_to_categories ca record else ca)
          ∅ (athlete_records self) in
  rank_categories top_n category_athletes.

Definition get_top_world_athletes_by_category (self : LossChainAnalyzer)
    (top_n : Z) : gmap string (list AthleteRecord) :=
  let category_athletes :=
    foldl (fun ca '(name_, record) => add_to_categories ca record)
          ∅ (athlete_records self) in
  rank_categories top_n category_athletes.

(** ** [print_loss_chains] *)

Definition nl : string := String (ascii_of_nat 10) "".

Definition record_country (self : LossChainAnalyzer) (who : string) : string :=
  match Py.dict_get who (athlete_records self) with
  | Some record => country record
  | None => "???"
  end.

Definition chain_header (athlete_name : string) : string :=
  nl +:+ "=== LOSS CHAIN: " +:+ athlete_name +:+ " ===" +:+ nl.

Definition no_losses_line (athlete_name : string) : string :=
  "  No recorded losses for " +:+ athlete_name.

Definition lost_to_line (athlete_name : string) : string :=
  "  " +:+ athlete_name +:+ " lost to:".

Definition beater_line (self : LossChainAnalyzer) (beater : string) : string :=
  "    -> " +:+ beater +:+ " (" +:+ record_country self beater +:+ ")".

Definition second_line (self : LossChainAnalyzer) (second : string) : string :=
  "        -> " +:+ second +:+ " (" +:+ record_country self second +:+ ")".

(** The printed lines, in order. *)
Definition print_loss_chains (self : LossChainAnalyzer)
    (athlete_name : string) (depth : Z) : list string :=
  let out := [chain_header athlete_name] in
  let losses_to := Py.graph_get (loss_graph self) athlete_name in
  if bool_decide (losses_to = ∅) then out ++ [no_losses_line athlete_name]
  else
    let out := out ++ [lost_to_line athlete_name] in
    foldl (fun out beater =>
             let out := out ++ [beater_line self beater] in
             if (1 <? depth)%Z then
               (* Who beat this person? *)
               let second_losses := Py.graph_get (loss_graph self) beater in
               foldl (fun out second => out ++ [second_line self second])
                     out (Py.slice_to 3 (elements second_losses))
             else out)
          out (elements losses_to).

(** * Worked scenarios *)

Definition corner (n c : string) (s : Z) : Feed.Corner :=
  {| Feed.name := Feed.Val n; Feed.country := Some c; Feed.score := Feed.Val s |}.

Definition entry (red blue : Feed.Corner) (w : Feed.field string) : Feed.Match :=
  {| Feed.round := Feed.Val "Final";
     Feed.red_corner := Feed.Val red;
     Feed.blue_corner := Feed.Val blue;
     Feed.winner := w |}.

Definition feed_of (ms : list Feed.Match) : Feed.Data :=
  {| Feed.events :=
       Feed.Val
         [{| Feed.event_name := Feed.Val "Asian Open";
             Feed.verid := Feed.Val "714";
             Feed.categories :=
               Feed.Val [{| Feed.category := Feed.Val "Male -77kg";
                            Feed.matches := Feed.Val ms |}] |}] |}.

(** Scenario B of the specification: ALI beat OMAR, SMITH lost to OMAR and
    to ALI. *)
Definition scenario_b : Feed.Data :=
  feed_of [ entry (corner "ALI" "KSA" 5) (corner "OMAR" "UAE" 3) (Feed.Val "ALI");
            entry (corner "SMITH" "UAE" 1) (corner "OMAR" "UAE" 2) (Feed.Val "OMAR");
            entry (corner "ALI" "KSA" 4) (corner "SMITH" "UAE" 0) (Feed.Val "ALI") ].

Definition loaded (d : Feed.Data) : LossChainAnalyzer :=
  match load_matches __init__ (Some d) with
  | Py.Ok (self, _) => self
  | Py.Raise _ => __init__
  end.
(** The loser of Scenario A of the specification: no win, one loss. *)
Definition only_a_loss : AthleteRecord :=
  let m := {| winner := "ALI"; winner_country := "KSA";
              loser := "SMITH"; loser_country := "UAE";
              score := Some "5-3"; event := None; category := None;
              round := None; date := None |} in
  {| name := "SMITH"; country := "UAE"; wins := []; losses := [m] |}.

(** * The five signals, in the words of the specification

    Each signal has a contribution to the score and the reasoning lines it
    emits; [calculate_beatability] is compared with these below. *)

(** S = (athletes R has beaten) ∩ (athletes O has lost to). *)
Definition shared_loss_set (self : LossChainAnalyzer)
    (R O : AthleteRecord) : gset string :=
  Py.graph_get (win_graph self) (name R)
  ∩ Py.graph_get (loss_graph self) (name O).

Definition shared_loss_contribution (self : LossChainAnalyzer)
    (R O : AthleteRecord) : Q :=
  ((3 # 10) * Py.of_nat (size (shared_loss_set self R O)))%Q.

Definition shared_loss_lines (self : LossChainAnalyzer)
    (R O : AthleteRecord) : list Reason :=
  (fun x => LostTo x (name R)) <$> elements (shared_loss_set self R O).

Definition win_rate_gap_contribution (R O : AthleteRecord) : Q :=
  if Py.Qltb (win_rate O) (win_rate R)
  then ((2 # 10) * (win_rate R - win_rate O))%Q else 0%Q.

Definition win_rate_gap_lines (R O : AthleteRecord) : list Reason :=
  if Py.Qltb (win_rate O) (win_rate R)
  then [LowerWinRate (win_rate O) (win_rate R)] else [].

(** The window of the last three matches. *)
Definition window (l : list MatchResult) : list MatchResult := Py.last_n 3 l.

Definition recent_form_contribution (O : AthleteRecord) : Q :=
  if (length (window (wins O)) <? length (window (losses O)))%nat
  then (15 # 100)%Q else 0%Q.

Definition recent_form_lines (O : AthleteRecord) : list Reason :=
  if (length (window (wins O)) <? length (window (losses O)))%nat
  then [FormDeclining (length (window (losses O)))] else [].

Definition experience_contribution (R O : AthleteRecord) : Q :=
  if (total_matches O <? total_matches R)%nat then (1 # 10)%Q else 0%Q.

Definition experience_lines (R O : AthleteRecord) : list Reason :=
  if (total_matches O <? total_matches R)%nat
  then [LessExperienced (total_matches O) (total_matches R)] else [].

(** A score string that parses: it splits on '-' into two parts, both of
    which [int] accepts. *)
Definition score_parses (s : string) (a b : Z) : Prop :=
  exists p0 p1,
    Py.split "-" s = [p0; p1] /\ Py.int p0 = Some a /\ Py.int p1 = Some b.

(** A close loss: the score parses as two integers with absolute
    difference at most 3. *)
Definition close_loss (m : MatchResult) : Prop :=
  exists s a b,
    score m = Some s /\ score_parses s a b /\ (Z.abs (a - b) <= 3)%Z.

#[global] Instance close_loss_dec (m : MatchResult) : Decision (close_loss m).
Proof.
  unfold close_loss, score_parses.
  destruct (score m) as [s |];
    [| right; intros (s & a & b & Hs & _); discriminate Hs].
  destruct (Py.split "-" s) as [| p0 [| p1 [| p2 ps]]] eqn:Hsplit;
    try (right; intros (s' & a & b & Hs & (q0 & q1 & Hq & _) & _);
         injection Hs as <-; congruence).
  destruct (Py.int p0) as [a |] eqn:Ha;
    [| right; intros (s' & a & b & Hs & (q0 & q1 & Hq & Hq0 & _) & _);
       injection Hs as <-; congruence].
  destruct (Py.int p1) as [b |] eqn:Hb;
    [| right; intros (s' & a' & b & Hs & (q0 & q1 & Hq & _ & Hq1) & _);
       injection Hs as <-; congruence].
  destruct (decide (Z.abs (a - b) <= 3)%Z) as [Hd | Hd].
  - left. exists s, a, b. split; [reflexivity |].
    split; [exists p0, p1; auto | exact Hd].
  - right. intros (s' & a' & b' & Hs & (q0 & q1 & Hq & Hq0 & Hq1) & Habs).
    injection Hs as <-.
    assert (a' = a) by congruence. assert (b' = b) by congruence.
    subst a' b'. contradiction.
Defined.

Definition close_loss_count (O : AthleteRecord) : nat :=
  length (filter close_loss (losses O)).

Definition close_losses_contribution (O : AthleteRecord) : Q :=
  ((1 # 10) * Py.of_nat (Nat.min (close_loss_count O) 3))%Q.

Definition close_losses_lines (O : AthleteRecord) : list Reason :=
  if (0 <? close_loss_count O)%nat
  then [HasCloseLosses (close_loss_count O)] else [].

(** The form label of the recent-form signal. *)
Definition form_label (O : AthleteRecord) : string :=
  if (length (window (wins O)) <? length (window (losses O)))%nat
  then "declining"
  else if (length (window (losses O)) <? length (window (wins O)))%nat
       then "improving" else "stable".

(** A score within the nominal range of [ScoutingTarget.beatability_score]. *)
Definition in_unit_interval (t : ScoutingTarget) : Prop :=
  (0 <= beatability_score t <= 1)%Q.

(** The reasoning lines of the shared-loss signal. *)
Definition is_lost_to (r : Reason) : bool :=
  match r with
  | LostTo _ _ => true
  | _ => false
  end.

(** The entry recorded for a close loss. *)
Definition close_loss_entry (loss : MatchResult) : CloseLoss :=
  {| cl_to := winner loss; cl_score := score loss; cl_event := event loss |}.

Definition record_of (self : LossChainAnalyzer) (who : string) : AthleteRecord :=
  default {| name := who; country := ""; wins := []; losses := [] |}
          (Py.dict_get who (athlete_records self)).

(** Scores that count and scores that do not. *)
Definition loss_with_score (s : option string) : MatchResult :=
  {| winner := "ALI"; winner_country := "KSA"; loser := "SMITH";
     loser_country := "UAE"; score := s; event := None; category := None;
     round := None; date := None |}.

(** * The graph invariant and the order of the records *)

(** [k] is a key of the graph and its adjacency set contains [x]. *)
Definition has_edge (g : gmap string (gset string)) (k x : string) : Prop :=
  exists s : gset string, g !! k = Some s /\ x ∈ s.

(** Both edges of a match are in the graphs. *)
Definition edges_of (self : LossChainAnalyzer) (m : MatchResult) : Prop :=
  has_edge (win_graph self) (winner m) (loser m)
  /\ has_edge (loss_graph self) (loser m) (winner m).

(** The names of a sequence of matches as the graph builder meets them:
    winner, then loser, match after match. *)
Definition match_names (ms : list MatchResult) : list string :=
  ms ≫= (fun m => [winner m; loser m]).

(** The distinct names of a list, in the order of their first appearance. *)
Fixpoint first_appearances (l : list string) : list string :=
  match l with
  | [] => []
  | x :: l' => x :: filter (fun y => y ≠ x) (first_appearances l')
  end.

(** Every record is stored under its own name. *)
Definition records_named (d : Py.dict AthleteRecord) : Prop :=
  Forall (fun kv => name (snd kv) = fst kv) d.

(** A feed entry with a declared winner and no red corner ([null]), next to
    two well-formed entries. *)
Definition null_corner_entry : Feed.Match :=
  {| Feed.round := Feed.Val "Final";
     Feed.red_corner := Feed.Null;
     Feed.blue_corner := Feed.Val (corner "OMAR" "UAE" 0);
     Feed.winner := Feed.Val "OMAR" |}.

Definition null_corner_feed : Feed.Data :=
  feed_of [ entry (corner "ALI" "KSA" 5) (corner "SMITH" "UAE" 3) (Feed.Val "ALI");
            null_corner_entry;
            entry (corner "ALI" "KSA" 4) (corner "OMAR" "UAE" 0) (Feed.Val "ALI") ].

(** Scenario D of the specification: two valid entries and one without a
    winner. *)
Definition scenario_d : Feed.Data :=
  feed_of [ entry (corner "ALI" "KSA" 5) (corner "SMITH" "UAE" 3) (Feed.Val "ALI");
            entry (corner "ALI" "KSA" 2) (corner "OMAR" "UAE" 2) Feed.Missing;
            entry (corner "ALI" "KSA" 4) (corner "OMAR" "UAE" 0) (Feed.Val "ALI") ].

(** An entry whose declared winner is neither corner. *)
Definition stranger_entry : Feed.Match :=
  entry (corner "SMITH" "UAE" 1) (corner "ALI" "KSA" 3) (Feed.Val "OMAR").

(** A name joins the keys of the records at the end, unless it is there. *)
Definition note_name (keys : list string) (x : string) : list string :=
  if bool_decide (x ∈ keys) then keys else keys ++ [x].

(** * Feeds without a null corner *)

Definition corner_name (c : Feed.field Feed.Corner) : option string :=
  match c with
  | Feed.Val c => Feed.get (Feed.name c)
  | Feed.Missing | Feed.Null => None
  end.

(** An entry with a declared winner and a name in each corner. *)
Definition accepted (e : Feed.Match) : bool :=
  Py.truthy (Feed.get (Feed.winner e))
  && Py.truthy (corner_name (Feed.red_corner e))
  && Py.truthy (corner_name (Feed.blue_corner e)).

Definition no_null_corner (e : Feed.Match) : Prop :=
  Feed.red_corner e <> Feed.Null /\ Feed.blue_corner e <> Feed.Null.

Definition category_entries (c : Feed.Category) : list Feed.Match :=
  Feed.items (Feed.matches c).

Definition event_entries (ev : Feed.Event) : list Feed.Match :=
  Feed.items (Feed.categories ev) ≫= category_entries.

Definition feed_entries (data : Feed.Data) : list Feed.Match :=
  Feed.items (Feed.events data) ≫= event_entries.

(** The match result that [load_matches] builds for an entry whose winner
    is not the red corner. *)
Definition result_for_blue (ev cat : option string) (w : string)
    (e : Feed.Match) (rc bc : Feed.Corner) (rn : string) : MatchResult :=
  {| winner := w;
     winner_country := default "" (Feed.country bc);
     loser := rn;
     loser_country := default "" (Feed.country rc);
     score := Some (Py.format_int (Feed.get_or 0%Z (Feed.score rc)) +:+ "-"
                    +:+ Py.format_int (Feed.get_or 0%Z (Feed.score bc)));
     event := ev;
     category := cat;
     round := Feed.get_or "Unknown" (Feed.round e);
     date := None |}.

(** A chain with a beater who has four losses of their own: SMITH lost to
    OMAR, and OMAR lost to four athletes. *)
Definition chain_feed : Feed.Data :=
  feed_of [ entry (corner "OMAR" "UAE" 2) (corner "SMITH" "UAE" 0) (Feed.Val "OMAR");
            entry (corner "ALI" "KSA" 3) (corner "OMAR" "UAE" 1) (Feed.Val "ALI");
            entry (corner "KIM" "KOR" 3) (corner "OMAR" "UAE" 1) (Feed.Val "KIM");
            entry (corner "SATO" "JPN" 3) (corner "OMAR" "UAE" 1) (Feed.Val "SATO");
            entry (corner "CHEN" "CHN" 3) (corner "OMAR" "UAE" 1) (Feed.Val "CHEN") ].

(** The lines printed for one beater at depth 2. *)
Definition beater_block (self : LossChainAnalyzer) (beater : string)
  : list string :=
  beater_line self beater
  :: (second_line self
        <$> take 3 (elements (Py.graph_get (loss_graph self) beater))).

(** * Leaderboards, in the words of the specification *)

(** The athletes of a category, in the order of the records: those kept by
    the country filter whose matches carry the category label. *)
Definition category_candidates (keep : AthleteRecord -> bool) (cat : string)
    (records : Py.dict AthleteRecord) : list AthleteRecord :=
  filter (fun r => keep r = true /\ cat ∈ categories_seen r)
         (Py.dict_values records).

Definition is_asian (r : AthleteRecord) : bool :=
  bool_decide (Py.upper (country r) ∈ ASIAN_COUNTRIES).

(** Ranked by total matches, most active first. *)
Definition more_active (a b : AthleteRecord) : Prop :=
  (total_matches b <= total_matches a)%nat.

(** * [load_matches] as a fold over the accepted entries *)

(** An entry on which the loop body raises: the winner is declared and the
    first corner that has to be read is [null]. *)
Definition is_null {A} (f : Feed.field A) : bool :=
  match f with
  | Feed.Null => true
  | Feed.Missing | Feed.Val _ => false
  end.

Definition fatal (e : Feed.Match) : bool :=
  Py.truthy (Feed.get (Feed.winner e))
  && (is_null (Feed.red_corner e)
      || Py.truthy (corner_name (Feed.red_corner e))
         && is_null (Feed.blue_corner e)).

Definition clean (es : list Feed.Match) : bool :=
  forallb (fun e => negb (fatal e)) es.

(** Every key that the loader walks is missing or holds a list. *)
Definition category_iterable (c : Feed.Category) : bool :=
  negb (is_null (Feed.matches c)).

Definition event_iterable (ev : Feed.Event) : bool :=
  negb (is_null (Feed.categories ev))
  && forallb category_iterable (Feed.items (Feed.categories ev)).

Definition feed_iterable (data : Feed.Data) : bool :=
  negb (is_null (Feed.events data))
  && forallb event_iterable (Feed.items (Feed.events data)).

(** The match result built for an entry whose winner is the red corner. *)
Definition result_for_red (ev cat : option string) (w : string)
    (e : Feed.Match) (rc bc : Feed.Corner) (bn : string) : MatchResult :=
  {| winner := w;
     winner_country := default "" (Feed.country rc);
     loser := bn;
     loser_country := default "" (Feed.country bc);
     score := Some (Py.format_int (Feed.get_or 0%Z (Feed.score rc)) +:+ "-"
                    +:+ Py.format_int (Feed.get_or 0%Z (Feed.score bc)));
     event := ev;
     category := cat;
     round := Feed.get_or "Unknown" (Feed.round e);
     date := None |}.

(** The match result of an accepted entry, [None] for a skipped one. *)
Definition entry_result (ev cat : option string) (e : Feed.Match)
  : option MatchResult :=
  match Feed.winner e, Feed.red_corner e, Feed.blue_corner e with
  | Feed.Val w, Feed.Val rc, Feed.Val bc =>
      if accepted e then
        let rn := default "" (Feed.get (Feed.name rc)) in
        let bn := default "" (Feed.get (Feed.name bc)) in
        Some (if bool_decide (w = rn)
              then result_for_red ev cat w e rc bc bn
              else result_for_blue ev cat w e rc bc rn)
      else None
  | _, _, _ => None
  end.

Definition category_results (ev : option string) (c : Feed.Category)
  : list MatchResult :=
  omap (entry_result ev (Feed.get_or "" (Feed.category c))) (category_entries c).

Definition event_results (ev : Feed.Event) : list MatchResult :=
  Feed.items (Feed.categories ev)
  ≫= category_results (Feed.get_or "" (Feed.event_name ev)).

Definition feed_results (data : Feed.Data) : list MatchResult :=
  Feed.items (Feed.events data) ≫= event_results.

(** What [load_matches] does with one match result. *)
Definition ingest (self : LossChainAnalyzer) (m : MatchResult) : LossChainAnalyzer :=
  _update_records (append_match self m) m.

Definition null_get_error : Py.exn :=
  Py.AttributeError "'NoneType' object has no attribute 'get'".

Definition not_iterable_error : Py.exn :=
  Py.TypeError "'NoneType' object is not iterable".

(** What a loop of the loader returns.  [iterable] says that it meets no
    [null] list and [clean_] that it meets no fatal entry, in which case
    the result is [ok]; when it meets both faults, the first one decides
    the exception. *)
Definition load_outcome (iterable clean_ : bool)
    (ok : LossChainAnalyzer * nat)
    (r : Py.result (LossChainAnalyzer * nat)) : Prop :=
  if iterable
  then r = (if clean_ then Py.Ok ok else Py.Raise null_get_error)
  else exists e,
         r = Py.Raise e
         /\ (e = not_iterable_error \/ e = null_get_error)
         /\ (clean_ = true -> e = not_iterable_error).

(** The country under which a name is first met in a sequence of matches
    (as winner before loser within a match). *)
Fixpoint first_country (k : string) (ms : list MatchResult) : option string :=
  match ms with
  | [] => None
  | m :: ms' =>
      if String.eqb (winner m) k then Some (winner_country m)
      else if String.eqb (loser m) k then Some (loser_country m)
      else first_country k ms'
  end.

(** A feed as the bracket parser writes it: a bye has a [null] corner and
    no winner. *)
Definition bye_feed : Feed.Data :=
  feed_of [ entry (corner "ALI" "KSA" 5) (corner "SMITH" "UAE" 3) (Feed.Val "ALI");
            {| Feed.round := Feed.Val "Round 1";
               Feed.red_corner := Feed.Val (corner "OMAR" "UAE" 0);
               Feed.blue_corner := Feed.Null;
               Feed.winner := Feed.Null |};
            entry (corner "OMAR" "UAE" 1) (corner "ALI" "KSA" 4) (Feed.Val "ALI") ].

(** The record created for a name met for the first time. *)
Definition fresh_record (k c : string) : AthleteRecord :=
  {| name := k; country := c; wins := []; losses := [] |}.

(** What the record stored under [k] must be after the matches [ms]: the
    wins and losses are the matches of [k] in order, the country is the
    first one met; no record means that [k] played no match. *)
Definition record_faithful (ms : list MatchResult) (k : string)
    (r : option AthleteRecord) : Prop :=
  match r with
  | Some r =>
      name r = k
      /\ wins r = filter (fun m => winner m = k) ms
      /\ losses r = filter (fun m => loser m = k) ms
      /\ first_country k ms = Some (country r)
  | None => k ∉ match_names ms
  end.

(** The edges that a sequence of matches puts in the two graphs. *)
Definition beat_in (ms : list MatchResult) (a x : string) : Prop :=
  exists m, m ∈ ms /\ winner m = a /\ loser m = x.

(** Both graphs record exactly the matches of the analyzer, and no key holds
    an empty set. *)
Definition graphs_exact (s : LossChainAnalyzer) : Prop :=
  (forall a x, x ∈ Py.graph_get (win_graph s) a <-> beat_in (matches s) a x)
  /\ (forall a x, x ∈ Py.graph_get (loss_graph s) a <-> beat_in (matches s) x a)
  /\ (forall a (S : gset string), win_graph s !! a = Some S -> S <> ∅)
  /\ (forall a (S : gset string), loss_graph s !! a = Some S -> S <> ∅).

(** * Country filters and category membership *)

Definition is_saudi (r : AthleteRecord) : bool :=
  bool_decide (Py.upper (country r) ∈ SAUDI_CODES).

(** An Asian athlete outside the Saudi federation. *)
Definition is_opponent (r : AthleteRecord) : bool :=
  is_asian r && negb (is_saudi r).

(** Some match of [k] has a category label that contains [c], letter case
    aside (matches without a label count as not containing it). *)
Definition in_category (ms : list MatchResult) (k c : string) : bool :=
  existsb (fun m =>
             (String.eqb (winner m) k || String.eqb (loser m) k)
             && Py.contains (Py.lower c) (Py.lower (default "" (category m))))
          ms.

(** The candidate pool of a scouting report, in the order of the records. *)
Definition in_pool (ms : list MatchResult) (category_ : option string)
    (kv : string * AthleteRecord) : bool :=
  is_opponent (snd kv)
  && match category_ with
     | None => true
     | Some c => in_category ms (fst kv) c
     end.

Definition opponent_pool (self : LossChainAnalyzer) (category_ : option string)
  : list AthleteRecord :=
  snd <$> List.filter (in_pool (matches self) category_) (athlete_records self).

(** The Saudi athletes that a name filter selects. *)
Definition selected_saudi (self : LossChainAnalyzer) (saudi_name : option string)
  : list AthleteRecord :=
  if Py.truthy saudi_name
  then List.filter
         (fun r => Py.contains (Py.lower (default "" saudi_name))
                               (Py.lower (name r)))
         (get_saudi_athletes self)
  else get_saudi_athletes self.




(** * The category leaderboard reports

    [generate_asian_scouting_report] and [generate_world_scouting_report].
    The win rate of an entry is kept as the number that the source formats
    with [:.0%].  [sorted(top_by_category.items())] compares the category
    names, which are distinct, by code points. *)

Record LossDetail : Type := {
  lost_to : string;
  detail_winner_country : string;
  detail_score : option string;
  detail_event : option string;
  detail_round : option string
}.

Record AthleteEntry : Type := {
  entry_name : string;
  entry_country : string;
  entry_wins : nat;
  entry_losses : nat;
  entry_win_rate : Q;
  entry_total_matches : nat;
  loss_details : list LossDetail
}.

Record CategoryReport : Type := {
  report_category : string;
  report_athletes : list AthleteEntry
}.

Record LeaderboardReport : Type := {
  board_generated_at : string;
  board_total_matches_analyzed : nat;
  report_type : string;
  board_categories : list CategoryReport
}.

(** The body of the loop over the athletes of a category. *)
Definition athlete_entry (athlete : AthleteRecord) : AthleteEntry :=
  let losses_info :=
    foldl (fun info loss =>
             info ++ [{| lost_to := winner loss;
                         detail_winner_country := winner_country loss;
                         detail_score := score loss;
                         detail_event := event loss;
                         detail_round := round loss |}])
          [] (losses athlete) in
  {| entry_name := name athlete;
     entry_country := country athlete;
     entry_wins := length (wins athlete);
     entry_losses := length (losses athlete);
     entry_win_rate := win_rate athlete;
     entry_total_matches := total_matches athlete;
     loss_details := losses_info |}.

(** The body of the loop over the sorted categories. *)
Definition category_report (item : string * list AthleteRecord) : CategoryReport :=
  {| report_category := fst item;
     report_athletes :=
       foldl (fun entries athlete => entries ++ [athlete_entry athlete])
             [] (snd item) |}.

(** The part that the two generators share: the optional category filter
    and the loop over the sorted items. *)
Definition board_categories_of (top_by_category : gmap string (list AthleteRecord))
    (category_ : option string) : list CategoryReport :=
  (* Filter by category if specified *)
  let top_by_category :=
    if Py.truthy category_
    then filter (fun kv : string * list AthleteRecord =>
                   Py.contains (Py.lower (default "" category_))
                               (Py.lower (fst kv)) = true)
                top_by_category
    else top_by_category in
  foldl (fun cats item => cats ++ [category_report item])
        [] (Py.sort_by String.leb fst (map_to_list top_by_category)).

Definition generate_asian_scouting_report (self : LossChainAnalyzer)
    (now : string) (category_ : option string) (top_n : Z) : LeaderboardReport :=
  {| board_generated_at := now;
     board_total_matches_analyzed := length (matches self);
     report_type := "Asian Top 20";
     board_categories :=
       board_categories_of (get_top_asian_athletes_by_category self top_n)
                           category_ |}.

Definition generate_world_scouting_report (self : LossChainAnalyzer)
    (now : string) (category_ : option string) (top_n : Z) : LeaderboardReport :=
  {| board_generated_at := now;
     board_total_matches_analyzed := length (matches self);
     report_type := "World Top 20";
     board_categories :=
       board_categories_of (get_top_world_athletes_by_category self top_n)
                           category_ |}.

(** Strictly increasing category names. *)
Definition name_before (a b : string) : Prop :=
  String.leb a b = true /\ a <> b.

(** A second category for an athlete who changes weight class. *)
Definition two_category_feed : Feed.Data :=
  {| Feed.events :=
       Feed.Val
         [{| Feed.event_name := Feed.Val "Asian Open";
             Feed.verid := Feed.Val "714";
             Feed.categories :=
               Feed.Val
                 [{| Feed.category := Feed.Val "Male -85kg";
                     Feed.matches :=
                       Feed.Val [entry (corner "ALI" "KSA" 5)
                                       (corner "OMAR" "UAE" 3) (Feed.Val "ALI")] |};
                  {| Feed.category := Feed.Val "Male -77kg";
                     Feed.matches :=
                       Feed.Val [entry (corner "ALI" "KSA" 4)
                                       (corner "SMITH" "UAE" 0) (Feed.Val "ALI");
                                 entry (corner "SATO" "JPN" 2)
                                       (corner "SMITH" "UAE" 0)
                                       (Feed.Val "SATO")] |}] |}] |}.

(** * Feeds with [null] outside the corners *)

(** A category without a name: the key holds [null]. *)
Definition null_category_feed : Feed.Data :=
  {| Feed.events :=
       Feed.Val
         [{| Feed.event_name := Feed.Val "Asian Open";
             Feed.verid := Feed.Val "714";
             Feed.categories :=
               Feed.Val
                 [{| Feed.category := Feed.Null;
                     Feed.matches :=
                       Feed.Val [entry (corner "ALI" "KSA" 5)
                                       (corner "OMAR" "UAE" 3)
                                       (Feed.Val "ALI")] |}] |}] |}.

(** A category whose [matches] key holds [null], after a category with one
    match. *)
Definition null_list_feed : Feed.Data :=
  {| Feed.events :=
       Feed.Val
         [{| Feed.event_name := Feed.Val "Asian Open";
             Feed.verid := Feed.Val "714";
             Feed.categories :=
               Feed.Val
                 [{| Feed.category := Feed.Val "Male -77kg";
                     Feed.matches :=
                       Feed.Val [entry (corner "ALI" "KSA" 5)
                                       (corner "OMAR" "UAE" 3)
                                       (Feed.Val "ALI")] |};
                  {| Feed.category := Feed.Val "Male -85kg";
                     Feed.matches := Feed.Null |}] |}] |}.

(** * Properties

    Checks of the Python primitives on literal inputs come first. *)

Example int_plain : Py.int "12" = Some 12%Z.
Proof. reflexivity. Qed.
Example int_spaces : Py.int "  7 " = Some 7%Z.
Proof. reflexivity. Qed.
Example int_underscore : Py.int "1_0" = Some 10%Z.
Proof. reflexivity. Qed.
Example int_bad : Py.int "None" = None /\ Py.int "" = None /\ Py.int "1__0" = None.
Proof. repeat split; reflexivity. Qed.
Example int_white_space :
  Py.int (String (ascii_of_nat 133) "5") = Some 5%Z
  /\ Py.int (String (ascii_of_nat 28) "5") = None
  /\ Py.int "+ 5" = None.
Proof. repeat split; reflexivity. Qed.
Example split_score : Py.split "-" "5-3" = ["5"; "3"].
Proof. reflexivity. Qed.
Example split_negative : Py.split "-" "-5-3" = [""; "5"; "3"].
Proof. reflexivity. Qed.
Example slice_negative : Py.slice_to (-1) [1; 2; 3]%nat = [1; 2]%nat.
Proof. reflexivity. Qed.

(** The capital E with acute accent (201) is folded to the small one (233),
    the multiplication sign (215) is not a letter, and a filter with the
    small letter finds a label written with the capital. *)
Example lower_upper_half :
  Py.lower (String (ascii_of_nat 201) "LITE") = String (ascii_of_nat 233) "lite"
  /\ Py.lower (String (ascii_of_nat 215) "") = String (ascii_of_nat 215) ""
  /\ Py.contains (Py.lower (String (ascii_of_nat 233) "lite"))
                 (Py.lower ("Male " +:+ String (ascii_of_nat 201) "lite -77KG"))
     = true.
Proof. vm_compute. repeat split; reflexivity. Qed.

(** Folding moves a code point by 32 at most once: a folded string is its
    own fold. *)
Lemma lower_char_idempotent (c : ascii) :
  Py.lower_char (Py.lower_char c) = Py.lower_char c.
Proof.
  destruct c as [[] [] [] [] [] [] [] []]; vm_compute; reflexivity.
Qed.

Lemma lower_idempotent (s : string) : Py.lower (Py.lower s) = Py.lower s.
Proof.
  induction s as [| c s IH]; [reflexivity |].
  unfold Py.lower in *. cbn [Py.map_chars].
  rewrite lower_char_idempotent, IH. reflexivity.
Qed.

Example scenario_b_records :
  Py.dict_keys (athlete_records (loaded scenario_b)) = ["ALI"; "OMAR"; "SMITH"].
Proof. vm_compute. reflexivity. Qed.

(** * Arithmetic of scores *)

Section ScoreArithmetic.

Local Open Scope Q_scope.

Lemma of_nat_nonneg (n : nat) : 0 <= Py.of_nat n.
Proof.
  unfold Py.of_nat. change 0 with (inject_Z 0). rewrite <- Zle_Qle. lia.
Qed.

Lemma of_nat_pos (n : nat) : (0 < n)%nat -> 0 < Py.of_nat n.
Proof.
  intros Hn. unfold Py.of_nat. change 0 with (inject_Z 0).
  rewrite <- Zlt_Qlt. lia.
Qed.

Lemma of_nat_le (n m : nat) : (n <= m)%nat -> Py.of_nat n <= Py.of_nat m.
Proof. intros Hnm. unfold Py.of_nat. rewrite <- Zle_Qle. lia. Qed.

Lemma of_nat_zero (n : nat) : Py.of_nat n == 0 <-> n = 0%nat.
Proof.
  unfold Py.of_nat. change 0 with (inject_Z 0). rewrite inject_Z_injective. lia.
Qed.

Lemma Qltb_lt (x y : Q) : Py.Qltb x y = true <-> x < y.
Proof.
  unfold Py.Qltb. rewrite negb_true_iff.
  destruct (Qle_bool y x) eqn:E.
  - apply Qle_bool_iff in E. split; [discriminate | intros H; lra].
  - split; [intros _ | reflexivity].
    destruct (Qlt_le_dec x y) as [Hlt | Hle]; [exact Hlt |].
    apply Qle_bool_iff in Hle. congruence.
Qed.

Lemma Qltb_ge (x y : Q) : Py.Qltb x y = false <-> y <= x.
Proof.
  split.
  - intros E. destruct (Qlt_le_dec x y) as [Hlt | Hle]; [| exact Hle].
    apply Qltb_lt in Hlt. congruence.
  - intros Hle. destruct (Py.Qltb x y) eqn:E; [| reflexivity].
    apply Qltb_lt in E. lra.
Qed.

Lemma min_le_r (x y : Q) : Py.min x y <= y.
Proof.
  unfold Py.min. destruct (Py.Qltb y x) eqn:E; [lra |].
  apply Qltb_ge in E. exact E.
Qed.

Lemma min_nonneg (x y : Q) : 0 <= x -> 0 <= y -> 0 <= Py.min x y.
Proof. intros Hx Hy. unfold Py.min. destruct (Py.Qltb y x); assumption. Qed.

Lemma min_compat (x x' y : Q) : x == x' -> Py.min x y == Py.min x' y.
Proof.
  intros Hx. unfold Py.min.
  destruct (Py.Qltb y x) eqn:E, (Py.Qltb y x') eqn:E'; try lra.
  - apply Qltb_lt in E. apply Qltb_ge in E'. lra.
  - apply Qltb_ge in E. apply Qltb_lt in E'. lra.
Qed.

(** A quotient of lengths [w / t] with [w <= t] and [0 < t]. *)
Lemma ratio_bounds (w t : nat) :
  (0 < t)%nat -> (w <= t)%nat ->
  0 <= Py.of_nat w / Py.of_nat t <= 1.
Proof.
  intros Ht Hwt. pose proof (of_nat_pos t Ht) as Hpos.
  pose proof (of_nat_nonneg w) as Hw. pose proof (of_nat_le w t Hwt) as Hle.
  split.
  - apply Qle_shift_div_l; [exact Hpos | lra].
  - apply Qle_shift_div_r; [exact Hpos | lra].
Qed.

Lemma ratio_zero (w t : nat) :
  (0 < t)%nat -> (Py.of_nat w / Py.of_nat t == 0 <-> w = 0%nat).
Proof.
  intros Ht. pose proof (of_nat_pos t Ht) as Hpos.
  rewrite <- of_nat_zero. split; intros H.
  - assert (E : Py.of_nat w == Py.of_nat w / Py.of_nat t * Py.of_nat t)
      by (field; lra).
    rewrite E, H. ring.
  - rewrite H. field. lra.
Qed.

End ScoreArithmetic.

(** * [AthleteRecord.win_rate] *)

Lemma win_rate_bounds (r : AthleteRecord) : (0 <= win_rate r <= 1)%Q.
Proof.
  unfold win_rate.
  destruct (0 <? length (wins r) + length (losses r))%nat eqn:E.
  - apply Nat.ltb_lt in E. apply ratio_bounds; lia.
  - split; [apply Qle_refl | discriminate].
Qed.

Lemma win_rate_zero_iff (r : AthleteRecord) :
  (win_rate r == 0)%Q <-> length (wins r) = 0%nat.
Proof.
  unfold win_rate.
  destruct (0 <? length (wins r) + length (losses r))%nat eqn:E.
  - apply Nat.ltb_lt in E. apply ratio_zero. exact E.
  - apply Nat.ltb_ge in E. split; [lia | reflexivity].
Qed.

(** C2, as stated, fails: an athlete who lost every match has a win rate of
    0 although [total_matches] is not 0. *)
Lemma win_rate_zero_with_matches :
  (win_rate only_a_loss == 0)%Q /\ total_matches only_a_loss = 1%nat
  /\ ~ ((win_rate only_a_loss == 0)%Q <-> total_matches only_a_loss = 0%nat).
Proof.
  split; [reflexivity |]. split; [reflexivity |].
  intros [H _]. discriminate H. reflexivity.
Qed.

(** C2, amended: for every AthleteRecord, [win_rate] lies in [0, 1], and
    [win_rate] is 0 exactly when the athlete has no win; in particular it
    is 0 when [total_matches] is 0. *)
Theorem win_rate_range_and_zero (r : AthleteRecord) :
  (0 <= win_rate r <= 1)%Q
  /\ ((win_rate r == 0)%Q <-> length (wins r) = 0%nat)
  /\ (total_matches r = 0%nat -> (win_rate r == 0)%Q).
Proof.
  split; [apply win_rate_bounds |]. split; [apply win_rate_zero_iff |].
  intros Ht. apply win_rate_zero_iff. unfold total_matches in Ht. lia.
Qed.

(** * [calculate_beatability]: the five steps against the five signals *)

Lemma foldl_snoc {A B} (f : A -> B) (l : list A) (acc : list B) :
  foldl (fun r x => r ++ [f x]) acc l = acc ++ (f <$> l).
Proof.
  revert acc. induction l as [| x l IH]; intros acc; simpl.
  - symmetry. apply app_nil_r.
  - rewrite IH, <- app_assoc. reflexivity.
Qed.

Lemma shared_losses_signal_spec self R O (s : Q) (r : list Reason) :
  (fst (shared_losses_signal self R O (s, r))
   == s + shared_loss_contribution self R O)%Q
  /\ snd (shared_losses_signal self R O (s, r))
     = r ++ shared_loss_lines self R O.
Proof.
  unfold shared_losses_signal, shared_loss_contribution, shared_loss_lines.
  cbv zeta. fold (shared_loss_set self R O).
  destruct (decide (shared_loss_set self R O = ∅)) as [He | Hne].
  - rewrite bool_decide_eq_false_2 by (intros Hn; apply Hn, He).
    rewrite He, size_empty, elements_empty. simpl. split.
    + unfold Py.of_nat. simpl. ring.
    + symmetry. apply app_nil_r.
  - rewrite bool_decide_eq_true_2 by exact Hne. simpl. split.
    + reflexivity.
    + apply (foldl_snoc (fun x => LostTo x (name R))).
Qed.

Lemma win_rate_signal_spec R O (s : Q) (r : list Reason) :
  (fst (win_rate_signal R O (s, r)) == s + win_rate_gap_contribution R O)%Q
  /\ snd (win_rate_signal R O (s, r)) = r ++ win_rate_gap_lines R O.
Proof.
  unfold win_rate_signal, win_rate_gap_contribution, win_rate_gap_lines.
  destruct (Py.Qltb (win_rate O) (win_rate R)); simpl; split;
    try reflexivity; [ring | symmetry; apply app_nil_r].
Qed.

Lemma recent_window (l : list MatchResult) :
  (if (3 <=? length l)%nat then Py.last_n 3 l else l) = window l.
Proof.
  unfold window, Py.last_n. destruct (3 <=? length l)%nat eqn:E; [reflexivity |].
  apply Nat.leb_gt in E. replace (length l - 3)%nat with 0%nat by lia.
  reflexivity.
Qed.

Lemma recent_form_signal_spec O (s : Q) (r : list Reason) :
  (fst (fst (recent_form_signal O (s, r))) == s + recent_form_contribution O)%Q
  /\ snd (fst (recent_form_signal O (s, r))) = r ++ recent_form_lines O
  /\ snd (recent_form_signal O (s, r)) = form_label O.
Proof.
  unfold recent_form_signal, recent_form_contribution, recent_form_lines,
    form_label.
  cbv zeta. rewrite !recent_window.
  destruct (length (window (wins O)) <? length (window (losses O)))%nat;
    [simpl; repeat split; reflexivity |].
  destruct (length (window (losses O)) <? length (window (wins O)))%nat;
    simpl; repeat split; try reflexivity;
    try ring; symmetry; apply app_nil_r.
Qed.

Lemma experience_signal_spec R O (s : Q) (r : list Reason) :
  (fst (experience_signal R O (s, r)) == s + experience_contribution R O)%Q
  /\ snd (experience_signal R O (s, r)) = r ++ experience_lines R O.
Proof.
  unfold experience_signal, experience_contribution, experience_lines.
  destruct (total_matches O <? total_matches R)%nat; simpl; split;
    try reflexivity; [ring | symmetry; apply app_nil_r].
Qed.

(** One turn of the close-losses loop: the loss is appended exactly when it
    is a close loss in the sense of the specification. *)
Lemma close_losses_body_spec (acc : list CloseLoss) (loss : MatchResult) :
  close_losses_body acc loss =
  if decide (close_loss loss)
  then acc ++ [{| cl_to := winner loss; cl_score := score loss;
                  cl_event := event loss |}]
  else acc.
Proof.
  unfold close_losses_body.
  destruct (decide (close_loss loss))
    as [(s & a & b & Hs & (p0 & p1 & Hsp & Ha & Hb) & Hd) | Hn].
  - rewrite Hs. destruct s as [| c s]; [discriminate Hsp |].
    cbn [Py.truthy String.eqb negb default from_option id]. rewrite Hsp, Ha, Hb.
    apply Z.leb_le in Hd. cbv zeta. rewrite Hd. reflexivity.
  - destruct (score loss) as [s |] eqn:Hs; [| reflexivity].
    destruct (Py.truthy (Some s)); [| reflexivity].
    cbn [default from_option id].
    destruct (Py.split "-" s) as [| p0 [| p1 [| p2 ps]]] eqn:Hsp;
      try reflexivity.
    destruct (Py.int p0) as [a |] eqn:Ha; [| reflexivity].
    destruct (Py.int p1) as [b |] eqn:Hb; [| reflexivity].
    cbv zeta. destruct (Z.abs (a - b) <=? 3)%Z eqn:Hd; [| reflexivity].
    exfalso. apply Hn. exists s, a, b. split; [exact Hs |].
    split; [exists p0, p1; auto | apply Z.leb_le, Hd].
Qed.

Lemma close_losses_loop_length (l : list MatchResult) (acc : list CloseLoss) :
  length (foldl close_losses_body acc l)
  = (length acc + length (filter close_loss l))%nat.
Proof.
  revert acc. induction l as [| loss l IH]; intros acc; simpl.
  - lia.
  - rewrite IH, close_losses_body_spec.
    destruct (decide (close_loss loss)) as [Hc | Hc].
    + rewrite filter_cons_True by exact Hc. rewrite length_app. simpl. lia.
    + rewrite filter_cons_False by exact Hc. reflexivity.
Qed.

Lemma close_losses_signal_spec O (s : Q) (r : list Reason) :
  (fst (close_losses_signal O (s, r)) == s + close_losses_contribution O)%Q
  /\ snd (close_losses_signal O (s, r)) = r ++ close_losses_lines O.
Proof.
  unfold close_losses_signal, close_losses_contribution, close_losses_lines.
  cbv zeta. rewrite close_losses_loop_length. simpl.
  fold (close_loss_count O).
  destruct (0 <? close_loss_count O)%nat eqn:E; simpl; split;
    try reflexivity.
  - apply Nat.ltb_ge in E. replace (close_loss_count O) with 0%nat by lia.
    unfold Py.of_nat. simpl. ring.
  - symmetry. apply app_nil_r.
Qed.

(** The record built by [calculate_beatability]: the accumulated score is
    the sum of the five contributions and the reasoning is the five groups
    of lines, in the order of the signals. *)
Lemma calculate_beatability_signals self R O :
  exists total : Q,
    (total == shared_loss_contribution self R O
              + win_rate_gap_contribution R O
              + recent_form_contribution O
              + experience_contribution R O
              + close_losses_contribution O)%Q
    /\ beatability_score (calculate_beatability self R O) = Py.min total 1%Q
    /\ reasoning (calculate_beatability self R O)
       = shared_loss_lines self R O ++ win_rate_gap_lines R O
         ++ recent_form_lines O ++ experience_lines R O
         ++ close_losses_lines O
    /\ recent_form (calculate_beatability self R O) = form_label O.
Proof.
  unfold calculate_beatability.
  destruct (shared_losses_signal_spec self R O 0%Q []) as [H1s H1r].
  destruct (shared_losses_signal self R O (0%Q, [])) as [s1 r1].
  destruct (win_rate_signal_spec R O s1 r1) as [H2s H2r].
  destruct (win_rate_signal R O (s1, r1)) as [s2 r2].
  destruct (recent_form_signal_spec O s2 r2) as (H3s & H3r & H3f).
  destruct (recent_form_signal O (s2, r2)) as [[s3 r3] form].
  destruct (experience_signal_spec R O s3 r3) as [H4s H4r].
  destruct (experience_signal R O (s3, r3)) as [s4 r4].
  destruct (close_losses_signal_spec O s4 r4) as [H5s H5r].
  destruct (close_losses_signal O (s4, r4)) as [s5 r5].
  simpl in *. exists s5. split; [lra |]. split; [reflexivity |].
  split; [| exact H3f]. subst. rewrite <- !app_assoc. reflexivity.
Qed.

(** * [list.sort]: permutation, order and stability *)

Section SortFacts.

Context {A K : Type} (le : K -> K -> bool) (key : A -> K).

Lemma insert_by_perm (x : A) (l : list A) : Py.insert_by le key x l ≡ₚ x :: l.
Proof.
  induction l as [| y l IH]; simpl; [reflexivity |].
  destruct (le (key x) (key y)); [reflexivity |].
  rewrite IH. apply perm_swap.
Qed.

Lemma sort_by_perm (l : list A) : Py.sort_by le key l ≡ₚ l.
Proof.
  induction l as [| x l IH]; simpl; [reflexivity |].
  rewrite insert_by_perm. rewrite IH. reflexivity.
Qed.

Lemma sort_by_Forall (P : A -> Prop) (l : list A) :
  Forall P l -> Forall P (Py.sort_by le key l).
Proof. intros H. rewrite sort_by_perm. exact H. Qed.

(** The order of the result, for a total preorder on the keys. *)
Abbreviation key_le := (Py.key_le le key).

Hypothesis le_total : forall a b, le a b = false -> le b a = true.
Hypothesis le_trans : forall a b c, le a b = true -> le b c = true -> le a c = true.

Lemma insert_by_sorted (x : A) (l : list A) :
  StronglySorted key_le l -> StronglySorted key_le (Py.insert_by le key x l).
Proof.
  induction 1 as [| y l Hs IH Hy]; simpl.
  - constructor; constructor.
  - destruct (le (key x) (key y)) eqn:E.
    + constructor; [constructor; assumption |].
      constructor; [exact E |].
      eapply Forall_impl; [exact Hy |]. intros z Hz. unfold Py.key_le in *.
      eapply le_trans; eassumption.
    + constructor; [exact IH |].
      rewrite insert_by_perm. constructor; [| exact Hy].
      apply le_total, E.
Qed.

Lemma sort_by_sorted (l : list A) : StronglySorted key_le (Py.sort_by le key l).
Proof.
  induction l as [| x l IH]; simpl; [constructor |].
  apply insert_by_sorted, IH.
Qed.

(** Stability: the elements of any one key keep their relative order. *)
Context `{EqDecision K}.
Hypothesis le_refl : forall a, le a a = true.

Lemma insert_by_stable (k : K) (x : A) (l : list A) :
  filter (fun y => key y = k) (Py.insert_by le key x l)
  = filter (fun y => key y = k) (x :: l).
Proof.
  induction l as [| y l IH]; simpl; [reflexivity |].
  destruct (le (key x) (key y)) eqn:E; [reflexivity |].
  rewrite filter_cons, IH, !filter_cons.
  destruct (decide (key y = k)) as [Hy | Hy],
           (decide (key x = k)) as [Hx | Hx]; try reflexivity.
  rewrite Hx, Hy, le_refl in E. discriminate E.
Qed.

Lemma sort_by_stable (k : K) (l : list A) :
  filter (fun y => key y = k) (Py.sort_by le key l)
  = filter (fun y => key y = k) l.
Proof.
  induction l as [| x l IH]; simpl; [reflexivity |].
  rewrite insert_by_stable, !filter_cons, IH. reflexivity.
Qed.

End SortFacts.

(** * Slices *)

Lemma slice_to_sublist {A} (n : Z) (l : list A) :
  exists k, Py.slice_to n l = take k l.
Proof. unfold Py.slice_to. destruct (0 <=? n)%Z; eexists; reflexivity. Qed.

Lemma slice_to_Forall {A} (P : A -> Prop) (n : Z) (l : list A) :
  Forall P l -> Forall P (Py.slice_to n l).
Proof.
  intros H. destruct (slice_to_sublist n l) as [k ->]. apply Forall_take, H.
Qed.

Lemma slice_to_length {A} (n : Z) (l : list A) :
  (0 <= n)%Z -> (Z.of_nat (length (Py.slice_to n l)) <= n)%Z.
Proof.
  intros Hn. unfold Py.slice_to. rewrite (proj2 (Z.leb_le 0 n) Hn).
  rewrite length_take. lia.
Qed.

(** * C1: the score is the clamped sum, and lies in [0, 1] *)

Lemma contributions_nonneg self R O :
  (0 <= shared_loss_contribution self R O)%Q
  /\ (0 <= win_rate_gap_contribution R O)%Q
  /\ (0 <= recent_form_contribution O)%Q
  /\ (0 <= experience_contribution R O)%Q
  /\ (0 <= close_losses_contribution O)%Q.
Proof.
  unfold shared_loss_contribution, win_rate_gap_contribution,
    recent_form_contribution, experience_contribution,
    close_losses_contribution.
  pose proof (of_nat_nonneg (size (shared_loss_set self R O))).
  pose proof (of_nat_nonneg (Nat.min (close_loss_count O) 3)).
  repeat split; try lra.
  - destruct (Py.Qltb (win_rate O) (win_rate R)) eqn:E; [| lra].
    apply Qltb_lt in E. lra.
  - destruct (_ <? _)%nat; lra.
  - destruct (_ <? _)%nat; lra.
Qed.

Lemma beatability_score_bounds self R O :
  (0 <= beatability_score (calculate_beatability self R O) <= 1)%Q.
Proof.
  destruct (calculate_beatability_signals self R O) as (t & Ht & -> & _).
  destruct (contributions_nonneg self R O) as (H1 & H2 & H3 & H4 & H5).
  split; [| apply min_le_r].
  apply min_nonneg; lra.
Qed.

Lemma targets_loop_scores self saudi (opponents : list AthleteRecord) acc :
  Forall in_unit_interval acc ->
  Forall in_unit_interval
    (foldl (fun targets opp =>
              if String.eqb (name opp) (name saudi) then targets
              else
                let target := calculate_beatability self saudi opp in
                if Py.Qltb 0 (beatability_score target)
                then targets ++ [target] else targets)
           acc opponents).
Proof.
  revert acc. induction opponents as [| opp opps IH]; intros acc Hacc; simpl;
    [exact Hacc |].
  apply IH. destruct (String.eqb (name opp) (name saudi)); [exact Hacc |].
  destruct (Py.Qltb 0 (beatability_score (calculate_beatability self saudi opp)));
    [| exact Hacc].
  apply Forall_app. split; [exact Hacc |].
  constructor; [apply beatability_score_bounds | constructor].
Qed.

Lemma athlete_report_scores self opponents saudi :
  Forall in_unit_interval (scouting_targets (athlete_report self opponents saudi)).
Proof.
  unfold athlete_report. cbn [scouting_targets].
  apply slice_to_Forall, sort_by_Forall, targets_loop_scores. constructor.
Qed.

Lemma report_loop_scores self opponents (athletes : list AthleteRecord) acc :
  Forall (fun ar => Forall in_unit_interval (scouting_targets ar)) acc ->
  Forall (fun ar => Forall in_unit_interval (scouting_targets ar))
    (foldl (fun reports saudi =>
              reports ++ [athlete_report self opponents saudi])
           acc athletes).
Proof.
  revert acc. induction athletes as [| a l IH]; intros acc Hacc; simpl;
    [exact Hacc |].
  apply IH, Forall_app. split; [exact Hacc |].
  constructor; [apply athlete_report_scores | constructor].
Qed.

Lemma beatability_score_sum self R O :
  (beatability_score (calculate_beatability self R O)
   == Py.min (shared_loss_contribution self R O
              + win_rate_gap_contribution R O
              + recent_form_contribution O
              + experience_contribution R O
              + close_losses_contribution O) 1)%Q.
Proof.
  destruct (calculate_beatability_signals self R O) as (t & Ht & -> & _).
  apply min_compat, Ht.
Qed.

(** C1: the beatability score returned by [calculate_beatability] is the
    sum of the five signal contributions clamped to at most 1, it is never
    negative, and every score in a generated scouting report lies in
    [0, 1]. *)
Theorem beatability_score_clamped_sum
    (self : LossChainAnalyzer) (R O : AthleteRecord)
    (now : string) (saudi_name category_ : option string) :
  (beatability_score (calculate_beatability self R O)
   == Py.min (shared_loss_contribution self R O
              + win_rate_gap_contribution R O
              + recent_form_contribution O
              + experience_contribution R O
              + close_losses_contribution O) 1)%Q
  /\ (0 <= beatability_score (calculate_beatability self R O) <= 1)%Q
  /\ match generate_scouting_report self now saudi_name category_ with
     | Py.Ok report =>
         Forall (fun ar => Forall in_unit_interval (scouting_targets ar))
                (scouting_reports report)
     | Py.Raise _ => True
     end.
Proof.
  split; [apply beatability_score_sum |].
  split; [apply beatability_score_bounds |].
  unfold generate_scouting_report.
  destruct (if Py.truthy saudi_name then _ else _) as [| a l];
    [constructor |].
  destruct (get_asian_opponents self category_) as [opponents | e];
    [| exact I].
  cbn. apply report_loop_scores.
  constructor; [apply athlete_report_scores | constructor].
Qed.

(** The report of Scenario B is generated and lists two scored targets. *)
Example scenario_b_report :
  match generate_scouting_report (loaded scenario_b) "2026" None None with
  | Py.Ok report =>
      (fun ar => opponent_name <$> scouting_targets ar)
        <$> scouting_reports report = [["SMITH"; "OMAR"]]
  | Py.Raise _ => False
  end.
Proof. vm_compute. reflexivity. Qed.

(** * C4: the shared-loss signal *)

Lemma other_lines_not_lost_to R O :
  List.filter is_lost_to
    (win_rate_gap_lines R O ++ recent_form_lines O ++ experience_lines R O
     ++ close_losses_lines O) = [].
Proof.
  unfold win_rate_gap_lines, recent_form_lines, experience_lines,
    close_losses_lines.
  destruct (Py.Qltb _ _), (length (window (wins O)) <? _)%nat,
    (total_matches O <? _)%nat, (0 <? _)%nat; reflexivity.
Qed.

Lemma lost_to_lines_kept (who : string) (l : list string) :
  List.filter is_lost_to ((fun x => LostTo x who) <$> l)
  = (fun x => LostTo x who) <$> l.
Proof. induction l as [| x l IH]; [reflexivity |]. cbn. f_equal. exact IH. Qed.

(** C4: with S = win_graph(R) ∩ loss_graph(O), the shared-loss step adds
    exactly 0.3 × |S| to the score, which enters the clamped sum, and the
    reasoning holds exactly one "Lost to" line per member of S; when S is a
    singleton the contribution is 0.3. *)
Theorem shared_loss_signal_contribution
    (self : LossChainAnalyzer) (R O : AthleteRecord) :
  let S := Py.graph_get (win_graph self) (name R)
           ∩ Py.graph_get (loss_graph self) (name O) in
  let lines := (fun x => LostTo x (name R)) <$> elements S in
  (forall (s : Q) (r : list Reason),
      (fst (shared_losses_signal self R O (s, r))
       == s + (3 # 10) * Py.of_nat (size S))%Q
      /\ snd (shared_losses_signal self R O (s, r)) = r ++ lines)
  /\ (beatability_score (calculate_beatability self R O)
      == Py.min ((3 # 10) * Py.of_nat (size S)
                 + win_rate_gap_contribution R O
                 + recent_form_contribution O
                 + experience_contribution R O
                 + close_losses_contribution O) 1)%Q
  /\ List.filter is_lost_to (reasoning (calculate_beatability self R O)) = lines
  /\ length lines = size S
  /\ NoDup lines
  /\ (forall x, x ∈ S <-> LostTo x (name R) ∈ lines)
  /\ (forall x, S = {[ x ]} ->
        ((3 # 10) * Py.of_nat (size S) == 3 # 10)%Q
        /\ lines = [LostTo x (name R)]).
Proof.
  intros S lines. fold (shared_loss_set self R O) in S.
  split; [intros s r; apply shared_losses_signal_spec |].
  split; [apply beatability_score_sum |].
  split.
  { destruct (calculate_beatability_signals self R O) as (t & _ & _ & -> & _).
    rewrite List.filter_app, other_lines_not_lost_to, app_nil_r.
    apply lost_to_lines_kept. }
  split; [subst lines; rewrite length_fmap; reflexivity |].
  split.
  { subst lines. apply NoDup_fmap_2; [| apply NoDup_elements].
    intros x y Hxy. injection Hxy as ->. reflexivity. }
  split.
  { intros x. subst lines. rewrite list_elem_of_fmap. split.
    - intros Hx. exists x. split; [reflexivity | apply elem_of_elements, Hx].
    - intros (y & Hy & Hin). injection Hy as ->. apply elem_of_elements, Hin. }
  intros x Hx. subst lines. rewrite Hx, size_singleton, elements_singleton.
  split; reflexivity.
Qed.

(** Scenario B: OMAR is the one athlete ALI has beaten and SMITH lost to. *)
Example scenario_b_shared_loss :
  let self := loaded scenario_b in
  shared_loss_set self (record_of self "ALI") (record_of self "SMITH")
  = {[ "OMAR" ]}
  /\ reasoning (calculate_beatability self (record_of self "ALI")
                                      (record_of self "SMITH"))
     = [LostTo "OMAR" "ALI"; LowerWinRate (0 # 2) (2 # 2); FormDeclining 2;
        HasCloseLosses 1]
  /\ (beatability_score (calculate_beatability self (record_of self "ALI")
                                               (record_of self "SMITH"))
      == 75 # 100)%Q.
Proof. vm_compute. repeat split; reflexivity. Qed.

(** * C6: the close-losses signal *)

Lemma close_losses_loop (l : list MatchResult) (acc : list CloseLoss) :
  foldl close_losses_body acc l
  = acc ++ (close_loss_entry <$> filter close_loss l).
Proof.
  revert acc. induction l as [| loss l IH]; intros acc; simpl.
  - symmetry. apply app_nil_r.
  - rewrite IH, close_losses_body_spec.
    destruct (decide (close_loss loss)) as [Hc | Hc].
    + rewrite filter_cons_True by exact Hc. rewrite <- app_assoc. reflexivity.
    + rewrite filter_cons_False by exact Hc. reflexivity.
Qed.

Lemma unparsed_not_close (loss : MatchResult) :
  ~ (exists s a b, score loss = Some s /\ score_parses s a b) ->
  ~ close_loss loss.
Proof.
  intros Hn (s & a & b & Hs & Hp & _). apply Hn. exists s, a, b. auto.
Qed.

(** C6: the close-losses loop collects exactly the losses whose score
    splits on '-' into two integers at most 3 apart, the step adds
    0.1 × min(count, 3) to the score, and a loss whose score does not parse
    leaves the collection as it was; the step is a total function, so no
    score string makes it raise. *)
Theorem close_losses_signal_counts (O : AthleteRecord) :
  let count := length (filter close_loss (losses O)) in
  foldl close_losses_body [] (losses O)
  = close_loss_entry <$> filter close_loss (losses O)
  /\ (forall (s : Q) (r : list Reason),
        (fst (close_losses_signal O (s, r))
         == s + (1 # 10) * Py.of_nat (Nat.min count 3))%Q
        /\ snd (close_losses_signal O (s, r))
           = r ++ (if (0 <? count)%nat then [HasCloseLosses count] else []))
  /\ (forall (self : LossChainAnalyzer) (R : AthleteRecord),
        (beatability_score (calculate_beatability self R O)
         == Py.min (shared_loss_contribution self R O
                    + win_rate_gap_contribution R O
                    + recent_form_contribution O
                    + experience_contribution R O
                    + (1 # 10) * Py.of_nat (Nat.min count 3)) 1)%Q)
  /\ (forall (acc : list CloseLoss) (loss : MatchResult),
        ~ (exists s a b, score loss = Some s /\ score_parses s a b) ->
        close_losses_body acc loss = acc).
Proof.
  intros count. split; [apply (close_losses_loop (losses O) []) |].
  split; [intros s r; apply close_losses_signal_spec |].
  split; [intros self R; apply beatability_score_sum |].
  intros acc loss Hn. rewrite close_losses_body_spec.
  destruct (decide (close_loss loss)) as [Hc | Hc]; [| reflexivity].
  exfalso. exact (unparsed_not_close loss Hn Hc).
Qed.

Example close_losses_on_scores :
  length (foldl close_losses_body []
            (loss_with_score <$>
               [Some "5-3"; Some "0-4"; Some "None-2"; Some "-1-2"; None;
                Some ""; Some "7"; Some " 2 - 5 "; Some "1-2-3"; Some "x-y"]))
  = 2%nat.
Proof. vm_compute. reflexivity. Qed.

(** * Dictionaries and graphs *)

Lemma dict_mem_keys {V} (k : string) (d : Py.dict V) :
  Py.dict_mem k d = true <-> k ∈ Py.dict_keys d.
Proof.
  unfold Py.dict_mem, Py.dict_keys.
  induction d as [| [k' v] d IH]; simpl.
  - split; [discriminate | intros H; inversion H].
  - rewrite elem_of_cons. destruct (String.eqb_spec k k') as [-> | Hne].
    + split; auto.
    + rewrite IH. split; [auto | intros [? | ?]; [contradiction | assumption]].
Qed.

Lemma dict_keys_set {V} (k : string) (v : V) (d : Py.dict V) :
  Py.dict_mem k d = false ->
  Py.dict_keys (Py.dict_set k v d) = Py.dict_keys d ++ [k].
Proof.
  unfold Py.dict_mem, Py.dict_keys.
  induction d as [| [k' v'] d IH]; simpl; [reflexivity |].
  destruct (String.eqb k k'); [discriminate |].
  intros H. cbn. f_equal. exact (IH H).
Qed.

Lemma dict_keys_update {V} (f : V -> V) (k : string) (d : Py.dict V) :
  Py.dict_keys (Py.dict_update f k d) = Py.dict_keys d.
Proof.
  unfold Py.dict_keys. induction d as [| [k' v'] d IH]; simpl; [reflexivity |].
  destruct (String.eqb k k'); cbn; [reflexivity |]. f_equal. exact IH.
Qed.

Lemma dict_get_set_new {V} (k : string) (v : V) (d : Py.dict V) :
  Py.dict_mem k d = false -> Py.dict_get k (Py.dict_set k v d) = Some v.
Proof.
  unfold Py.dict_mem.
  induction d as [| [k' v'] d IH]; simpl.
  - rewrite String.eqb_refl. reflexivity.
  - destruct (String.eqb k k') eqn:E; [discriminate |].
    intros H. simpl. rewrite E. apply IH, H.
Qed.

Lemma dict_get_set_other {V} (k k' : string) (v : V) (d : Py.dict V) :
  k <> k' -> Py.dict_get k' (Py.dict_set k v d) = Py.dict_get k' d.
Proof.
  intros Hne. induction d as [| [k0 v0] d IH]; simpl.
  - destruct (String.eqb_spec k' k); [congruence | reflexivity].
  - destruct (String.eqb_spec k k0) as [-> | Hk]; simpl.
    + destruct (String.eqb_spec k' k0); [congruence | reflexivity].
    + rewrite IH. reflexivity.
Qed.

Lemma dict_get_update {V} (f : V -> V) (k k' : string) (d : Py.dict V) :
  Py.dict_get k' (Py.dict_update f k d)
  = if String.eqb k k' then f <$> Py.dict_get k' d else Py.dict_get k' d.
Proof.
  induction d as [| [k0 v0] d IH]; simpl.
  - destruct (String.eqb k k'); reflexivity.
  - destruct (String.eqb_spec k k0) as [-> | Hk]; simpl.
    + destruct (String.eqb_spec k' k0) as [-> | Hk'].
      * rewrite String.eqb_refl. reflexivity.
      * destruct (String.eqb_spec k0 k'); [congruence | reflexivity].
    + destruct (String.eqb_spec k' k0) as [-> | Hk'].
      * destruct (String.eqb_spec k k0); [congruence | reflexivity].
      * exact IH.
Qed.

Lemma records_named_set (k : string) (r : AthleteRecord) d :
  name r = k -> records_named d -> records_named (Py.dict_set k r d).
Proof.
  intros Hk. unfold records_named.
  induction d as [| [k' v'] d IH]; simpl; intros H.
  - constructor; [exact Hk | constructor].
  - apply Forall_cons in H as [Hh Ht].
    destruct (String.eqb k k'); constructor; auto.
Qed.

Lemma records_named_update (f : AthleteRecord -> AthleteRecord) (k : string) d :
  (forall r, name (f r) = name r) ->
  records_named d -> records_named (Py.dict_update f k d).
Proof.
  intros Hf. unfold records_named.
  induction d as [| [k' v'] d IH]; simpl; intros H; [constructor |].
  apply Forall_cons in H as [Hh Ht]. simpl in Hh.
  destruct (String.eqb k k'); constructor; simpl; auto.
  rewrite Hf. exact Hh.
Qed.

Lemma graph_get_add (g : gmap string (gset string)) (k x : string) :
  Py.graph_get (Py.graph_add g k x) k = Py.graph_get g k ∪ {[ x ]}.
Proof.
  unfold Py.graph_add. unfold Py.graph_get at 1.
  rewrite lookup_insert_eq. reflexivity.
Qed.

Lemma graph_add_edge (g : gmap string (gset string)) (k x : string) :
  has_edge (Py.graph_add g k x) k x.
Proof.
  exists (Py.graph_get g k ∪ {[ x ]}). split.
  - unfold Py.graph_add. apply lookup_insert_eq.
  - set_solver.
Qed.

Lemma graph_add_keeps (g : gmap string (gset string)) (k x k' y : string) :
  has_edge g k' y -> has_edge (Py.graph_add g k x) k' y.
Proof.
  intros (s & Hs & Hy). unfold Py.graph_add.
  destruct (decide (k = k')) as [-> | Hne].
  - exists (Py.graph_get g k' ∪ {[ x ]}). split; [apply lookup_insert_eq |].
    unfold Py.graph_get. rewrite Hs. simpl. set_solver.
  - exists s. split; [| exact Hy]. rewrite lookup_insert_ne; assumption.
Qed.

Lemma graph_add_idempotent (g : gmap string (gset string)) (k x : string) :
  Py.graph_add (Py.graph_add g k x) k x = Py.graph_add g k x.
Proof.
  unfold Py.graph_add at 1. rewrite graph_get_add.
  unfold Py.graph_add. rewrite insert_insert_eq. f_equal.
  rewrite <- (assoc_L (∪)), (idemp_L (∪)). reflexivity.
Qed.

(** * [_update_records] *)

Lemma update_records_matches self m :
  matches (_update_records self m) = matches self.
Proof. reflexivity. Qed.

Lemma update_records_edges self m : edges_of (_update_records self m) m.
Proof. split; apply graph_add_edge. Qed.

Lemma update_records_keeps_edges self m m' :
  edges_of self m' -> edges_of (_update_records self m) m'.
Proof. intros [Hw Hl]. split; apply graph_add_keeps; assumption. Qed.

Lemma update_records_graphs_idempotent self m :
  win_graph (_update_records (_update_records self m) m)
  = win_graph (_update_records self m)
  /\ loss_graph (_update_records (_update_records self m) m)
     = loss_graph (_update_records self m).
Proof. split; apply graph_add_idempotent. Qed.

Lemma update_records_sequence_keeps (ms : list MatchResult) self m :
  edges_of self m -> edges_of (foldl _update_records self ms) m.
Proof.
  revert self. induction ms as [| m1 ms IH]; intros self Hs; simpl;
    [exact Hs |].
  apply IH, update_records_keeps_edges, Hs.
Qed.

Lemma update_records_sequence (ms : list MatchResult) self m :
  m ∈ ms -> edges_of (foldl _update_records self ms) m.
Proof.
  revert self. induction ms as [| m0 ms IH]; intros self Hin;
    [inversion Hin |].
  simpl. apply elem_of_cons in Hin as [-> | Hin]; [| apply IH, Hin].
  apply update_records_sequence_keeps, update_records_edges.
Qed.

(** * [load_matches]: what one entry does, and loop invariants *)

(** A loop over a key of the feed raises on [null] and walks the elements
    otherwise. *)
Lemma iter_get_or {A S} (f : Feed.field (list A)) (k : list A -> Py.result S) :
  Py.iter (Feed.get_or [] f) ≫= k
  = if is_null f then Py.Raise not_iterable_error else k (Feed.items f).
Proof. destruct f; reflexivity. Qed.

Lemma iter_get_or_Ok {A S} (f : Feed.field (list A))
    (k : list A -> Py.result S) (s : S) :
  Py.iter (Feed.get_or [] f) ≫= k = Py.Ok s ->
  is_null f = false /\ k (Feed.items f) = Py.Ok s.
Proof. rewrite iter_get_or. destruct (is_null f); [discriminate | auto]. Qed.

Lemma load_entry_cases ev cat self n e st' :
  load_entry ev cat (self, n) e = Py.Ok st' ->
  st' = (self, n)
  \/ exists m, st' = (_update_records (append_match self m) m, S n).
Proof.
  unfold load_entry.
  destruct (Py.truthy (Feed.get_or "" (Feed.winner e))); simpl;
    [| intros [= <-]; left; reflexivity].
  destruct (Feed.get_or Feed.empty (Feed.red_corner e)) as [rc |]; simpl;
    [| discriminate].
  destruct (Py.truthy (Feed.get (Feed.name rc))); simpl;
    [| intros [= <-]; left; reflexivity].
  destruct (Feed.get_or Feed.empty (Feed.blue_corner e)) as [bc |]; simpl;
    [| discriminate].
  destruct (Py.truthy (Feed.get (Feed.name bc))); simpl;
    [| intros [= <-]; left; reflexivity].
  destruct (bool_decide _); intros [= <-]; right; eexists; reflexivity.
Qed.

Lemma for_each_invariant {A S} (P : S -> Prop) (body : S -> A -> Py.result S)
    (xs : list A) :
  (forall s x s', P s -> body s x = Py.Ok s' -> P s') ->
  forall s s', P s -> Py.for_each body xs s = Py.Ok s' -> P s'.
Proof.
  intros Hbody. induction xs as [| x xs IH]; intros s s' Hs; simpl.
  - intros [= <-]. exact Hs.
  - destruct (body s x) as [s1 |] eqn:E; simpl; [| discriminate].
    apply IH. eapply Hbody; eassumption.
Qed.

(** A property of the analyzer and the count that holds before the load
    and is kept by every accepted match holds after the load. *)
Lemma load_matches_invariant (P : LossChainAnalyzer -> nat -> Prop) :
  (forall s n m, P s n -> P (_update_records (append_match s m) m) (S n)) ->
  forall self file s' n',
    P self 0%nat -> load_matches self file = Py.Ok (s', n') -> P s' n'.
Proof.
  intros Hstep self file s' n' H0.
  set (Q := fun st : LossChainAnalyzer * nat => P (fst st) (snd st)).
  assert (Hentry : forall ev cat st e st',
             Q st -> load_entry ev cat st e = Py.Ok st' -> Q st').
  { intros ev cat [s n] e st' Hst He.
    apply load_entry_cases in He as [-> | (m & ->)]; [exact Hst |].
    apply Hstep, Hst. }
  assert (Hcat : forall ev st c st',
             Q st -> load_category ev st c = Py.Ok st' -> Q st').
  { intros ev st c st' Hst H. unfold load_category in H.
    apply iter_get_or_Ok in H as [_ H]. revert H.
    apply for_each_invariant; [apply Hentry | exact Hst]. }
  assert (Hev : forall st ev st',
             Q st -> load_event st ev = Py.Ok st' -> Q st').
  { intros st ev st' Hst H. unfold load_event in H.
    apply iter_get_or_Ok in H as [_ H]. revert H.
    apply for_each_invariant; [apply Hcat | exact Hst]. }
  unfold load_matches. destruct file as [data |].
  - intros H. apply iter_get_or_Ok in H as [_ H]. change (Q (s', n')).
    eapply for_each_invariant; [apply Hev | | exact H]. exact H0.
  - intros [= <- <-]. exact H0.
Qed.

Lemma load_matches_edges file s' n' :
  load_matches __init__ file = Py.Ok (s', n') ->
  forall m, m ∈ matches s' -> edges_of s' m.
Proof.
  apply (load_matches_invariant
           (fun s _ => forall m, m ∈ matches s -> edges_of s m)).
  - intros s n m0 IH m Hin. rewrite update_records_matches in Hin.
    simpl in Hin. apply elem_of_app in Hin as [Hin | Hin].
    + apply update_records_keeps_edges. destruct (IH m Hin) as [Hw Hl].
      split; assumption.
    + apply list_elem_of_singleton in Hin as ->. apply update_records_edges.
  - intros m Hin. inversion Hin.
Qed.

Lemma load_matches_count self file s' n' :
  load_matches self file = Py.Ok (s', n') ->
  length (matches s') = (length (matches self) + n')%nat.
Proof.
  apply (load_matches_invariant
           (fun s n => length (matches s) = (length (matches self) + n)%nat)).
  - intros s n m IH. rewrite update_records_matches. simpl.
    rewrite length_app, IH. simpl. lia.
  - lia.
Qed.

(** * C3: every ingested match has its two edges *)

(** C3: after any sequence of matches is ingested, every accepted match has
    its winner as a key of [win_graph] with the loser in the adjacency set,
    and its loser as a key of [loss_graph] with the winner in the set; and
    recording the same match a second time leaves both graphs as they
    were. *)
Theorem ingested_matches_have_edges :
  (forall (self : LossChainAnalyzer) (ms : list MatchResult) (m : MatchResult),
      m ∈ ms ->
      has_edge (win_graph (foldl _update_records self ms)) (winner m) (loser m)
      /\ has_edge (loss_graph (foldl _update_records self ms))
                  (loser m) (winner m))
  /\ (forall file : option Feed.Data,
        match load_matches __init__ file with
        | Py.Ok (self, _) =>
            forall m, m ∈ matches self ->
              has_edge (win_graph self) (winner m) (loser m)
              /\ has_edge (loss_graph self) (loser m) (winner m)
        | Py.Raise _ => True
        end)
  /\ (forall (self : LossChainAnalyzer) (m : MatchResult),
        win_graph (_update_records (_update_records self m) m)
        = win_graph (_update_records self m)
        /\ loss_graph (_update_records (_update_records self m) m)
           = loss_graph (_update_records self m)).
Proof.
  split; [intros self ms m Hin; apply update_records_sequence, Hin |].
  split; [| apply update_records_graphs_idempotent].
  intros file. destruct (load_matches __init__ file) as [[self n] |] eqn:E;
    [| exact I].
  intros m Hin. exact (load_matches_edges file self n E m Hin).
Qed.

(** Scenario A of the specification. *)
Example scenario_a_graph :
  let self :=
    loaded (feed_of [entry (corner "ALI" "KSA" 5) (corner "SMITH" "UAE" 3)
                           (Feed.Val "ALI")]) in
  loss_graph self !! "SMITH" = Some {[ "ALI" ]}
  /\ win_graph self !! "ALI" = Some {[ "SMITH" ]}
  /\ (fun r => (length (wins r), length (losses r)))
       <$> Py.dict_values (athlete_records self) = [(1, 0); (0, 1)]%nat.
Proof. vm_compute. repeat split; reflexivity. Qed.

(** * C5: skipping entries, and the entry that is not skipped *)

Lemma load_entry_no_null ev cat self n e :
  no_null_corner e ->
  exists s',
    load_entry ev cat (self, n) e
    = Py.Ok (s', if accepted e then S n else n).
Proof.
  intros [Hr Hb]. unfold load_entry, accepted, corner_name.
  destruct (Feed.winner e) as [| | w]; simpl;
    try (exists self; reflexivity).
  destruct (String.eqb w ""); simpl; [exists self; reflexivity |].
  destruct (Feed.red_corner e) as [| | rc]; simpl;
    [exists self; reflexivity | congruence |].
  destruct (Py.truthy (Feed.get (Feed.name rc))); simpl;
    [| exists self; reflexivity].
  destruct (Feed.blue_corner e) as [| | bc]; simpl;
    [exists self; reflexivity | congruence |].
  destruct (Py.truthy (Feed.get (Feed.name bc))); simpl;
    [| exists self; reflexivity].
  destruct (bool_decide _); eexists; reflexivity.
Qed.

Lemma load_category_no_null ev self n c :
  category_iterable c = true ->
  Forall no_null_corner (category_entries c) ->
  exists s',
    load_category ev (self, n) c
    = Py.Ok (s', (n + length (List.filter accepted (category_entries c)))%nat).
Proof.
  intros Hit. unfold load_category. rewrite iter_get_or.
  apply negb_true_iff in Hit. rewrite Hit.
  unfold category_entries.
  generalize (Feed.items (Feed.matches c)). intros es. revert self n.
  induction es as [| e es IH]; intros self n Hall.
  - exists self. simpl. rewrite Nat.add_0_r. reflexivity.
  - apply Forall_cons in Hall as [He Hes]. cbn [Py.for_each List.filter].
    destruct (load_entry_no_null ev (Feed.get_or "" (Feed.category c)) self n e He)
      as [s1 ->].
    cbn [Py.bind]. destruct (IH s1 (if accepted e then S n else n) Hes) as [s' ->].
    exists s'. do 2 f_equal. destruct (accepted e); simpl; lia.
Qed.

Lemma load_event_no_null self n ev :
  event_iterable ev = true ->
  Forall no_null_corner (event_entries ev) ->
  exists s',
    load_event (self, n) ev
    = Py.Ok (s', (n + length (List.filter accepted (event_entries ev)))%nat).
Proof.
  intros Hit. apply andb_true_iff in Hit as [Hit Hcats].
  unfold load_event. rewrite iter_get_or.
  apply negb_true_iff in Hit. rewrite Hit.
  unfold event_entries. revert Hcats.
  generalize (Feed.items (Feed.categories ev)). intros cs. revert self n.
  induction cs as [| c cs IH]; intros self n Hcats Hall.
  - exists self. simpl. rewrite Nat.add_0_r. reflexivity.
  - rewrite bind_cons in *. apply Forall_app in Hall as [Hc Hcs].
    cbn [forallb] in Hcats. apply andb_true_iff in Hcats as [Hcit Hcats].
    cbn [Py.for_each].
    destruct (load_category_no_null (Feed.get_or "" (Feed.event_name ev))
                self n c Hcit Hc) as [s1 ->].
    cbn [Py.bind].
    destruct (IH s1 (n + length (List.filter accepted (category_entries c)))%nat
                 Hcats Hcs) as [s' ->].
    exists s'. rewrite List.filter_app, length_app. do 2 f_equal. lia.
Qed.

(** On a feed in which no corner is [null] (and no list that the loader
    walks), the load succeeds: it skips the entries without a winner or
    without a name in a corner and returns the number of the others. *)
Lemma load_matches_no_null self data :
  feed_iterable data = true ->
  Forall no_null_corner (feed_entries data) ->
  exists s',
    load_matches self (Some data)
    = Py.Ok (s', length (List.filter accepted (feed_entries data)))
    /\ length (matches s')
       = (length (matches self)
          + length (List.filter accepted (feed_entries data)))%nat.
Proof.
  intros Hit Hall. apply andb_true_iff in Hit as [Hit Hevents].
  apply negb_true_iff in Hit.
  assert (H : forall evs s n,
             forallb event_iterable evs = true ->
             Forall no_null_corner (evs ≫= event_entries) ->
             exists s',
               Py.for_each load_event evs (s, n)
               = Py.Ok (s', (n + length (List.filter accepted
                                           (evs ≫= event_entries)))%nat)).
  { induction evs as [| ev evs IH]; intros s n Hits Hevs.
    - exists s. simpl. rewrite Nat.add_0_r. reflexivity.
    - rewrite bind_cons in *. apply Forall_app in Hevs as [Hev Hevs].
      cbn [forallb] in Hits. apply andb_true_iff in Hits as [Hevit Hits].
      cbn [Py.for_each].
      destruct (load_event_no_null s n ev Hevit Hev) as [s1 ->].
      cbn [Py.bind].
      destruct (IH s1 (n + length (List.filter accepted (event_entries ev)))%nat
                   Hits Hevs) as [s' ->].
      exists s'. rewrite List.filter_app, length_app. do 2 f_equal. lia. }
  destruct (H (Feed.items (Feed.events data)) self 0%nat Hevents Hall)
    as [s' Hs'].
  assert (Hload : load_matches self (Some data)
                  = Py.Ok (s', length (List.filter accepted (feed_entries data)))).
  { unfold load_matches. rewrite iter_get_or, Hit. exact Hs'. }
  exists s'. split; [exact Hload |].
  apply (load_matches_count self (Some data) s' _ Hload).
Qed.

(** Scenario D of the specification: two valid entries and one without a
    winner give a count of 2. *)
Example scenario_d_count :
  match load_matches __init__ (Some scenario_d) with
  | Py.Ok (self, count) => count = 2%nat /\ length (matches self) = 2%nat
  | Py.Raise _ => False
  end.
Proof. vm_compute. split; reflexivity. Qed.

(** C5 fails on the code: an entry with a declared winner whose red corner
    is [null] is not skipped; [red.get('name')] raises [AttributeError] and
    the load stops, although the two other entries are valid. *)
Theorem load_matches_null_corner_raises :
  load_matches __init__ (Some null_corner_feed)
  = Py.Raise (Py.AttributeError "'NoneType' object has no attribute 'get'")
  /\ corner_name (Feed.red_corner null_corner_entry) = None
  /\ length (List.filter accepted (feed_entries null_corner_feed)) = 2%nat.
Proof. vm_compute. repeat split; reflexivity. Qed.

(** * The record found under a name after one match *)

Lemma dict_get_set {V} (k k' : string) (v : V) (d : Py.dict V) :
  Py.dict_get k' (Py.dict_set k v d)
  = if String.eqb k k' then Some v else Py.dict_get k' d.
Proof.
  induction d as [| [k0 v0] d IH]; simpl.
  - rewrite (String.eqb_sym k' k). reflexivity.
  - destruct (String.eqb_spec k k0) as [-> | Hk]; simpl.
    + destruct (String.eqb_spec k' k0) as [-> | Hk'].
      * rewrite String.eqb_refl. reflexivity.
      * destruct (String.eqb_spec k0 k'); [congruence | reflexivity].
    + rewrite IH. destruct (String.eqb_spec k' k0) as [-> | Hk'];
        [| reflexivity].
      destruct (String.eqb_spec k k0); [contradiction | reflexivity].
Qed.

(** Creating the record of [k] when it is missing, then changing it. *)
Lemma create_update_lookup (f : AthleteRecord -> AthleteRecord)
    (k c k' : string) (d : Py.dict AthleteRecord) :
  Py.dict_get k'
    (Py.dict_update f k
       (if negb (Py.dict_mem k d) then Py.dict_set k (fresh_record k c) d else d))
  = if String.eqb k k'
    then Some (f (default (fresh_record k c) (Py.dict_get k d)))
    else Py.dict_get k' d.
Proof.
  rewrite dict_get_update. unfold Py.dict_mem.
  destruct (String.eqb_spec k k') as [<- | Hne].
  - destruct (Py.dict_get k d) as [r |] eqn:E; simpl.
    + rewrite E. reflexivity.
    + rewrite dict_get_set, String.eqb_refl. reflexivity.
  - destruct (Py.dict_get k d) as [r |]; simpl; [reflexivity |].
    rewrite dict_get_set. destruct (String.eqb_spec k k'); [contradiction |].
    reflexivity.
Qed.

Lemma update_records_lookup self m (k : string) :
  Py.dict_get k (athlete_records (_update_records self m))
  = let r0 := Py.dict_get k (athlete_records self) in
    let r1 := if String.eqb (winner m) k
              then Some (add_win m (default (fresh_record k (winner_country m)) r0))
              else r0 in
    if String.eqb (loser m) k
    then Some (add_loss m (default (fresh_record k (loser_country m)) r1))
    else r1.
Proof.
  unfold _update_records. cbn [athlete_records]. cbv zeta.
  change {| name := loser m; country := loser_country m; wins := []; losses := [] |}
    with (fresh_record (loser m) (loser_country m)).
  change {| name := winner m; country := winner_country m; wins := []; losses := [] |}
    with (fresh_record (winner m) (winner_country m)).
  rewrite create_update_lookup.
  rewrite !create_update_lookup.
  destruct (String.eqb_spec (loser m) k) as [El | El],
           (String.eqb_spec (winner m) k) as [Ew | Ew];
    try reflexivity; subst k; rewrite ?Ew, ?String.eqb_refl;
    repeat match goal with
           | |- context [String.eqb ?a ?b] =>
               destruct (String.eqb_spec a b); try congruence
           end;
    reflexivity.
Qed.

(** * C10: a declared winner that is neither corner *)

Lemma truthy_nonempty (s : string) : s <> "" -> Py.truthy (Some s) = true.
Proof.
  intros Hs. unfold Py.truthy.
  destruct (String.eqb_spec s ""); [contradiction | reflexivity].
Qed.

(** The record of the winner after [_update_records], when the winner is
    not the loser: it exists, and a record created by this match carries
    the match's [winner_country]. *)
Lemma update_records_winner_record self m :
  winner m <> loser m ->
  exists r,
    Py.dict_get (winner m) (athlete_records (_update_records self m)) = Some r
    /\ (Py.dict_mem (winner m) (athlete_records self) = false ->
        country r = winner_country m).
Proof.
  intros Hne. unfold _update_records. cbn [athlete_records].
  set (fresh := {| name := winner m; country := winner_country m;
                   wins := []; losses := [] |}).
  set (recs1 := if negb (Py.dict_mem (winner m) (athlete_records self))
                then Py.dict_set (winner m) fresh (athlete_records self)
                else athlete_records self).
  assert (H1 : exists r,
             Py.dict_get (winner m) recs1 = Some r
             /\ (Py.dict_mem (winner m) (athlete_records self) = false ->
                 country r = winner_country m)).
  { subst recs1.
    destruct (Py.dict_mem (winner m) (athlete_records self)) eqn:E; simpl.
    - unfold Py.dict_mem in E.
      destruct (Py.dict_get (winner m) (athlete_records self)) as [r |];
        [| discriminate].
      exists r. split; [reflexivity | discriminate].
    - exists fresh. split; [apply dict_get_set_new, E | reflexivity]. }
  destruct H1 as (r & Hr & Hc).
  set (recs2 := Py.dict_update (add_win m) (winner m) recs1).
  assert (H2 : Py.dict_get (winner m) recs2 = Some (add_win m r)).
  { subst recs2. rewrite dict_get_update, String.eqb_refl, Hr. reflexivity. }
  exists (add_win m r). split; [| exact Hc].
  rewrite dict_get_update.
  destruct (String.eqb_spec (loser m) (winner m)) as [E | _]; [congruence |].
  destruct (negb (Py.dict_mem (loser m) recs2)); [| exact H2].
  rewrite dict_get_set_other by congruence. exact H2.
Qed.

(** C10: an entry whose declared winner is non-empty, whose two corner
    names are non-empty, and whose winner is neither corner name is
    accepted: the loser is the red corner, [winner_country] is the blue
    corner's country, and the match enters the match list, the graphs and
    the athlete records: it is the last win of the record under the
    winner's name, created with the blue corner's country when the name is
    new, and the last loss of the record under the red corner's name. *)
Theorem stranger_winner_accepted
    (ev cat : option string) (self : LossChainAnalyzer) (n : nat)
    (e : Feed.Match) (rc bc : Feed.Corner) (w rn bn : string) :
  Feed.winner e = Feed.Val w ->
  Feed.red_corner e = Feed.Val rc ->
  Feed.blue_corner e = Feed.Val bc ->
  Feed.name rc = Feed.Val rn ->
  Feed.name bc = Feed.Val bn ->
  w <> "" -> rn <> "" -> bn <> "" ->
  w <> rn -> w <> bn ->
  let m := result_for_blue ev cat w e rc bc rn in
  let self' := _update_records (append_match self m) m in
  load_entry ev cat (self, n) e = Py.Ok (self', S n)
  /\ matches self' = matches self ++ [m]
  /\ loser m = rn
  /\ winner_country m = default "" (Feed.country bc)
  /\ has_edge (win_graph self') w rn
  /\ has_edge (loss_graph self') rn w
  /\ (exists r,
        Py.dict_get w (athlete_records self') = Some r
        /\ (Py.dict_mem w (athlete_records self) = false ->
            country r = default "" (Feed.country bc)))
  /\ exists rw rl,
       Py.dict_get w (athlete_records self') = Some rw
       /\ wins rw
          = default [] (wins <$> Py.dict_get w (athlete_records self)) ++ [m]
       /\ losses rw
          = default [] (losses <$> Py.dict_get w (athlete_records self))
       /\ Py.dict_get rn (athlete_records self') = Some rl
       /\ losses rl
          = default [] (losses <$> Py.dict_get rn (athlete_records self)) ++ [m]
       /\ wins rl
          = default [] (wins <$> Py.dict_get rn (athlete_records self)).
Proof.
  intros Hw Hrc Hbc Hrn Hbn Hw0 Hrn0 Hbn0 Hwr Hwb m self'.
  split.
  { unfold load_entry. rewrite Hw, Hrc, Hbc. cbn [Feed.get_or].
    rewrite (truthy_nonempty w Hw0). cbn [negb Feed.attr].
    unfold mbind, result_bind. cbn [Py.bind]. rewrite Hrn, Hbn.
    cbn [Feed.get]. rewrite (truthy_nonempty rn Hrn0), (truthy_nonempty bn Hbn0).
    cbn [negb]. rewrite bool_decide_eq_false_2 by congruence. reflexivity. }
  split; [reflexivity |]. split; [reflexivity |]. split; [reflexivity |].
  split; [apply (graph_add_edge (win_graph self) w rn) |].
  split; [apply (graph_add_edge (loss_graph self) rn w) |].
  split; [exact (update_records_winner_record (append_match self m) m Hwr) |].
  pose proof (update_records_lookup (append_match self m) m w) as Ew.
  pose proof (update_records_lookup (append_match self m) m rn) as Er.
  cbv zeta in Ew, Er. fold self' in Ew, Er.
  change (winner m) with w in Ew, Er. change (loser m) with rn in Ew, Er.
  change (athlete_records (append_match self m))
    with (athlete_records self) in Ew, Er.
  rewrite String.eqb_refl in Ew, Er.
  destruct (String.eqb_spec rn w) as [E | _]; [congruence |].
  destruct (String.eqb_spec w rn) as [E | _]; [congruence |].
  eexists _, _. split; [exact Ew |]. split.
  { cbn [wins add_win].
    destruct (Py.dict_get w (athlete_records self)); reflexivity. }
  split.
  { cbn [losses add_win].
    destruct (Py.dict_get w (athlete_records self)); reflexivity. }
  split; [exact Er |]. split.
  - cbn [losses add_loss].
    destruct (Py.dict_get rn (athlete_records self)); reflexivity.
  - cbn [wins add_loss].
    destruct (Py.dict_get rn (athlete_records self)); reflexivity.
Qed.

Lemma stranger_winner_accepted_witness :
  let m := result_for_blue (Some "Asian Open") (Some "Male -77kg") "OMAR"
             stranger_entry
             (corner "SMITH" "UAE" 1) (corner "ALI" "KSA" 3) "SMITH" in
  let self' := _update_records (append_match __init__ m) m in
  load_entry (Some "Asian Open") (Some "Male -77kg") (__init__, 0%nat)
    stranger_entry
  = Py.Ok (self', 1%nat)
  /\ matches self' = matches __init__ ++ [m]
  /\ loser m = "SMITH"
  /\ winner_country m = default "" (Feed.country (corner "ALI" "KSA" 3))
  /\ has_edge (win_graph self') "OMAR" "SMITH"
  /\ has_edge (loss_graph self') "SMITH" "OMAR"
  /\ (exists r,
        Py.dict_get "OMAR" (athlete_records self') = Some r
        /\ (Py.dict_mem "OMAR" (athlete_records __init__) = false ->
            country r = default "" (Feed.country (corner "ALI" "KSA" 3))))
  /\ exists rw rl,
       Py.dict_get "OMAR" (athlete_records self') = Some rw
       /\ wins rw
          = default [] (wins <$> Py.dict_get "OMAR" (athlete_records __init__))
            ++ [m]
       /\ losses rw
          = default [] (losses <$> Py.dict_get "OMAR" (athlete_records __init__))
       /\ Py.dict_get "SMITH" (athlete_records self') = Some rl
       /\ losses rl
          = default [] (losses <$> Py.dict_get "SMITH" (athlete_records __init__))
            ++ [m]
       /\ wins rl
          = default [] (wins <$> Py.dict_get "SMITH" (athlete_records __init__)).
Proof.
  apply (stranger_winner_accepted (Some "Asian Open") (Some "Male -77kg")
           __init__ 0
           stranger_entry (corner "SMITH" "UAE" 1) (corner "ALI" "KSA" 3)
           "OMAR" "SMITH" "ALI");
    first [reflexivity | discriminate].
Defined.

(** The stranger's record: OMAR is filed under ALI's country. *)
Example stranger_entry_record :
  match load_matches __init__ (Some (feed_of [stranger_entry])) with
  | Py.Ok (self, count) =>
      count = 1%nat
      /\ (fun r => (name r, country r)) <$> Py.dict_values (athlete_records self)
         = [("OMAR", "KSA"); ("SMITH", "UAE")]
  | Py.Raise _ => False
  end.
Proof. vm_compute. split; reflexivity. Qed.

(** * C9: the loss-chain trace *)

Lemma chain_loop self (depth : Z) (beaters : list string) (out : list string) :
  (1 < depth)%Z ->
  foldl (fun out beater =>
           let out := out ++ [beater_line self beater] in
           if (1 <? depth)%Z then
             let second_losses := Py.graph_get (loss_graph self) beater in
             foldl (fun out second => out ++ [second_line self second])
                   out (Py.slice_to 3 (elements second_losses))
           else out)
        out beaters
  = out ++ (beaters ≫= beater_block self).
Proof.
  intros Hd. apply Z.ltb_lt in Hd. rewrite Hd. revert out.
  induction beaters as [| b bs IH]; intros out.
  - simpl. symmetry. apply app_nil_r.
  - rewrite bind_cons. cbn [foldl]. rewrite IH.
    rewrite (foldl_snoc (second_line self)).
    unfold beater_block at 2. change (Py.slice_to 3 ?l) with (take 3 l).
    rewrite <- !app_assoc. reflexivity.
Qed.

Lemma print_loss_chains_no_losses self who (depth : Z) :
  Py.graph_get (loss_graph self) who = ∅ ->
  print_loss_chains self who depth = [chain_header who; no_losses_line who].
Proof.
  intros He. unfold print_loss_chains. cbv zeta.
  rewrite bool_decide_eq_true_2 by exact He. reflexivity.
Qed.

Lemma print_loss_chains_blocks self who :
  Py.graph_get (loss_graph self) who <> ∅ ->
  print_loss_chains self who 2
  = chain_header who :: lost_to_line who
    :: (elements (Py.graph_get (loss_graph self) who) ≫= beater_block self).
Proof.
  intros Hne. unfold print_loss_chains. cbv zeta.
  rewrite bool_decide_eq_false_2 by exact Hne.
  rewrite chain_loop by lia. reflexivity.
Qed.

Lemma block_in_trace self who beater line :
  beater ∈ Py.graph_get (loss_graph self) who ->
  line ∈ beater_block self beater ->
  line ∈ print_loss_chains self who 2.
Proof.
  intros Hb Hl. rewrite print_loss_chains_blocks
    by (intros He; rewrite He in Hb; exact (not_elem_of_empty beater Hb)).
  do 2 apply list_elem_of_further. apply list_elem_of_bind.
  exists beater. split; [exact Hl | apply elem_of_elements, Hb].
Qed.

(** C9, as stated, fails: OMAR beat SMITH and lost to four athletes, and
    the trace of SMITH at depth 2 prints three lines under OMAR; one of the
    four who beat OMAR is not listed. *)
Lemma trace_drops_a_second_loss :
  let self := loaded chain_feed in
  "OMAR" ∈ Py.graph_get (loss_graph self) "SMITH"
  /\ size (Py.graph_get (loss_graph self) "OMAR") = 4%nat
  /\ length (print_loss_chains self "SMITH" 2) = 6%nat
  /\ exists second,
       second ∈ Py.graph_get (loss_graph self) "OMAR"
       /\ second_line self second ∉ print_loss_chains self "SMITH" 2.
Proof.
  cbv zeta. split; [apply elem_of_elements; vm_compute; repeat constructor |].
  split; [vm_compute; reflexivity |]. split; [vm_compute; reflexivity |].
  exists "ALI". split.
  - apply elem_of_elements. vm_compute. repeat constructor.
  - apply (bool_decide_eq_false_1
             (second_line (loaded chain_feed) "ALI"
              ∈ print_loss_chains (loaded chain_feed) "SMITH" 2)).
    vm_compute. reflexivity.
Qed.

(** C9, amended: at the default depth 2 the trace lists every athlete who
    beat the given athlete and, under each such beater, at most three of
    the athletes who beat that beater (the first three the set yields; all
    of them when there are at most three); an athlete with no recorded
    losses yields the no-losses message. *)
Theorem loss_chain_trace (self : LossChainAnalyzer) (who : string) :
  let losses_to := Py.graph_get (loss_graph self) who in
  let out := print_loss_chains self who 2 in
  (losses_to = ∅ -> out = [chain_header who; no_losses_line who])
  /\ (losses_to <> ∅ ->
      out = chain_header who :: lost_to_line who
            :: (elements losses_to ≫= fun beater =>
                  beater_line self beater
                  :: (second_line self
                        <$> take 3 (elements
                                      (Py.graph_get (loss_graph self) beater)))))
  /\ (forall beater, beater ∈ losses_to -> beater_line self beater ∈ out)
  /\ (forall beater second,
        beater ∈ losses_to ->
        second ∈ take 3 (elements (Py.graph_get (loss_graph self) beater)) ->
        second_line self second ∈ out)
  /\ (forall beater second,
        beater ∈ losses_to ->
        (size (Py.graph_get (loss_graph self) beater) <= 3)%nat ->
        second ∈ Py.graph_get (loss_graph self) beater ->
        second_line self second ∈ out).
Proof.
  intros losses_to out. subst losses_to out.
  split; [apply print_loss_chains_no_losses |].
  split; [apply print_loss_chains_blocks |].
  split.
  { intros beater Hb. apply (block_in_trace self who beater); [exact Hb |].
    apply list_elem_of_here. }
  assert (Hsecond : forall beater second,
             beater ∈ Py.graph_get (loss_graph self) who ->
             second ∈ take 3 (elements (Py.graph_get (loss_graph self) beater)) ->
             second_line self second ∈ print_loss_chains self who 2).
  { intros beater second Hb Hs.
    apply (block_in_trace self who beater); [exact Hb |].
    apply list_elem_of_further, list_elem_of_fmap_2, Hs. }
  split; [exact Hsecond |].
  intros beater second Hb Hsize Hs. apply (Hsecond beater second Hb).
  rewrite take_ge; [apply elem_of_elements, Hs |].
  unfold size, set_size in Hsize. simpl in Hsize. exact Hsize.
Qed.

(** * The order of the athlete records *)

Lemma elem_of_first_appearances (x : string) (l : list string) :
  x ∈ first_appearances l <-> x ∈ l.
Proof.
  induction l as [| y l IH]; simpl; [reflexivity |].
  rewrite !elem_of_cons, list_elem_of_filter, IH.
  destruct (decide (x = y)); tauto.
Qed.

Lemma NoDup_first_appearances (l : list string) : NoDup (first_appearances l).
Proof.
  induction l as [| y l IH]; simpl; [constructor |].
  constructor; [| apply NoDup_filter, IH].
  rewrite list_elem_of_filter. tauto.
Qed.

Lemma first_appearances_snoc (l : list string) (x : string) :
  first_appearances (l ++ [x]) = note_name (first_appearances l) x.
Proof.
  unfold note_name. induction l as [| y l IH].
  - reflexivity.
  - cbn [app first_appearances]. rewrite IH. clear IH.
    set (F := first_appearances l).
    destruct (decide (x = y)) as [-> | Hxy].
    + rewrite (bool_decide_eq_true_2 (y ∈ y :: _)) by apply list_elem_of_here.
      destruct (decide (y ∈ F)) as [Hy | Hy].
      * rewrite bool_decide_eq_true_2 by exact Hy. reflexivity.
      * rewrite bool_decide_eq_false_2 by exact Hy.
        rewrite filter_app, filter_cons_False by tauto.
        rewrite filter_nil, app_nil_r. reflexivity.
    + destruct (decide (x ∈ F)) as [Hx | Hx].
      * rewrite (bool_decide_eq_true_2 (x ∈ F)) by exact Hx.
        rewrite bool_decide_eq_true_2; [reflexivity |].
        apply list_elem_of_further, list_elem_of_filter. auto.
      * rewrite (bool_decide_eq_false_2 (x ∈ F)) by exact Hx.
        rewrite bool_decide_eq_false_2.
        -- rewrite filter_app, filter_cons_True by exact Hxy.
           rewrite filter_nil. reflexivity.
        -- rewrite elem_of_cons, list_elem_of_filter. tauto.
Qed.

Lemma match_names_snoc (ms : list MatchResult) (m : MatchResult) :
  match_names (ms ++ [m]) = (match_names ms ++ [winner m]) ++ [loser m].
Proof.
  unfold match_names. rewrite bind_app. simpl. rewrite <- app_assoc.
  reflexivity.
Qed.

(** Creating the record of a name that is new appends the name. *)
Lemma dict_keys_create (k : string) (r : AthleteRecord) (d : Py.dict AthleteRecord) :
  Py.dict_keys (if negb (Py.dict_mem k d) then Py.dict_set k r d else d)
  = note_name (Py.dict_keys d) k.
Proof.
  unfold note_name. destruct (Py.dict_mem k d) eqn:E; simpl.
  - rewrite bool_decide_eq_true_2 by (apply dict_mem_keys, E). reflexivity.
  - rewrite bool_decide_eq_false_2.
    + apply dict_keys_set, E.
    + intros H. apply dict_mem_keys in H. congruence.
Qed.

Lemma update_records_keys self m :
  Py.dict_keys (athlete_records (_update_records self m))
  = note_name (note_name (Py.dict_keys (athlete_records self)) (winner m))
              (loser m).
Proof.
  unfold _update_records. cbn [athlete_records].
  rewrite dict_keys_update, dict_keys_create, dict_keys_update,
    dict_keys_create.
  reflexivity.
Qed.

Lemma records_named_create (k c : string) (d : Py.dict AthleteRecord) :
  records_named d ->
  records_named
    (if negb (Py.dict_mem k d)
     then Py.dict_set k {| name := k; country := c; wins := []; losses := [] |} d
     else d).
Proof.
  intros H. destruct (negb (Py.dict_mem k d)); [| exact H].
  apply records_named_set; [reflexivity | exact H].
Qed.

Lemma update_records_named self m :
  records_named (athlete_records self) ->
  records_named (athlete_records (_update_records self m)).
Proof.
  intros H. unfold _update_records. cbn [athlete_records].
  apply records_named_update; [reflexivity |].
  apply records_named_create.
  apply records_named_update; [reflexivity |].
  apply records_named_create, H.
Qed.

(** After a load into a fresh analyzer, the records are in the order in
    which their names first appear in the accepted matches, and each is
    stored under its own name. *)
Lemma load_matches_records_order file self n :
  load_matches __init__ file = Py.Ok (self, n) ->
  Py.dict_keys (athlete_records self)
  = first_appearances (match_names (matches self))
  /\ records_named (athlete_records self).
Proof.
  apply (load_matches_invariant
           (fun s _ =>
              Py.dict_keys (athlete_records s)
              = first_appearances (match_names (matches s))
              /\ records_named (athlete_records s))).
  - intros s k m [Hk Hn]. split.
    + rewrite update_records_keys, update_records_matches. cbn [append_match
        athlete_records matches].
      rewrite match_names_snoc, !first_appearances_snoc, Hk. reflexivity.
    + apply update_records_named. exact Hn.
  - split; [reflexivity | constructor].
Qed.

Lemma records_named_values (d : Py.dict AthleteRecord) :
  records_named d -> name <$> Py.dict_values d = Py.dict_keys d.
Proof.
  unfold records_named, Py.dict_values, Py.dict_keys.
  induction 1 as [| [k r] d Hk Hd IH]; [reflexivity |].
  cbn. simpl in Hk. rewrite Hk. f_equal. exact IH.
Qed.

(** * The category leaderboards *)

Lemma category_append_lookup (r : AthleteRecord) (cats : list string)
    (ca : gmap string (list AthleteRecord)) (c : string) :
  NoDup cats ->
  foldl (fun ca cat => <[cat := default [] (ca !! cat) ++ [r]]> ca) ca cats !! c
  = if decide (c ∈ cats) then Some (default [] (ca !! c) ++ [r]) else ca !! c.
Proof.
  intros Hnd. revert ca.
  induction Hnd as [| x cats Hx Hnd IH]; intros ca.
  - reflexivity.
  - cbn [foldl]. rewrite IH. destruct (decide (c = x)) as [-> | Hcx].
    + rewrite decide_False by exact Hx.
      rewrite decide_True by apply list_elem_of_here.
      apply lookup_insert_eq.
    + rewrite lookup_insert_ne by congruence.
      destruct (decide (c ∈ cats)) as [Hc | Hc].
      * rewrite decide_True by (apply list_elem_of_further, Hc). reflexivity.
      * rewrite decide_False; [reflexivity |].
        rewrite elem_of_cons. tauto.
Qed.

Lemma add_to_categories_lookup (ca : gmap string (list AthleteRecord))
    (r : AthleteRecord) (c : string) :
  default [] (add_to_categories ca r !! c)
  = default [] (ca !! c) ++ (if decide (c ∈ categories_seen r) then [r] else []).
Proof.
  unfold add_to_categories.
  rewrite category_append_lookup by apply NoDup_elements.
  destruct (decide (c ∈ elements (categories_seen r))) as [Hc | Hc].
  - rewrite decide_True by (apply elem_of_elements, Hc). reflexivity.
  - rewrite decide_False by (intros H; apply Hc, elem_of_elements, H).
    symmetry. apply app_nil_r.
Qed.

(** The grouping loop, for any country filter [keep]. *)
Lemma grouping_loop (keep : AthleteRecord -> bool)
    (step : gmap string (list AthleteRecord) -> string * AthleteRecord ->
            gmap string (list AthleteRecord)) :
  (forall ca k r,
      step ca (k, r) = if keep r then add_to_categories ca r else ca) ->
  forall (records : Py.dict AthleteRecord) ca (c : string),
    default [] (foldl step ca records !! c)
    = default [] (ca !! c) ++ category_candidates keep c records.
Proof.
  intros Hstep records. unfold category_candidates, Py.dict_values.
  induction records as [| [k r] records IH]; intros ca c.
  - simpl. symmetry. apply app_nil_r.
  - cbn [foldl]. rewrite IH, Hstep. rewrite fmap_cons, filter_cons. simpl.
    destruct (keep r) eqn:Hk.
    + rewrite add_to_categories_lookup.
      destruct (decide (c ∈ categories_seen r)) as [Hc | Hc].
      * rewrite decide_True by auto. rewrite <- app_assoc. reflexivity.
      * rewrite decide_False by tauto. rewrite app_nil_r. reflexivity.
    + rewrite decide_False; [reflexivity |]. intros [H _]. discriminate H.
Qed.

Lemma rank_categories_lookup (top_n : Z) ca (c : string) (top : list AthleteRecord) :
  rank_categories top_n ca !! c = Some top ->
  top = Py.slice_to top_n
          (Py.sort_by Z.leb (fun x => (- Z.of_nat (total_matches x))%Z)
                      (default [] (ca !! c))).
Proof.
  unfold rank_categories. rewrite lookup_fmap.
  destruct (ca !! c) as [l |]; simpl; [| discriminate].
  intros [= <-]. reflexivity.
Qed.

Lemma top_asian_lookup self (top_n : Z) (c : string) top :
  get_top_asian_athletes_by_category self top_n !! c = Some top ->
  top = Py.slice_to top_n
          (Py.sort_by Z.leb (fun x => (- Z.of_nat (total_matches x))%Z)
             (category_candidates is_asian c (athlete_records self))).
Proof.
  intros H. apply rank_categories_lookup in H. rewrite H.
  rewrite (grouping_loop is_asian) by (intros ca k r; reflexivity).
  rewrite lookup_empty. reflexivity.
Qed.

Lemma top_world_lookup self (top_n : Z) (c : string) top :
  get_top_world_athletes_by_category self top_n !! c = Some top ->
  top = Py.slice_to top_n
          (Py.sort_by Z.leb (fun x => (- Z.of_nat (total_matches x))%Z)
             (category_candidates (fun _ => true) c (athlete_records self))).
Proof.
  intros H. apply rank_categories_lookup in H. rewrite H.
  rewrite (grouping_loop (fun _ => true)) by (intros ca k r; reflexivity).
  rewrite lookup_empty. reflexivity.
Qed.

Lemma StronglySorted_take {A} (R : A -> A -> Prop) (i : nat) (l : list A) :
  StronglySorted R l -> StronglySorted R (take i l).
Proof.
  intros H. revert i. induction H as [| x l Hs IH Hx]; intros [| i]; simpl;
    try constructor; [apply IH | apply Forall_take, Hx].
Qed.

Lemma StronglySorted_weaken {A} (R R' : A -> A -> Prop) (l : list A) :
  (forall a b, R a b -> R' a b) -> StronglySorted R l -> StronglySorted R' l.
Proof.
  intros HR. induction 1 as [| x l Hs IH Hx]; constructor; [exact IH |].
  eapply Forall_impl; [exact Hx |]. intros y. apply HR.
Qed.

Lemma filter_sublist {A} (P : A -> Prop) `{forall x, Decision (P x)}
    (l1 l2 : list A) :
  l1 `sublist_of` l2 -> filter P l1 `sublist_of` filter P l2.
Proof.
  induction 1 as [| x l1 l2 Hs IH | x l1 l2 Hs IH]; [constructor | |].
  - rewrite !filter_cons. destruct (decide (P x)); [constructor |]; exact IH.
  - rewrite filter_cons. destruct (decide (P x)); [constructor |]; exact IH.
Qed.

(** What a ranked slice of the candidates of a category satisfies. *)
Lemma ranked_slice (top_n : Z) (candidates : list AthleteRecord) :
  let top :=
    Py.slice_to top_n
      (Py.sort_by Z.leb (fun x => (- Z.of_nat (total_matches x))%Z) candidates) in
  StronglySorted more_active top
  /\ (forall k,
        filter (fun r => total_matches r = k) top
        `sublist_of` filter (fun r => total_matches r = k) candidates)
  /\ ((0 <= top_n)%Z -> (Z.of_nat (length top) <= top_n)%Z).
Proof.
  intros top. subst top.
  set (key := fun x : AthleteRecord => (- Z.of_nat (total_matches x))%Z).
  destruct (slice_to_sublist top_n (Py.sort_by Z.leb key candidates))
    as [i Hi].
  split; [| split].
  - rewrite Hi. apply StronglySorted_take.
    apply (StronglySorted_weaken (Py.key_le Z.leb key)).
    + intros a b Hab. unfold Py.key_le, key in Hab. apply Z.leb_le in Hab.
      unfold more_active. lia.
    + apply (sort_by_sorted Z.leb key).
      * intros a b Hab. apply Z.leb_gt in Hab. apply Z.leb_le. lia.
      * intros a b c Hab Hbc. apply Z.leb_le in Hab, Hbc. apply Z.leb_le. lia.
  - intros k.
    assert (E : forall l : list AthleteRecord,
               filter (fun r => total_matches r = k) l
               = filter (fun r => key r = (- Z.of_nat k)%Z) l).
    { intros l. apply list_filter_iff. intros r. unfold key. lia. }
    rewrite Hi, !E.
    rewrite <- (sort_by_stable Z.leb key Z.leb_refl (- Z.of_nat k)%Z candidates).
    apply filter_sublist, sublist_take.
  - apply slice_to_length.
Qed.

Lemma candidates_in_feed_order (keep : AthleteRecord -> bool) (c : string)
    file self n (k : nat) (l : list AthleteRecord) :
  load_matches __init__ file = Py.Ok (self, n) ->
  l `sublist_of` filter (fun r => total_matches r = k)
                   (category_candidates keep c (athlete_records self)) ->
  name <$> l `sublist_of` first_appearances (match_names (matches self)).
Proof.
  intros Hload Hl.
  destruct (load_matches_records_order file self n Hload) as [Hkeys Hnamed].
  rewrite <- Hkeys, <- (records_named_values _ Hnamed).
  apply fmap_sublist. etrans; [exact Hl |].
  etrans; [apply sublist_filter |]. apply sublist_filter.
Qed.

(** C7, as stated, fails for a negative top-N: with [top_n = -1] the slice
    drops the last athlete of the category and keeps the two others, which
    is more than top-N. *)
Lemma negative_top_n_keeps_athletes :
  length <$> (get_top_world_athletes_by_category (loaded scenario_b) (-1)
              !! "Male -77kg") = Some 2%nat
  /\ length <$> (get_top_asian_athletes_by_category (loaded scenario_b) (-1)
                 !! "Male -77kg") = Some 2%nat
  /\ ~ (Z.of_nat 2 <= -1)%Z.
Proof. split; [| split]; [vm_compute; reflexivity .. | lia]. Qed.

(** C7, amended: in every category leaderboard (Asian or world variant) of
    a loaded feed, the athletes are sorted by [total_matches] in descending
    order, athletes with equal [total_matches] appear in the order in which
    their names first appeared in the feed, and for every top-N that is not
    negative at most top-N athletes are kept. *)
Theorem leaderboard_sorted_stable_top_n
    (file : option Feed.Data) (self : LossChainAnalyzer) (n : nat)
    (top_n : Z) (cat : string) (top : list AthleteRecord) :
  load_matches __init__ file = Py.Ok (self, n) ->
  get_top_asian_athletes_by_category self top_n !! cat = Some top
  \/ get_top_world_athletes_by_category self top_n !! cat = Some top ->
  StronglySorted (fun a b => (total_matches b <= total_matches a)%nat) top
  /\ (forall k,
        name <$> filter (fun r => total_matches r = k) top
        `sublist_of` first_appearances (match_names (matches self)))
  /\ NoDup (first_appearances (match_names (matches self)))
  /\ ((0 <= top_n)%Z -> (Z.of_nat (length top) <= top_n)%Z).
Proof.
  intros Hload Htop.
  assert (H : exists keep,
             top = Py.slice_to top_n
                     (Py.sort_by Z.leb
                        (fun x => (- Z.of_nat (total_matches x))%Z)
                        (category_candidates keep cat (athlete_records self)))).
  { destruct Htop as [Ha | Hw].
    - exists is_asian. apply top_asian_lookup, Ha.
    - exists (fun _ => true). apply top_world_lookup, Hw. }
  destruct H as [keep ->].
  destruct (ranked_slice top_n
              (category_candidates keep cat (athlete_records self)))
    as (Hsorted & Hstable & Hlen).
  split; [exact Hsorted |]. split; [| split].
  - intros k.
    apply (candidates_in_feed_order keep cat file self n k), Hstable.
    exact Hload.
  - apply NoDup_first_appearances.
  - exact Hlen.
Qed.

Lemma leaderboard_sorted_stable_top_n_witness :
  let self := loaded scenario_b in
  let top :=
    default [] (get_top_asian_athletes_by_category self 2 !! "Male -77kg") in
  StronglySorted (fun a b => (total_matches b <= total_matches a)%nat) top
  /\ (forall k,
        name <$> filter (fun r => total_matches r = k) top
        `sublist_of` first_appearances (match_names (matches self)))
  /\ NoDup (first_appearances (match_names (matches self)))
  /\ ((0 <= 2)%Z -> (Z.of_nat (length top) <= 2)%Z).
Proof.
  apply (leaderboard_sorted_stable_top_n (Some scenario_b) (loaded scenario_b)
           3 2 "Male -77kg").
  - vm_compute. reflexivity.
  - left. vm_compute. reflexivity.
Defined.

(** Scenario B ranked: the three athletes have two matches each and keep
    the order of the feed; a top-2 keeps the first two. *)
Example scenario_b_leaderboard :
  match get_top_world_athletes_by_category (loaded scenario_b) 20
        !! "Male -77kg",
        get_top_asian_athletes_by_category (loaded scenario_b) 2
        !! "Male -77kg" with
  | Some world, Some asian =>
      (fun r => (name r, total_matches r)) <$> world
      = [("ALI", 2%nat); ("OMAR", 2%nat); ("SMITH", 2%nat)]
      /\ name <$> asian = ["ALI"; "OMAR"]
  | _, _ => False
  end.
Proof. vm_compute. split; reflexivity. Qed.

(** * [load_matches]: the outcome of a load *)

Lemma load_entry_outcome ev cat self n e :
  load_entry ev cat (self, n) e
  = if fatal e then Py.Raise null_get_error
    else Py.Ok (match entry_result ev cat e with
                | Some m => (ingest self m, S n)
                | None => (self, n)
                end).
Proof.
  unfold load_entry, fatal, entry_result, accepted, corner_name, Py.truthy.
  unfold mbind, result_bind.
  destruct (Feed.winner e) as [| | w]; try reflexivity.
  - cbn [Feed.get_or Feed.get]. destruct (String.eqb w "").
    { destruct (Feed.red_corner e), (Feed.blue_corner e); reflexivity. }
    cbn [negb andb].
    destruct (Feed.red_corner e) as [| | rc];
      [destruct (Feed.blue_corner e); reflexivity | reflexivity |].
    cbn [Feed.get_or Feed.attr is_null orb Py.bind].
    destruct (Feed.name rc) as [| | rn]; cbn [Feed.get negb andb];
      try (destruct (Feed.blue_corner e); reflexivity).
    destruct (String.eqb rn ""); cbn [negb andb];
      [destruct (Feed.blue_corner e); reflexivity |].
    destruct (Feed.blue_corner e) as [| | bc]; try reflexivity.
    cbn [Feed.get_or Feed.attr is_null Py.bind].
    destruct (Feed.name bc) as [| | bn]; cbn [Feed.get negb]; try reflexivity.
    destruct (String.eqb bn ""); cbn [negb]; [reflexivity |].
    cbn [default from_option id].
    destruct (decide (w = rn)) as [-> | Hne].
    + rewrite !bool_decide_eq_true_2 by reflexivity. reflexivity.
    + rewrite !bool_decide_eq_false_2 by congruence. reflexivity.
Qed.

Lemma entry_result_accepted ev cat e :
  is_Some (entry_result ev cat e) <-> accepted e = true.
Proof.
  unfold entry_result, accepted, corner_name.
  destruct (Feed.winner e) as [| | w]; cbn;
    try (split; [intros [? ?]; discriminate | discriminate]).
  destruct (Feed.red_corner e) as [| | rc]; cbn;
    try (rewrite andb_false_r; split; [intros [? ?]; discriminate | discriminate]).
  destruct (Feed.blue_corner e) as [| | bc]; cbn;
    try (rewrite andb_false_r; split; [intros [? ?]; discriminate | discriminate]).
  destruct (_ && _ && _); split; eauto; try discriminate.
  intros [? ?]; discriminate.
Qed.

Lemma results_count ev cat (es : list Feed.Match) :
  length (omap (entry_result ev cat) es) = length (List.filter accepted es).
Proof.
  induction es as [| e es IH]; [reflexivity |].
  cbn [omap list_omap List.filter].
  pose proof (entry_result_accepted ev cat e) as H.
  destruct (entry_result ev cat e) as [m |], (accepted e); simpl.
  - f_equal. exact IH.
  - destruct H as [H _]. discriminate H. eauto.
  - destruct H as [_ H]. destruct (H eq_refl) as [? ?]. discriminate.
  - exact IH.
Qed.

Lemma load_entries_outcome ev cat (es : list Feed.Match) self n :
  Py.for_each (load_entry ev cat) es (self, n)
  = if clean es
    then Py.Ok (foldl ingest self (omap (entry_result ev cat) es),
                (n + length (omap (entry_result ev cat) es))%nat)
    else Py.Raise null_get_error.
Proof.
  revert self n. induction es as [| e es IH]; intros self n.
  - simpl. rewrite Nat.add_0_r. reflexivity.
  - cbn [Py.for_each clean forallb omap list_omap].
    rewrite load_entry_outcome. fold (clean es).
    destruct (fatal e); [reflexivity |]. cbn [negb andb Py.bind].
    destruct (entry_result ev cat e) as [m |]; rewrite IH;
      destruct (clean es); try reflexivity.
    cbn [foldl length]. do 2 f_equal. lia.
Qed.

Lemma clean_app (es1 es2 : list Feed.Match) :
  clean (es1 ++ es2) = clean es1 && clean es2.
Proof. apply forallb_app. Qed.

Lemma load_outcome_raise (iterable clean_ : bool) ok e :
  (e = not_iterable_error /\ iterable = false
   \/ e = null_get_error /\ clean_ = false) ->
  load_outcome iterable clean_ ok (Py.Raise e).
Proof.
  unfold load_outcome.
  intros [[-> ->] | [-> ->]].
  - exists not_iterable_error. auto.
  - destruct iterable; [reflexivity |].
    exists null_get_error. split; [reflexivity |]. split; [auto | discriminate].
Qed.

Lemma load_categories_outcome ev (cs : list Feed.Category) self n :
  load_outcome (forallb category_iterable cs)
    (clean (cs ≫= category_entries))
    (foldl ingest self (cs ≫= category_results ev),
     (n + length (cs ≫= category_results ev))%nat)
    (Py.for_each (load_category ev) cs (self, n)).
Proof.
  revert self n. induction cs as [| c cs IH]; intros self n.
  - simpl. rewrite Nat.add_0_r. reflexivity.
  - rewrite !bind_cons, clean_app. cbn [Py.for_each forallb].
    unfold load_category at 1, category_iterable at 1.
    rewrite iter_get_or.
    destruct (is_null (Feed.matches c)); cbn [negb andb Py.bind].
    { apply load_outcome_raise. auto. }
    rewrite load_entries_outcome.
    fold (category_entries c). fold (category_results ev c).
    destruct (clean (category_entries c)); cbn [Py.bind andb].
    + rewrite foldl_app, length_app, Nat.add_assoc. apply IH.
    + apply load_outcome_raise. auto.
Qed.

Lemma load_event_outcome (ev : Feed.Event) self n :
  load_outcome (event_iterable ev) (clean (event_entries ev))
    (foldl ingest self (event_results ev),
     (n + length (event_results ev))%nat)
    (load_event (self, n) ev).
Proof.
  unfold load_event, event_iterable. rewrite iter_get_or.
  destruct (is_null (Feed.categories ev)); cbn [negb andb].
  - apply load_outcome_raise. auto.
  - apply load_categories_outcome.
Qed.

Lemma load_events_outcome (evs : list Feed.Event) self n :
  load_outcome (forallb event_iterable evs)
    (clean (evs ≫= event_entries))
    (foldl ingest self (evs ≫= event_results),
     (n + length (evs ≫= event_results))%nat)
    (Py.for_each load_event evs (self, n)).
Proof.
  revert self n. induction evs as [| ev evs IH]; intros self n.
  - simpl. rewrite Nat.add_0_r. reflexivity.
  - rewrite !bind_cons, clean_app. cbn [Py.for_each forallb].
    pose proof (load_event_outcome ev self n) as Hev.
    unfold load_outcome in Hev |- *.
    destruct (event_iterable ev); cbn [andb].
    + rewrite Hev. destruct (clean (event_entries ev)); cbn [Py.bind andb].
      * rewrite foldl_app, length_app, Nat.add_assoc. apply IH.
      * destruct (forallb event_iterable evs); [reflexivity |].
        exists null_get_error. split; [reflexivity |].
        split; [auto | discriminate].
    + destruct Hev as (e & -> & He & Hc). exists e.
      split; [reflexivity |]. split; [exact He |].
      intros Hcl. apply andb_true_iff in Hcl as [Hcl _]. auto.
Qed.

(** The outcome of [load_matches] on a parsed document. *)
Lemma load_feed_outcome (data : Feed.Data) self :
  load_outcome (feed_iterable data) (clean (feed_entries data))
    (foldl ingest self (feed_results data), length (feed_results data))
    (load_matches self (Some data)).
Proof.
  unfold load_matches, feed_iterable. rewrite iter_get_or.
  destruct (is_null (Feed.events data)); cbn [negb andb].
  - apply load_outcome_raise. auto.
  - apply (load_events_outcome _ self 0).
Qed.

(** A load that returns has walked the whole feed. *)
Lemma load_matches_Ok (data : Feed.Data) self s' n' :
  load_matches self (Some data) = Py.Ok (s', n') ->
  feed_iterable data = true
  /\ clean (feed_entries data) = true
  /\ s' = foldl ingest self (feed_results data)
  /\ n' = length (feed_results data).
Proof.
  intros H. pose proof (load_feed_outcome data self) as Hout.
  unfold load_outcome in Hout. rewrite H in Hout.
  destruct (feed_iterable data).
  - destruct (clean (feed_entries data)); [| discriminate].
    injection Hout as -> ->. auto.
  - destruct Hout as (e & He & _). discriminate.
Qed.

Lemma feed_results_count (data : Feed.Data) :
  length (feed_results data) = length (List.filter accepted (feed_entries data)).
Proof.
  unfold feed_results, feed_entries.
  induction (Feed.items (Feed.events data)) as [| ev evs IH]; [reflexivity |].
  rewrite !bind_cons, List.filter_app, !length_app, IH. f_equal.
  unfold event_results, event_entries.
  induction (Feed.items (Feed.categories ev)) as [| c cs IHc]; [reflexivity |].
  rewrite !bind_cons, List.filter_app, !length_app, IHc. f_equal.
  apply results_count.
Qed.

Lemma ingest_all_matches (ms : list MatchResult) self :
  matches (foldl ingest self ms) = matches self ++ ms.
Proof.
  revert self. induction ms as [| m ms IH]; intros self; simpl.
  - symmetry. apply app_nil_r.
  - rewrite IH. unfold ingest. rewrite update_records_matches. simpl.
    rewrite <- app_assoc. reflexivity.
Qed.

(** X1: on a feed whose keys are missing, hold [null] or hold a value of
    the type that the parser writes (a country is a string when present),
    [load_matches] returns exactly when no list that it walks ([events],
    [categories], [matches]) is [null] and no entry has a declared winner
    and a [null] corner that has to be read.  It then returns the analyzer
    obtained by ingesting, in feed order, the match results of the accepted
    entries, together with their number, and the match list grows by
    exactly these results.  With a fatal entry and no [null] list it
    raises [AttributeError]; with a [null] list and no fatal entry it
    raises [TypeError]; with both it raises one of the two. *)
Theorem load_matches_outcome (self : LossChainAnalyzer) (data : Feed.Data) :
  let ok := (foldl ingest self (feed_results data),
             length (feed_results data)) in
  (feed_iterable data = true ->
   load_matches self (Some data)
   = if clean (feed_entries data) then Py.Ok ok else Py.Raise null_get_error)
  /\ (feed_iterable data = false ->
      exists e,
        load_matches self (Some data) = Py.Raise e
        /\ (e = not_iterable_error \/ e = null_get_error)
        /\ (clean (feed_entries data) = true -> e = not_iterable_error))
  /\ length (feed_results data)
     = length (List.filter accepted (feed_entries data))
  /\ matches (foldl ingest self (feed_results data))
     = matches self ++ feed_results data.
Proof.
  cbv zeta. pose proof (load_feed_outcome data self) as Hout.
  unfold load_outcome in Hout.
  split; [| split; [| split; [apply feed_results_count
                             | apply ingest_all_matches]]];
    intros Hit; rewrite Hit in Hout; exact Hout.
Qed.

(** A feed with a bye as the parser writes it loads: the bye is skipped. *)
Example bye_feed_loads :
  clean (feed_entries bye_feed) = true
  /\ (winner <$> feed_results bye_feed) = ["ALI"; "ALI"]
  /\ clean (feed_entries null_corner_feed) = false.
Proof. vm_compute. repeat split; reflexivity. Qed.

(** A [null] in place of a list of matches stops the load with
    [TypeError], after the matches before it have been read. *)
Example null_list_stops_the_load :
  feed_iterable null_list_feed = false
  /\ clean (feed_entries null_list_feed) = true
  /\ load_matches __init__ (Some null_list_feed)
     = Py.Raise (Py.TypeError "'NoneType' object is not iterable").
Proof. vm_compute. repeat split; reflexivity. Qed.

(** * The records and the graphs after any sequence of matches *)


Lemma elem_of_match_names (k : string) (ms : list MatchResult) :
  k ∈ match_names ms <-> exists m, m ∈ ms /\ (winner m = k \/ loser m = k).
Proof.
  unfold match_names. rewrite list_elem_of_bind. split.
  - intros (m & Hk & Hm). exists m. split; [exact Hm |].
    apply elem_of_cons in Hk as [-> | Hk]; [left; reflexivity |].
    apply list_elem_of_singleton in Hk as ->. right. reflexivity.
  - intros (m & Hm & [<- | <-]); exists m; split; try exact Hm.
    + apply list_elem_of_here.
    + apply list_elem_of_further, list_elem_of_here.
Qed.

Lemma unknown_name (k : string) (ms : list MatchResult) :
  k ∉ match_names ms ->
  filter (fun m => winner m = k) ms = []
  /\ filter (fun m => loser m = k) ms = []
  /\ first_country k ms = None.
Proof.
  induction ms as [| m ms IH]; [auto |].
  intros Hk. rewrite elem_of_match_names in Hk.
  assert (Hw : winner m <> k).
  { intros E. apply Hk. exists m. split; [apply list_elem_of_here | auto]. }
  assert (Hl : loser m <> k).
  { intros E. apply Hk. exists m. split; [apply list_elem_of_here | auto]. }
  destruct IH as (IH1 & IH2 & IH3).
  { rewrite elem_of_match_names. intros (m' & Hm' & H'). apply Hk.
    exists m'. split; [apply list_elem_of_further, Hm' | exact H']. }
  rewrite !filter_cons_False by assumption. simpl.
  destruct (String.eqb_spec (winner m) k); [contradiction |].
  destruct (String.eqb_spec (loser m) k); [contradiction |]. auto.
Qed.

Lemma first_country_snoc (k : string) (ms : list MatchResult) (m : MatchResult) :
  first_country k (ms ++ [m])
  = match first_country k ms with
    | Some c => Some c
    | None => first_country k [m]
    end.
Proof.
  induction ms as [| m0 ms IH]; [simpl; destruct (first_country k [m]); reflexivity |].
  cbn [app first_country].
  destruct (String.eqb (winner m0) k); [reflexivity |].
  destruct (String.eqb (loser m0) k); [reflexivity | exact IH].
Qed.

Lemma record_faithful_ingest self m (k : string) :
  record_faithful (matches self) k (Py.dict_get k (athlete_records self)) ->
  record_faithful (matches (ingest self m)) k
    (Py.dict_get k (athlete_records (ingest self m))).
Proof.
  unfold ingest. rewrite update_records_matches, update_records_lookup.
  cbn [append_match matches athlete_records]. cbv zeta.
  set (ms := matches self).
  intros H. unfold record_faithful in *.
  rewrite !filter_app, first_country_snoc.
  destruct (Py.dict_get k (athlete_records self)) as [r |].
  - destruct H as (Hn & Hw & Hl & Hc). rewrite Hc.
    destruct (String.eqb_spec (winner m) k) as [Ew | Ew],
             (String.eqb_spec (loser m) k) as [El | El];
      cbn [default from_option id add_win add_loss name wins losses country];
      rewrite ?(filter_cons_True (fun m => winner m = k)) by exact Ew;
      rewrite ?(filter_cons_False (fun m => winner m = k)) by exact Ew;
      rewrite ?(filter_cons_True (fun m => loser m = k)) by exact El;
      rewrite ?(filter_cons_False (fun m => loser m = k)) by exact El;
      rewrite ?filter_nil, ?app_nil_r, Hw, Hl; auto.
  - destruct (unknown_name k ms H) as (Hw & Hl & Hc). rewrite Hw, Hl, Hc.
    cbn [first_country].
    destruct (String.eqb_spec (winner m) k) as [Ew | Ew],
             (String.eqb_spec (loser m) k) as [El | El];
      cbn [default from_option id add_win add_loss fresh_record name wins
           losses country];
      rewrite ?(filter_cons_True (fun m => winner m = k)) by exact Ew;
      rewrite ?(filter_cons_False (fun m => winner m = k)) by exact Ew;
      rewrite ?(filter_cons_True (fun m => loser m = k)) by exact El;
      rewrite ?(filter_cons_False (fun m => loser m = k)) by exact El;
      rewrite ?filter_nil; auto.
    rewrite elem_of_match_names. intros (m' & Hm' & H').
    apply elem_of_app in Hm' as [Hm' | Hm'].
    + apply H. rewrite elem_of_match_names. eauto.
    + apply list_elem_of_singleton in Hm' as ->. tauto.
Qed.

(** Induction over the matches ingested so far. *)
Lemma ingest_invariant (P : LossChainAnalyzer -> Prop) (ms : list MatchResult) :
  (forall s m, P s -> P (ingest s m)) ->
  forall s, P s -> P (foldl ingest s ms).
Proof.
  intros Hstep. induction ms as [| m ms IH]; intros s Hs; simpl; [exact Hs |].
  apply IH, Hstep, Hs.
Qed.

Lemma ingested_records_faithful (ms : list MatchResult) (k : string) :
  record_faithful ms k
    (Py.dict_get k (athlete_records (foldl ingest __init__ ms))).
Proof.
  pose proof (ingest_all_matches ms __init__) as Hm. simpl in Hm.
  rewrite <- Hm at 1.
  apply (ingest_invariant
           (fun s => record_faithful (matches s) k
                       (Py.dict_get k (athlete_records s)))).
  - intros s m. apply record_faithful_ingest.
  - simpl. intros H. inversion H.
Qed.

(** X2: after any sequence of match results is ingested into a fresh
    analyzer, the record stored under a name has that name, its wins are
    exactly the matches won by the name and its losses exactly the matches
    lost by it, both in feed order, so it has at least one match; and a
    name has no record exactly when it played no match. *)
Theorem records_mirror_matches (ms : list MatchResult) (k : string) :
  let self := foldl ingest __init__ ms in
  match Py.dict_get k (athlete_records self) with
  | Some r =>
      name r = k
      /\ wins r = filter (fun m => winner m = k) ms
      /\ losses r = filter (fun m => loser m = k) ms
      /\ (0 < total_matches r)%nat
      /\ k ∈ match_names ms
  | None => k ∉ match_names ms
  end.
Proof.
  cbv zeta. pose proof (ingested_records_faithful ms k) as H.
  unfold record_faithful in H.
  destruct (Py.dict_get k (athlete_records (foldl ingest __init__ ms)))
    as [r |]; [| exact H].
  destruct H as (Hn & Hw & Hl & Hc). repeat split; try assumption.
  - destruct (decide (k ∈ match_names ms)) as [Hin | Hout].
    + apply elem_of_match_names in Hin as (m & Hm & [E | E]).
      * assert (m ∈ wins r) by (rewrite Hw; apply list_elem_of_filter; auto).
        unfold total_matches. destruct (wins r); [inversion H | simpl; lia].
      * assert (m ∈ losses r) by (rewrite Hl; apply list_elem_of_filter; auto).
        unfold total_matches. destruct (losses r); [inversion H | simpl; lia].
    + destruct (unknown_name k ms Hout) as (_ & _ & E). congruence.
  - destruct (decide (k ∈ match_names ms)) as [Hin | Hout]; [exact Hin |].
    destruct (unknown_name k ms Hout) as (_ & _ & E). congruence.
Qed.

(** X3: the country stored for a name is the one of its first appearance
    in the ingested matches (as winner before loser within a match); later
    matches that give the same name another country do not change it. *)
Theorem first_country_is_kept (ms : list MatchResult) (k : string) :
  country <$> Py.dict_get k (athlete_records (foldl ingest __init__ ms))
  = first_country k ms.
Proof.
  pose proof (ingested_records_faithful ms k) as H.
  unfold record_faithful in H.
  destruct (Py.dict_get k (athlete_records (foldl ingest __init__ ms)))
    as [r |]; simpl.
  - destruct H as (_ & _ & _ & Hc). symmetry. exact Hc.
  - destruct (unknown_name k ms H) as (_ & _ & E). symmetry. exact E.
Qed.

(** * The graphs hold the played matches and nothing else *)

Lemma graph_get_add_lookup (g : gmap string (gset string)) (k x k' : string) :
  Py.graph_get (Py.graph_add g k x) k'
  = if decide (k = k') then Py.graph_get g k ∪ {[ x ]} else Py.graph_get g k'.
Proof.
  destruct (decide (k = k')) as [<- | Hne]; [apply graph_get_add |].
  unfold Py.graph_add, Py.graph_get. rewrite lookup_insert_ne by exact Hne.
  reflexivity.
Qed.

Lemma beat_in_snoc (ms : list MatchResult) (m : MatchResult) (a x : string) :
  beat_in (ms ++ [m]) a x <-> beat_in ms a x \/ (winner m = a /\ loser m = x).
Proof.
  unfold beat_in. split.
  - intros (m' & Hm' & Hw & Hl). apply elem_of_app in Hm' as [Hm' | Hm'].
    + left. eauto.
    + apply list_elem_of_singleton in Hm' as ->. right. auto.
  - intros [(m' & Hm' & H') | H'].
    + exists m'. split; [apply elem_of_app; auto | exact H'].
    + exists m. split; [apply elem_of_app; right; apply list_elem_of_here | exact H'].
Qed.

Lemma graphs_exact_ingest s m : graphs_exact s -> graphs_exact (ingest s m).
Proof.
  intros (Hw & Hl & Hwk & Hlk). unfold graphs_exact, ingest.
  rewrite update_records_matches. cbn [_update_records win_graph loss_graph
    append_match matches].
  split; [| split; [| split]].
  - intros a x. rewrite graph_get_add_lookup, beat_in_snoc, <- Hw.
    destruct (decide (winner m = a)) as [<- | Hne].
    + rewrite elem_of_union, elem_of_singleton. intuition congruence.
    + intuition congruence.
  - intros a x. rewrite graph_get_add_lookup, beat_in_snoc, <- Hl.
    destruct (decide (loser m = a)) as [<- | Hne].
    + rewrite elem_of_union, elem_of_singleton. intuition congruence.
    + intuition congruence.
  - intros a S. unfold Py.graph_add.
    destruct (decide (winner m = a)) as [<- | Hne].
    + rewrite lookup_insert_eq. intros [= <-] He.
      apply (not_elem_of_empty (C := gset string) (loser m)).
      rewrite <- He. apply elem_of_union_r, elem_of_singleton. reflexivity.
    + rewrite lookup_insert_ne by exact Hne. apply Hwk.
  - intros a S. unfold Py.graph_add.
    destruct (decide (loser m = a)) as [<- | Hne].
    + rewrite lookup_insert_eq. intros [= <-] He.
      apply (not_elem_of_empty (C := gset string) (winner m)).
      rewrite <- He. apply elem_of_union_r, elem_of_singleton. reflexivity.
    + rewrite lookup_insert_ne by exact Hne. apply Hlk.
Qed.

Lemma graphs_exact_init : graphs_exact __init__.
Proof.
  unfold graphs_exact, Py.graph_get, beat_in. simpl. repeat split.
  - rewrite lookup_empty. simpl. intros H. exfalso.
    exact (not_elem_of_empty (C := gset string) _ H).
  - intros (m & Hm & _). inversion Hm.
  - rewrite lookup_empty. simpl. intros H. exfalso.
    exact (not_elem_of_empty (C := gset string) _ H).
  - intros (m & Hm & _). inversion Hm.
  - intros a S. rewrite lookup_empty. discriminate.
  - intros a S. rewrite lookup_empty. discriminate.
Qed.

Lemma ingested_graphs_exact (ms : list MatchResult) :
  let self := foldl ingest __init__ ms in
  (forall a x, x ∈ Py.graph_get (win_graph self) a <-> beat_in ms a x)
  /\ (forall a x, x ∈ Py.graph_get (loss_graph self) a <-> beat_in ms x a)
  /\ (forall a (S : gset string), win_graph self !! a = Some S -> S <> ∅)
  /\ (forall a (S : gset string), loss_graph self !! a = Some S -> S <> ∅).
Proof.
  cbv zeta.
  pose proof (ingest_invariant graphs_exact ms graphs_exact_ingest __init__
                graphs_exact_init) as H.
  unfold graphs_exact in H. rewrite ingest_all_matches in H. exact H.
Qed.

(** X4: after any sequence of match results is ingested into a fresh
    analyzer, [x] is in the adjacency set of [a] in [win_graph] exactly
    when some ingested match was won by [a] against [x], the two graphs are
    converse to each other, and no key of either graph holds an empty
    set. *)
Theorem graphs_hold_exactly_the_matches (ms : list MatchResult) :
  let self := foldl ingest __init__ ms in
  (forall a x,
      x ∈ Py.graph_get (win_graph self) a
      <-> exists m, m ∈ ms /\ winner m = a /\ loser m = x)
  /\ (forall a x,
        x ∈ Py.graph_get (win_graph self) a
        <-> a ∈ Py.graph_get (loss_graph self) x)
  /\ (forall a (S : gset string), win_graph self !! a = Some S -> S <> ∅)
  /\ (forall a (S : gset string), loss_graph self !! a = Some S -> S <> ∅).
Proof.
  cbv zeta. destruct (ingested_graphs_exact ms) as (Hw & Hl & Hwk & Hlk).
  split; [exact Hw |]. split; [| split; assumption].
  intros a x. rewrite Hw, Hl. reflexivity.
Qed.

(** * Loading the same feed again *)

Lemma graph_add_present (g : gmap string (gset string)) (k x : string) :
  has_edge g k x -> Py.graph_add g k x = g.
Proof.
  intros (S & HS & Hx). unfold Py.graph_add, Py.graph_get. rewrite HS. simpl.
  apply insert_id. rewrite HS. f_equal. symmetry.
  rewrite (comm_L (∪)). apply subseteq_union_1_L.
  intros y Hy. apply elem_of_singleton in Hy as ->. exact Hx.
Qed.

Lemma ingest_edges (ms : list MatchResult) self m :
  m ∈ ms -> edges_of (foldl ingest self ms) m.
Proof.
  revert self. induction ms as [| m0 ms IH]; intros self Hin; [inversion Hin |].
  simpl. apply elem_of_cons in Hin as [-> | Hin]; [| apply IH, Hin].
  generalize (update_records_edges (append_match self m0) m0).
  fold (ingest self m0). generalize (ingest self m0). clear.
  induction ms as [| m1 ms IH]; intros s Hs; simpl; [exact Hs |].
  apply IH. unfold ingest. apply update_records_keeps_edges.
  destruct Hs as [Hw Hl]. split; assumption.
Qed.

Lemma ingest_known_edges (ms : list MatchResult) self :
  (forall m, m ∈ ms -> edges_of self m) ->
  win_graph (foldl ingest self ms) = win_graph self
  /\ loss_graph (foldl ingest self ms) = loss_graph self.
Proof.
  revert self. induction ms as [| m ms IH]; intros self Hall; [auto |].
  simpl.
  assert (Hm : edges_of self m) by (apply Hall, list_elem_of_here).
  assert (Hg : win_graph (ingest self m) = win_graph self
               /\ loss_graph (ingest self m) = loss_graph self).
  { destruct Hm as [Hw Hl]. unfold ingest. simpl.
    split; apply graph_add_present; assumption. }
  destruct Hg as [Hgw Hgl].
  destruct (IH (ingest self m)) as [IHw IHl].
  { intros m' Hm'. destruct (Hall m' (list_elem_of_further _ _ _ Hm')) as [Hw Hl].
    split; [rewrite Hgw | rewrite Hgl]; assumption. }
  rewrite IHw, IHl. auto.
Qed.

(** X5: when a feed loads, loading the same feed again into the resulting
    analyzer succeeds with the same count, appends the same match results
    once more, and leaves both graphs unchanged. *)
Theorem reload_keeps_graphs (self self1 : LossChainAnalyzer)
    (data : Feed.Data) (n : nat) :
  load_matches self (Some data) = Py.Ok (self1, n) ->
  exists self2,
    load_matches self1 (Some data) = Py.Ok (self2, n)
    /\ win_graph self2 = win_graph self1
    /\ loss_graph self2 = loss_graph self1
    /\ matches self2 = matches self1 ++ feed_results data
    /\ matches self1 = matches self ++ feed_results data.
Proof.
  intros H1.
  apply load_matches_Ok in H1 as (Hit & Hc & -> & ->).
  exists (foldl ingest (foldl ingest self (feed_results data)) (feed_results data)).
  pose proof (load_feed_outcome data (foldl ingest self (feed_results data)))
    as H2.
  unfold load_outcome in H2. rewrite Hit, Hc in H2.
  split; [exact H2 |].
  destruct (ingest_known_edges (feed_results data)
              (foldl ingest self (feed_results data))) as [Hw Hl].
  { intros m Hin. apply ingest_edges, Hin. }
  split; [exact Hw |]. split; [exact Hl |].
  split; apply ingest_all_matches.
Qed.

Lemma reload_keeps_graphs_witness :
  exists self2,
    load_matches (loaded scenario_b) (Some scenario_b) = Py.Ok (self2, 3%nat)
    /\ win_graph self2 = win_graph (loaded scenario_b)
    /\ loss_graph self2 = loss_graph (loaded scenario_b)
    /\ matches self2 = matches (loaded scenario_b) ++ feed_results scenario_b
    /\ matches (loaded scenario_b) = matches __init__ ++ feed_results scenario_b.
Proof.
  apply (reload_keeps_graphs __init__ (loaded scenario_b) scenario_b 3).
  vm_compute. reflexivity.
Defined.

(** * [calculate_beatability]: form, reasons and bounds *)

Lemma window_length (l : list MatchResult) :
  length (window l) = Nat.min 3 (length l).
Proof. unfold window, Py.last_n. rewrite length_drop. lia. Qed.

Lemma form_line_origin self R O (n : nat) :
  FormDeclining n ∈ reasoning (calculate_beatability self R O)
  <-> FormDeclining n ∈ recent_form_lines O.
Proof.
  destruct (calculate_beatability_signals self R O) as (tot & _ & _ & -> & _).
  rewrite !elem_of_app.
  assert (H1 : ~ FormDeclining n ∈ shared_loss_lines self R O).
  { unfold shared_loss_lines. intros Hin.
    apply list_elem_of_fmap in Hin as (? & ? & _). discriminate. }
  assert (H2 : ~ FormDeclining n ∈ win_rate_gap_lines R O).
  { unfold win_rate_gap_lines. destruct (Py.Qltb _ _); intros Hin;
      [apply list_elem_of_singleton in Hin; discriminate | inversion Hin]. }
  assert (H4 : ~ FormDeclining n ∈ experience_lines R O).
  { unfold experience_lines. destruct (_ <? _)%nat; intros Hin;
      [apply list_elem_of_singleton in Hin; discriminate | inversion Hin]. }
  assert (H5 : ~ FormDeclining n ∈ close_losses_lines O).
  { unfold close_losses_lines. destruct (_ <? _)%nat; intros Hin;
      [apply list_elem_of_singleton in Hin; discriminate | inversion Hin]. }
  tauto.
Qed.

(** X6: the form label compares the numbers of wins and losses capped at
    three: the candidate is "declining" exactly when it has fewer than
    three wins and more losses than wins, "improving" exactly when it has
    fewer than three losses and more wins than losses, and "stable"
    otherwise; in particular a candidate with three wins or more is never
    declining.  The form line of the reasoning and the 0.15 of the form
    signal come exactly in the declining case. *)
Theorem recent_form_label (self : LossChainAnalyzer) (R O : AthleteRecord) :
  let W := length (wins O) in
  let L := length (losses O) in
  let t := calculate_beatability self R O in
  (recent_form t = "declining" <-> (W < 3 /\ W < L)%nat)
  /\ (recent_form t = "improving" <-> (L < 3 /\ L < W)%nat)
  /\ (recent_form t = "stable" <-> Nat.min 3 W = Nat.min 3 L)
  /\ (forall n, FormDeclining n ∈ reasoning t
                <-> recent_form t = "declining" /\ n = Nat.min 3 L)
  /\ ((recent_form_contribution O == 15 # 100)%Q
      <-> recent_form t = "declining").
Proof.
  cbv zeta.
  assert (Hlines : forall n,
             FormDeclining n ∈ reasoning (calculate_beatability self R O)
             <-> FormDeclining n ∈ recent_form_lines O)
    by (intros n; apply form_line_origin).
  destruct (calculate_beatability_signals self R O) as (tot & _ & _ & _ & ->).
  unfold form_label, recent_form_contribution.
  unfold recent_form_lines in Hlines. rewrite !window_length in *.
  destruct (Nat.ltb_spec (Nat.min 3 (length (wins O)))
                         (Nat.min 3 (length (losses O)))) as [H1 | H1].
  - split; [split; [lia | reflexivity] |].
    split; [split; [discriminate | lia] |].
    split; [split; [discriminate | lia] |].
    split; [| split; reflexivity].
    intros n. rewrite Hlines, list_elem_of_singleton.
    split; [intros [= ->]; auto | intros [_ ->]; reflexivity].
  - assert (Hno : forall n,
               ~ FormDeclining n ∈ reasoning (calculate_beatability self R O)).
    { intros n Hin. apply Hlines in Hin. inversion Hin. }
    destruct (Nat.ltb_spec (Nat.min 3 (length (losses O)))
                           (Nat.min 3 (length (wins O)))) as [H2 | H2].
    + split; [split; [discriminate | lia] |].
      split; [split; [lia | reflexivity] |].
      split; [split; [discriminate | lia] |].
      split; [| split; discriminate].
      intros n. split; [intros Hin; exfalso; exact (Hno n Hin) |].
      intros [E _]. discriminate E.
    + split; [split; [discriminate | lia] |].
      split; [split; [discriminate | lia] |].
      split; [split; [lia | reflexivity] |].
      split; [| split; discriminate].
      intros n. split; [intros Hin; exfalso; exact (Hno n Hin) |].
      intros [E _]. discriminate E.
Qed.

Lemma min_zero_iff (x : Q) : (0 <= x)%Q -> (Py.min x 1 == 0 <-> x == 0)%Q.
Proof.
  intros Hx. unfold Py.min. destruct (Py.Qltb 1 x) eqn:E; [| reflexivity].
  apply Qltb_lt in E. split; intros H; lra.
Qed.

Lemma app_nil_iff {A} (l1 l2 : list A) : l1 ++ l2 = [] <-> l1 = [] /\ l2 = [].
Proof.
  split; [apply app_eq_nil | intros [-> ->]; reflexivity].
Qed.

(** Every signal adds to the score exactly when it adds a line. *)
Lemma signal_lines_and_contributions self R O :
  (shared_loss_lines self R O = [] <-> (shared_loss_contribution self R O == 0)%Q)
  /\ (win_rate_gap_lines R O = [] <-> (win_rate_gap_contribution R O == 0)%Q)
  /\ (recent_form_lines O = [] <-> (recent_form_contribution O == 0)%Q)
  /\ (experience_lines R O = [] <-> (experience_contribution R O == 0)%Q)
  /\ (close_losses_lines O = [] <-> (close_losses_contribution O == 0)%Q).
Proof.
  split; [| split; [| split; [| split]]].
  - unfold shared_loss_lines, shared_loss_contribution.
    set (S := shared_loss_set self R O).
    assert (E : ((3 # 10) * Py.of_nat (size S) == 0)%Q <-> size S = 0%nat).
    { rewrite <- of_nat_zero. split; intros H; lra. }
    rewrite E, size_empty_iff, <- elements_empty_iff.
    destruct (elements S); split; (reflexivity || discriminate).
  - unfold win_rate_gap_lines, win_rate_gap_contribution.
    destruct (Py.Qltb (win_rate O) (win_rate R)) eqn:E.
    + apply Qltb_lt in E. split; [discriminate | intros H; lra].
    + split; reflexivity.
  - unfold recent_form_lines, recent_form_contribution.
    destruct (_ <? _)%nat; split; try discriminate; reflexivity.
  - unfold experience_lines, experience_contribution.
    destruct (_ <? _)%nat; split; try discriminate; reflexivity.
  - unfold close_losses_lines, close_losses_contribution.
    destruct (Nat.ltb_spec 0 (close_loss_count O)) as [H | H].
    + split; [discriminate |]. intros E. exfalso.
      assert (Hp : (0 < Py.of_nat (Nat.min (close_loss_count O) 3))%Q)
        by (apply of_nat_pos; lia).
      lra.
    + replace (close_loss_count O) with 0%nat by lia. split; reflexivity.
Qed.

(** X7: the score is 0 exactly when the reasoning is empty: each of the
    five signals adds to the score if and only if it adds a line, so every
    target with a positive score (every target of a scouting report)
    carries at least one reason. *)
Theorem no_reason_no_score (self : LossChainAnalyzer) (R O : AthleteRecord) :
  let t := calculate_beatability self R O in
  (reasoning t = [] <-> (beatability_score t == 0)%Q)
  /\ (Py.Qltb 0 (beatability_score t) = true <-> reasoning t <> []).
Proof.
  cbv zeta.
  assert (H : reasoning (calculate_beatability self R O) = []
              <-> (beatability_score (calculate_beatability self R O) == 0)%Q).
  { destruct (calculate_beatability_signals self R O) as (tot & Ht & -> & -> & _).
    destruct (contributions_nonneg self R O) as (N1 & N2 & N3 & N4 & N5).
    destruct (signal_lines_and_contributions self R O)
      as (L1 & L2 & L3 & L4 & L5).
    rewrite min_zero_iff by lra.
    rewrite !app_nil_iff, L1, L2, L3, L4, L5.
    split; [intros (? & ? & ? & ? & ?); lra |].
    intros E. repeat split; lra. }
  split; [exact H |].
  rewrite Qltb_lt.
  pose proof (beatability_score_bounds self R O) as [Hb _].
  rewrite H. split; intros Hs; [intros E; lra |].
  destruct (Qlt_le_dec 0 (beatability_score (calculate_beatability self R O)))
    as [Hlt | Hle]; [exact Hlt |].
  exfalso. apply Hs. lra.
Qed.

(** X8: without a shared loss the score is at most 0.75 (0.2 for the
    win-rate gap, 0.15 for the form, 0.1 for experience and 0.3 for close
    losses), and with four shared losses or more it is exactly 1. *)
Theorem score_range_by_shared_losses (self : LossChainAnalyzer)
    (R O : AthleteRecord) :
  let S := shared_loss_set self R O in
  let t := calculate_beatability self R O in
  (S = ∅ -> (beatability_score t <= 75 # 100)%Q)
  /\ ((4 <= size S)%nat -> (beatability_score t == 1)%Q).
Proof.
  cbv zeta.
  destruct (calculate_beatability_signals self R O) as (tot & Ht & -> & _).
  destruct (contributions_nonneg self R O) as (N1 & N2 & N3 & N4 & N5).
  assert (B2 : (win_rate_gap_contribution R O <= 2 # 10)%Q).
  { unfold win_rate_gap_contribution.
    pose proof (win_rate_bounds R) as [? ?].
    pose proof (win_rate_bounds O) as [? ?].
    destruct (Py.Qltb _ _); lra. }
  assert (B3 : (recent_form_contribution O <= 15 # 100)%Q).
  { unfold recent_form_contribution. destruct (_ <? _)%nat; lra. }
  assert (B4 : (experience_contribution R O <= 1 # 10)%Q).
  { unfold experience_contribution. destruct (_ <? _)%nat; lra. }
  assert (B5 : (close_losses_contribution O <= 3 # 10)%Q).
  { unfold close_losses_contribution.
    pose proof (of_nat_le (Nat.min (close_loss_count O) 3) 3
                  (Nat.le_min_r _ _)) as H.
    change (Py.of_nat 3) with (3 # 1)%Q in H.
    set (q := Py.of_nat (Nat.min (close_loss_count O) 3)) in *. lra. }
  unfold shared_loss_contribution in *.
  split.
  - intros HS. rewrite HS, size_empty in Ht.
    change (Py.of_nat 0) with (0 # 1)%Q in Ht.
    unfold Py.min. destruct (Py.Qltb 1 tot) eqn:E; [| lra].
    apply Qltb_lt in E. lra.
  - intros HS. pose proof (of_nat_le 4 _ HS) as H4.
    change (Py.of_nat 4) with (4 # 1)%Q in H4.
    set (q := Py.of_nat (size (shared_loss_set self R O))) in *.
    unfold Py.min. destruct (Py.Qltb 1 tot) eqn:E; [reflexivity |].
    apply Qltb_ge in E. lra.
Qed.

(** * [find_shared_opponents] *)

Lemma target_shared_opponents self R O :
  shared_opponents (calculate_beatability self R O)
  = find_shared_opponents self (name R) (name O).
Proof.
  unfold calculate_beatability.
  destruct (recent_form_signal O _) as [[s r] form]. reflexivity.
Qed.

(** X9: the shared opponents of two names are exactly those that each of
    the two has beaten or lost to, without repetition; the result for
    (a, b) is a permutation of the result for (b, a); and every athlete
    named in a "Lost to" line of a target is among its
    [shared_opponents]. *)
Theorem shared_opponents_spec (self : LossChainAnalyzer) (a b : string)
    (R O : AthleteRecord) :
  (forall x,
      x ∈ find_shared_opponents self a b
      <-> (x ∈ Py.graph_get (win_graph self) a
           \/ x ∈ Py.graph_get (loss_graph self) a)
          /\ (x ∈ Py.graph_get (win_graph self) b
              \/ x ∈ Py.graph_get (loss_graph self) b))
  /\ NoDup (find_shared_opponents self a b)
  /\ find_shared_opponents self a b ≡ₚ find_shared_opponents self b a
  /\ (forall x,
        LostTo x (name R) ∈ reasoning (calculate_beatability self R O) ->
        x ∈ shared_opponents (calculate_beatability self R O)).
Proof.
  assert (Hmem : forall a b x,
             x ∈ find_shared_opponents self a b
             <-> (x ∈ Py.graph_get (win_graph self) a
                  \/ x ∈ Py.graph_get (loss_graph self) a)
                 /\ (x ∈ Py.graph_get (win_graph self) b
                     \/ x ∈ Py.graph_get (loss_graph self) b)).
  { intros a' b' x. unfold find_shared_opponents. cbv zeta.
    rewrite elem_of_elements, elem_of_intersection, !elem_of_union.
    reflexivity. }
  split; [apply Hmem |].
  split; [apply NoDup_elements |].
  split.
  { apply NoDup_Permutation; [apply NoDup_elements .. |].
    intros x. rewrite !Hmem. tauto. }
  intros x Hx.
  assert (Hs : x ∈ shared_loss_set self R O).
  { assert (Hf : LostTo x (name R)
                 ∈ List.filter is_lost_to
                     (reasoning (calculate_beatability self R O))).
    { apply list_elem_of_In, filter_In. split; [apply list_elem_of_In, Hx |].
      reflexivity. }
    destruct (calculate_beatability_signals self R O)
      as (tot & _ & _ & Hr & _).
    rewrite Hr in Hf.
    rewrite List.filter_app, other_lines_not_lost_to, app_nil_r in Hf.
    unfold shared_loss_lines in Hf. rewrite lost_to_lines_kept in Hf.
    apply list_elem_of_fmap in Hf as (y & [= ->] & Hy).
    apply elem_of_elements, Hy. }
  rewrite target_shared_opponents. apply Hmem. unfold shared_loss_set in Hs.
  apply elem_of_intersection in Hs as [H1 H2]. auto.
Qed.

(** * [get_saudi_athletes] and [get_asian_opponents] *)

Lemma foldl_select {A} (p : A -> bool) (l acc : list A) :
  foldl (fun acc x => if p x then acc ++ [x] else acc) acc l
  = acc ++ List.filter p l.
Proof.
  revert acc. induction l as [| x l IH]; intros acc; simpl.
  - symmetry. apply app_nil_r.
  - rewrite IH. destruct (p x); [| reflexivity].
    rewrite <- app_assoc. reflexivity.
Qed.

Lemma Z_neg_key_total (a b : Z) : Z.leb a b = false -> Z.leb b a = true.
Proof. intros H. apply Z.leb_gt in H. apply Z.leb_le. lia. Qed.

Lemma Z_neg_key_trans (a b c : Z) :
  Z.leb a b = true -> Z.leb b c = true -> Z.leb a c = true.
Proof. intros H1 H2. apply Z.leb_le in H1, H2. apply Z.leb_le. lia. Qed.

Lemma saudi_athletes_codes (self : LossChainAnalyzer) :
  Forall (fun r => Py.upper (country r) ∈ SAUDI_CODES)
         (get_saudi_athletes self).
Proof.
  unfold get_saudi_athletes. rewrite (foldl_select is_saudi). cbn [app].
  apply sort_by_Forall, Forall_forall. intros r Hr.
  apply list_elem_of_In, filter_In in Hr as [_ Hr]. unfold is_saudi in Hr.
  apply bool_decide_eq_true in Hr. exact Hr.
Qed.

(** X10: [get_saudi_athletes] returns exactly the records whose country,
    in upper case, is a Saudi code; they are sorted by [total_matches],
    most active first, and athletes with equal totals stay in the order of
    the records. *)
Theorem saudi_athletes_ranked (self : LossChainAnalyzer) :
  let saudi := List.filter is_saudi (Py.dict_values (athlete_records self)) in
  get_saudi_athletes self ≡ₚ saudi
  /\ StronglySorted more_active (get_saudi_athletes self)
  /\ (forall k,
        filter (fun r => total_matches r = k) (get_saudi_athletes self)
        = filter (fun r => total_matches r = k) saudi)
  /\ Forall (fun r => Py.upper (country r) ∈ SAUDI_CODES)
            (get_saudi_athletes self).
Proof.
  cbv zeta. unfold get_saudi_athletes.
  rewrite (foldl_select is_saudi). cbn [app].
  set (saudi := List.filter is_saudi (Py.dict_values (athlete_records self))).
  set (key := fun x : AthleteRecord => (- Z.of_nat (total_matches x))%Z).
  split; [apply sort_by_perm |]. split; [| split].
  - apply (StronglySorted_weaken (Py.key_le Z.leb key)).
    + intros a b Hab. unfold Py.key_le, key in Hab. apply Z.leb_le in Hab.
      unfold more_active. lia.
    + apply (sort_by_sorted Z.leb key Z_neg_key_total Z_neg_key_trans).
  - intros k.
    assert (E : forall l : list AthleteRecord,
               filter (fun r => total_matches r = k) l
               = filter (fun r => key r = (- Z.of_nat k)%Z) l).
    { intros l. apply list_filter_iff. intros r. unfold key. lia. }
    rewrite !E. apply (sort_by_stable Z.leb key Z.leb_refl).
  - apply sort_by_Forall. subst saudi. apply Forall_forall. intros r Hr.
    apply list_elem_of_In, filter_In in Hr as [_ Hr]. unfold is_saudi in Hr.
    apply bool_decide_eq_true in Hr. exact Hr.
Qed.

Lemma athlete_in_category_labelled (ms : list MatchResult) (k c : string) :
  Forall (fun m => is_Some (category m)) ms ->
  _athlete_in_category_loop ms k c = Py.Ok (in_category ms k c).
Proof.
  induction 1 as [| m ms [lbl Hm] Hms IH]; [reflexivity |].
  cbn [_athlete_in_category_loop in_category existsb].
  destruct (String.eqb (winner m) k || String.eqb (loser m) k).
  - unfold category_lower. rewrite Hm. unfold mbind, result_bind.
    cbn [Py.bind andb default from_option id].
    destruct (Py.contains (Py.lower c) (Py.lower lbl)); [reflexivity |].
    exact IH.
  - exact IH.
Qed.

Lemma opponents_step (self : LossChainAnalyzer) (category_ : option string)
    (acc : list AthleteRecord) (k : string) (r : AthleteRecord) :
  Forall (fun m => is_Some (category m)) (matches self) \/ category_ = None ->
  (if bool_decide (Py.upper (country r) ∈ ASIAN_COUNTRIES) then
     if negb (bool_decide (Py.upper (country r) ∈ SAUDI_CODES)) then
       match category_ with
       | None => Py.Ok (acc ++ [r])
       | Some c =>
           b ← _athlete_in_category self k c;
           Py.Ok (if b : bool then acc ++ [r] else acc)
       end
     else Py.Ok acc
   else Py.Ok acc)
  = Py.Ok (if in_pool (matches self) category_ (k, r) then acc ++ [r] else acc).
Proof.
  intros Hlab. unfold in_pool, is_opponent, is_asian, is_saudi. cbn [fst snd].
  destruct (bool_decide (Py.upper (country r) ∈ ASIAN_COUNTRIES));
    [| reflexivity].
  destruct (bool_decide (Py.upper (country r) ∈ SAUDI_CODES)); [reflexivity |].
  cbn [negb andb]. destruct category_ as [c |]; [| reflexivity].
  destruct Hlab as [Hlab | Hlab]; [| discriminate Hlab].
  unfold _athlete_in_category.
  rewrite (athlete_in_category_labelled _ k c Hlab). reflexivity.
Qed.

Lemma opponents_loop (self : LossChainAnalyzer) (category_ : option string)
    (records : Py.dict AthleteRecord) (acc : list AthleteRecord) :
  Forall (fun m => is_Some (category m)) (matches self) \/ category_ = None ->
  Py.for_each
    (fun opponents '(name_, record) =>
       if bool_decide (Py.upper (country record) ∈ ASIAN_COUNTRIES) then
         if negb (bool_decide (Py.upper (country record) ∈ SAUDI_CODES)) then
           match category_ with
           | None => Py.Ok (opponents ++ [record])
           | Some c =>
               b ← _athlete_in_category self name_ c;
               Py.Ok (if b : bool then opponents ++ [record] else opponents)
           end
         else Py.Ok opponents
       else Py.Ok opponents)
    records acc
  = Py.Ok (acc ++ (snd <$> List.filter (in_pool (matches self) category_) records)).
Proof.
  intros Hlab. revert acc.
  induction records as [| [k r] records IH]; intros acc.
  - simpl. rewrite app_nil_r. reflexivity.
  - cbn [Py.for_each List.filter].
    rewrite (opponents_step self category_ acc k r Hlab). cbn [Py.bind].
    rewrite IH. destruct (in_pool (matches self) category_ (k, r));
      [| reflexivity].
    rewrite fmap_cons, <- app_assoc. reflexivity.
Qed.

Lemma opponent_pool_countries self category_ :
  Forall (fun r => Py.upper (country r) ∈ ASIAN_COUNTRIES
                   /\ Py.upper (country r) ∉ SAUDI_CODES)
         (opponent_pool self category_).
Proof.
  unfold opponent_pool. apply Forall_forall. intros r Hr.
  apply list_elem_of_fmap in Hr as ([k r'] & -> & Hin).
  apply list_elem_of_In, filter_In in Hin as [_ Hp].
  unfold in_pool, is_opponent, is_asian, is_saudi in Hp. cbn [fst snd] in *.
  apply andb_true_iff in Hp as [Hp _]. apply andb_true_iff in Hp as [Ha Hs].
  apply bool_decide_eq_true in Ha. apply negb_true_iff in Hs.
  apply bool_decide_eq_false in Hs. auto.
Qed.

(** X11: when every match of the analyzer carries a category label (or no
    category is asked for), [get_asian_opponents] does not raise and
    returns, in the order of the records, exactly the records with an
    Asian, non-Saudi country code that, if a category is given, have a
    match whose label contains it (letter case aside); so no athlete is
    both a Saudi athlete and an opponent. *)
Theorem asian_opponents_pool (self : LossChainAnalyzer)
    (category_ : option string) :
  Forall (fun m => is_Some (category m)) (matches self) \/ category_ = None ->
  get_asian_opponents self category_ = Py.Ok (opponent_pool self category_)
  /\ Forall (fun r => Py.upper (country r) ∈ ASIAN_COUNTRIES
                      /\ Py.upper (country r) ∉ SAUDI_CODES)
            (opponent_pool self category_)
  /\ (forall r, r ∈ get_saudi_athletes self ->
                r ∉ opponent_pool self category_).
Proof.
  intros Hlab. split; [| split].
  - unfold get_asian_opponents, opponent_pool.
    rewrite (opponents_loop self category_ (athlete_records self) [] Hlab).
    reflexivity.
  - apply opponent_pool_countries.
  - intros r Hs Ho.
    pose proof (proj1 (Forall_forall _ _) (saudi_athletes_codes self) r Hs)
      as Hsaudi.
    pose proof (proj1 (Forall_forall _ _) (opponent_pool_countries self category_)
                  r Ho) as [_ Hnot].
    exact (Hnot Hsaudi).
Qed.

Lemma asian_opponents_pool_witness :
  get_asian_opponents (loaded scenario_b) (Some "77KG")
  = Py.Ok (opponent_pool (loaded scenario_b) (Some "77KG"))
  /\ Forall (fun r => Py.upper (country r) ∈ ASIAN_COUNTRIES
                      /\ Py.upper (country r) ∉ SAUDI_CODES)
            (opponent_pool (loaded scenario_b) (Some "77KG"))
  /\ (forall r, r ∈ get_saudi_athletes (loaded scenario_b) ->
                r ∉ opponent_pool (loaded scenario_b) (Some "77KG")).
Proof.
  apply (asian_opponents_pool (loaded scenario_b) (Some "77KG")).
  left. vm_compute. repeat (constructor; [eexists; reflexivity |]).
  constructor.
Defined.

(** * [generate_scouting_report] *)

Lemma select_sublist {A} (p : A -> bool) (l : list A) :
  List.filter p l `sublist_of` l.
Proof.
  induction l as [| x l IH]; [constructor |].
  cbn [List.filter]. destruct (p x); constructor; exact IH.
Qed.

Lemma report_loop (self : LossChainAnalyzer) (opponents : list AthleteRecord)
    (athletes : list AthleteRecord) (acc : list AthleteReport) :
  foldl (fun reports saudi => reports ++ [athlete_report self opponents saudi])
        acc athletes
  = acc ++ (athlete_report self opponents <$> athletes).
Proof. apply (foldl_snoc (athlete_report self opponents)). Qed.


(** X12: on an analyzer whose matches all carry a category, or when no
    category is asked for, [generate_scouting_report] does not raise,
    whatever the name filter: the report counts the matches of the
    analyzer and holds one entry per selected Saudi athlete, in the order
    of [get_saudi_athletes], with the name, the country, the numbers of
    wins and losses and the win rate of that athlete.  The records are
    those of the dataclass, whose country is a string.  (The targets of an
    entry are the subject of the next section.) *)
Theorem scouting_report_generated
    (self : LossChainAnalyzer) (now : string)
    (saudi_name category_ : option string) :
  Forall (fun m => is_Some (category m)) (matches self) \/ category_ = None ->
  exists report,
    generate_scouting_report self now saudi_name category_ = Py.Ok report
    /\ generated_at report = now
    /\ total_matches_analyzed report = length (matches self)
    /\ Forall2 (fun a r =>
                  saudi_athlete a = name r
                  /\ report_country a = country r
                  /\ total_wins a = length (wins r)
                  /\ total_losses a = length (losses r)
                  /\ (report_win_rate a == win_rate r)%Q)
               (scouting_reports report) (selected_saudi self saudi_name)
    /\ selected_saudi self saudi_name `sublist_of` get_saudi_athletes self.
Proof.
  intros Hlab.
  exists {| generated_at := now;
            total_matches_analyzed := length (matches self);
            scouting_reports :=
              athlete_report self (opponent_pool self category_)
                <$> selected_saudi self saudi_name |}.
  split; [| split; [reflexivity | split; [reflexivity | split]]].
  - unfold generate_scouting_report. fold (selected_saudi self saudi_name).
    unfold get_asian_opponents.
    rewrite (opponents_loop self category_ (athlete_records self) [] Hlab).
    cbn [app]. fold (opponent_pool self category_).
    unfold mbind, result_bind. cbn [Py.bind]. rewrite report_loop.
    destruct (selected_saudi self saudi_name); reflexivity.
  - cbn [scouting_reports]. apply Forall2_fmap_l, Forall_Forall2_diag.
    apply Forall_forall. intros r _. unfold athlete_report.
    cbn [saudi_athlete report_country total_wins total_losses report_win_rate].
    repeat split; reflexivity.
  - unfold selected_saudi. destruct (Py.truthy saudi_name); [| reflexivity].
    apply select_sublist.
Qed.

Lemma scouting_report_generated_witness :
  exists report,
    generate_scouting_report (loaded scenario_b) "2026" (Some "ali") (Some "77")
    = Py.Ok report
    /\ generated_at report = "2026"
    /\ total_matches_analyzed report = length (matches (loaded scenario_b))
    /\ Forall2 (fun a r =>
                  saudi_athlete a = name r
                  /\ report_country a = country r
                  /\ total_wins a = length (wins r)
                  /\ total_losses a = length (losses r)
                  /\ (report_win_rate a == win_rate r)%Q)
               (scouting_reports report)
               (selected_saudi (loaded scenario_b) (Some "ali"))
    /\ selected_saudi (loaded scenario_b) (Some "ali")
       `sublist_of` get_saudi_athletes (loaded scenario_b).
Proof.
  apply (scouting_report_generated (loaded scenario_b) "2026"
           (Some "ali") (Some "77")).
  left. vm_compute. repeat (constructor; [eexists; reflexivity |]).
  constructor.
Defined.

(** A feed may give a category [null]: it loads, the matches carry no
    category, and a report that filters by category then raises. *)
Example null_category_report :
  let self := loaded null_category_feed in
  load_matches __init__ (Some null_category_feed) = Py.Ok (self, 1%nat)
  /\ category <$> matches self = [None]
  /\ generate_scouting_report self "2026" None (Some "77")
     = Py.Raise (Py.AttributeError "'NoneType' object has no attribute 'lower'")
  /\ exists report, generate_scouting_report self "2026" None None = Py.Ok report.
Proof. vm_compute. repeat split; try reflexivity. eexists; reflexivity. Qed.

(** * The targets of a scouting report *)









(** * Which categories have a leaderboard, and who is listed *)

Lemma categories_loop (ms : list MatchResult) (seen : gset string) (c : string) :
  c ∈ foldl (fun seen m =>
               if Py.truthy (category m)
               then seen ∪ {[ default "" (category m) ]} else seen)
            seen ms
  <-> c ∈ seen \/ (c <> "" /\ exists m, m ∈ ms /\ category m = Some c).
Proof.
  revert seen. induction ms as [| m ms IH]; intros seen.
  - simpl. split; [auto |]. intros [H | (_ & m & Hm & _)]; [exact H |].
    inversion Hm.
  - cbn [foldl]. rewrite IH. clear IH.
    assert (Hcons : forall P : MatchResult -> Prop,
               (exists m', m' ∈ m :: ms /\ P m')
               <-> P m \/ exists m', m' ∈ ms /\ P m').
    { intros P. split.
      - intros (m' & Hm' & HP). apply elem_of_cons in Hm' as [-> | Hm']; eauto.
      - intros [HP | (m' & Hm' & HP)].
        + exists m. split; [apply list_elem_of_here | exact HP].
        + exists m'. split; [apply list_elem_of_further, Hm' | exact HP]. }
    rewrite (Hcons (fun m' => category m' = Some c)).
    destruct (category m) as [lbl |] eqn:E; unfold Py.truthy.
    + destruct (String.eqb_spec lbl "") as [-> | Hl]; cbn [negb].
      * split; [intros [H | (Hc & H)]; auto |].
        intros [H | (Hc & [H | H])]; auto. congruence.
      * cbn [default from_option id].
        rewrite elem_of_union, elem_of_singleton. split.
        -- intros [[H | ->] | (Hc & H)]; auto.
        -- intros [H | (Hc & [[= ->] | H])]; auto.
    + split; [intros [H | (Hc & H)]; auto |].
      intros [H | (Hc & [H | H])]; auto. discriminate H.
Qed.

Lemma elem_of_categories_seen (r : AthleteRecord) (c : string) :
  c ∈ categories_seen r
  <-> c <> "" /\ exists m, m ∈ wins r ++ losses r /\ category m = Some c.
Proof.
  unfold categories_seen. rewrite categories_loop. split.
  - intros [H | H]; [exfalso; exact (not_elem_of_empty (C := gset string) c H) | exact H].
  - auto.
Qed.

(** No category is ever stored with an empty list. *)
Lemma grouping_loop_keys (step : gmap string (list AthleteRecord) ->
                                 string * AthleteRecord ->
                                 gmap string (list AthleteRecord))
    (keep : AthleteRecord -> bool) :
  (forall ca k r,
      step ca (k, r) = if keep r then add_to_categories ca r else ca) ->
  forall (records : Py.dict AthleteRecord) ca,
    (forall c l, ca !! c = Some l -> l <> []) ->
    forall c l, foldl step ca records !! c = Some l -> l <> [].
Proof.
  intros Hstep records. induction records as [| [k r] records IH];
    intros ca Hca; [exact Hca |].
  cbn [foldl]. apply IH. rewrite Hstep. destruct (keep r); [| exact Hca].
  intros c l. unfold add_to_categories.
  rewrite category_append_lookup by apply NoDup_elements.
  destruct (decide (c ∈ elements (categories_seen r))); [| apply Hca].
  intros [= <-]. intros E. apply app_eq_nil in E as [_ E]. discriminate E.
Qed.

Lemma leaderboard_key (step : gmap string (list AthleteRecord) ->
                              string * AthleteRecord ->
                              gmap string (list AthleteRecord))
    (keep : AthleteRecord -> bool) (records : Py.dict AthleteRecord)
    (top_n : Z) (c : string) :
  (forall ca k r,
      step ca (k, r) = if keep r then add_to_categories ca r else ca) ->
  is_Some (rank_categories top_n (foldl step ∅ records) !! c)
  <-> exists r, r ∈ Py.dict_values records
                /\ keep r = true /\ c ∈ categories_seen r.
Proof.
  intros Hstep. unfold rank_categories. rewrite lookup_fmap, fmap_is_Some.
  pose proof (grouping_loop keep step Hstep records ∅ c) as Hl.
  rewrite lookup_empty in Hl. cbn [default from_option id app] in Hl.
  pose proof (grouping_loop_keys step keep Hstep records ∅) as Hk.
  assert (Hcand : category_candidates keep c records <> []
                  <-> exists r, r ∈ Py.dict_values records
                                /\ keep r = true /\ c ∈ categories_seen r).
  { unfold category_candidates. split.
    - intros Hne.
      destruct (filter _ (Py.dict_values records)) as [| r l] eqn:E;
        [contradiction |].
      assert (Hr : r ∈ filter (fun r => keep r = true /\ c ∈ categories_seen r)
                         (Py.dict_values records))
        by (rewrite E; apply list_elem_of_here).
      apply list_elem_of_filter in Hr as [[? ?] ?]. eauto.
    - intros (r & Hr & Hkeep & Hc) E.
      assert (Hin : r ∈ filter (fun r => keep r = true /\ c ∈ categories_seen r)
                          (Py.dict_values records))
        by (apply list_elem_of_filter; auto).
      rewrite E in Hin. inversion Hin. }
  rewrite <- Hcand. split.
  - intros [l E]. rewrite E in Hl. cbn in Hl. rewrite <- Hl.
    apply (Hk ltac:(intros ? ?; rewrite lookup_empty; discriminate) c l E).
  - intros Hne. destruct (foldl step ∅ records !! c) as [l |]; [eauto |].
    cbn in Hl. congruence.
Qed.

(** X14: a category has a leaderboard exactly when some athlete (an Asian
    one, for the Asian variant) has a match labelled with it, whatever
    top-N is: with top-N = 0 the category is still a key, with an empty
    list.  A label counts when it is a non-empty string; matches without a
    label or with an empty one open no category. *)
Theorem leaderboard_categories (self : LossChainAnalyzer) (top_n : Z)
    (c : string) :
  (is_Some (get_top_world_athletes_by_category self top_n !! c)
   <-> exists r, r ∈ Py.dict_values (athlete_records self)
                 /\ c <> ""
                 /\ exists m, m ∈ wins r ++ losses r /\ category m = Some c)
  /\ (is_Some (get_top_asian_athletes_by_category self top_n !! c)
      <-> exists r, r ∈ Py.dict_values (athlete_records self)
                    /\ Py.upper (country r) ∈ ASIAN_COUNTRIES
                    /\ c <> ""
                    /\ exists m, m ∈ wins r ++ losses r /\ category m = Some c)
  /\ (get_top_world_athletes_by_category self 0 !! c = None
      \/ get_top_world_athletes_by_category self 0 !! c = Some []).
Proof.
  split; [| split].
  - unfold get_top_world_athletes_by_category.
    rewrite (leaderboard_key _ (fun _ => true))
      by (intros ca k r; reflexivity).
    split; intros (r & Hr & H).
    + destruct H as [_ Hc]. apply elem_of_categories_seen in Hc. eauto.
    + exists r. rewrite elem_of_categories_seen. auto.
  - unfold get_top_asian_athletes_by_category.
    rewrite (leaderboard_key _ is_asian) by (intros ca k r; reflexivity).
    unfold is_asian. split; intros (r & Hr & H).
    + destruct H as [Ha Hc]. apply bool_decide_eq_true in Ha.
      apply elem_of_categories_seen in Hc. eauto.
    + destruct H as (Ha & Hc). exists r. rewrite elem_of_categories_seen.
      split; [exact Hr |]. split; [apply bool_decide_eq_true, Ha | exact Hc].
  - destruct (get_top_world_athletes_by_category self 0 !! c) as [top |] eqn:E;
      [right | left; reflexivity].
    apply top_world_lookup in E. rewrite E. reflexivity.
Qed.

Lemma ranked_slice_members (top_n : Z) (candidates : list AthleteRecord) :
  let top :=
    Py.slice_to top_n
      (Py.sort_by Z.leb (fun x => (- Z.of_nat (total_matches x))%Z) candidates) in
  top ⊆+ candidates
  /\ ((Z.of_nat (length candidates) <= top_n)%Z -> top ≡ₚ candidates).
Proof.
  cbv zeta. set (sorted := Py.sort_by Z.leb _ candidates).
  assert (Hp : sorted ≡ₚ candidates) by apply sort_by_perm.
  split.
  - destruct (slice_to_sublist top_n sorted) as [i ->].
    etrans; [apply sublist_submseteq, sublist_take |].
    apply Permutation_submseteq, Hp.
  - intros Hn. unfold Py.slice_to.
    rewrite (proj2 (Z.leb_le 0 top_n)) by lia.
    rewrite take_ge; [exact Hp |].
    rewrite (Permutation_length Hp). lia.
Qed.

(** X15: in a category leaderboard of a loaded feed (Asian or world
    variant) no athlete is listed twice, every listed athlete is a stored
    record with a match labelled with the category, and in the world
    variant every such record is listed as soon as top-N is at least the
    number of athletes. *)
Theorem leaderboard_members
    (file : option Feed.Data) (self : LossChainAnalyzer) (n : nat)
    (top_n : Z) (c : string) (top : list AthleteRecord) :
  load_matches __init__ file = Py.Ok (self, n) ->
  get_top_asian_athletes_by_category self top_n !! c = Some top
  \/ get_top_world_athletes_by_category self top_n !! c = Some top ->
  NoDup (name <$> top)
  /\ Forall (fun r => r ∈ Py.dict_values (athlete_records self)
                      /\ c ∈ categories_seen r) top
  /\ (get_top_world_athletes_by_category self top_n !! c = Some top ->
      (Z.of_nat (length (athlete_records self)) <= top_n)%Z ->
      forall r, r ∈ Py.dict_values (athlete_records self) ->
                c ∈ categories_seen r -> r ∈ top).
Proof.
  intros Hload Htop.
  destruct (load_matches_records_order file self n Hload) as [Hkeys Hnamed].
  assert (Hnd : NoDup (name <$> Py.dict_values (athlete_records self))).
  { rewrite (records_named_values _ Hnamed), Hkeys.
    apply NoDup_first_appearances. }
  assert (H : exists keep,
             top = Py.slice_to top_n
                     (Py.sort_by Z.leb
                        (fun x => (- Z.of_nat (total_matches x))%Z)
                        (category_candidates keep c (athlete_records self)))).
  { destruct Htop as [Ha | Hw].
    - exists is_asian. apply top_asian_lookup, Ha.
    - exists (fun _ => true). apply top_world_lookup, Hw. }
  destruct H as [keep Etop].
  destruct (ranked_slice_members top_n
              (category_candidates keep c (athlete_records self)))
    as [Hsub _].
  rewrite <- Etop in Hsub.
  assert (Hcand : category_candidates keep c (athlete_records self)
                  ⊆+ Py.dict_values (athlete_records self)).
  { unfold category_candidates. apply sublist_submseteq, sublist_filter. }
  split; [| split].
  - assert (Hs : name <$> top ⊆+ name <$> Py.dict_values (athlete_records self))
      by (apply fmap_submseteq; etrans; eassumption).
    apply submseteq_Permutation in Hs as [rest Hs].
    rewrite Hs in Hnd. apply NoDup_app in Hnd as [Hnd _]. exact Hnd.
  - apply Forall_forall. intros r Hr.
    pose proof (elem_of_submseteq _ _ _ Hr Hsub) as Hc.
    unfold category_candidates in Hc.
    apply list_elem_of_filter in Hc as [[_ Hc] Hin]. auto.
  - intros Hw Hn r Hr Hc. apply top_world_lookup in Hw.
    destruct (ranked_slice_members top_n
                (category_candidates (fun _ => true) c (athlete_records self)))
      as [_ Hall].
    rewrite <- Hw in Hall. rewrite Hall.
    + unfold category_candidates. apply list_elem_of_filter. auto.
    + pose proof (submseteq_length _ _
                    (sublist_submseteq _ _
                       (sublist_filter
                          (fun r => (fun _ : AthleteRecord => true) r = true
                                    /\ c ∈ categories_seen r)
                          (Py.dict_values (athlete_records self))))) as Hlen.
      unfold category_candidates. unfold Py.dict_values in *.
      rewrite length_fmap in Hlen. lia.
Qed.

Lemma leaderboard_members_witness :
  let self := loaded scenario_b in
  let top :=
    default [] (get_top_world_athletes_by_category self 3 !! "Male -77kg") in
  NoDup (name <$> top)
  /\ Forall (fun r => r ∈ Py.dict_values (athlete_records self)
                      /\ "Male -77kg" ∈ categories_seen r) top
  /\ (get_top_world_athletes_by_category self 3 !! "Male -77kg" = Some top ->
      (Z.of_nat (length (athlete_records self)) <= 3)%Z ->
      forall r, r ∈ Py.dict_values (athlete_records self) ->
                "Male -77kg" ∈ categories_seen r -> r ∈ top).
Proof.
  apply (leaderboard_members (Some scenario_b) (loaded scenario_b) 3 3
           "Male -77kg").
  - vm_compute. reflexivity.
  - right. vm_compute. reflexivity.
Defined.

(** * [print_loss_chains]: the depth parameter *)

(** X16: the depth of the trace only has two regimes: any depth of 2 or
    more prints what depth 2 prints (there is no third level), and any
    depth of 1 or less prints the header, the "lost to" line and one line
    per athlete who beat the given one, with nothing under them. *)
Theorem trace_depth_regimes (self : LossChainAnalyzer) (who : string)
    (depth : Z) :
  ((2 <= depth)%Z ->
   print_loss_chains self who depth = print_loss_chains self who 2)
  /\ ((depth <= 1)%Z ->
      Py.graph_get (loss_graph self) who <> ∅ ->
      print_loss_chains self who depth
      = chain_header who :: lost_to_line who
        :: (beater_line self
              <$> elements (Py.graph_get (loss_graph self) who))).
Proof.
  split.
  - intros Hd. unfold print_loss_chains. cbv zeta.
    destruct (bool_decide (Py.graph_get (loss_graph self) who = ∅));
      [reflexivity |].
    rewrite !chain_loop by lia. reflexivity.
  - intros Hd Hne. unfold print_loss_chains. cbv zeta.
    rewrite bool_decide_eq_false_2 by exact Hne.
    rewrite (proj2 (Z.ltb_ge 1 depth)) by lia.
    rewrite (foldl_snoc (beater_line self)). reflexivity.
Qed.

(** ** The category leaderboard reports *)

Lemma ascii_compare_N (a b : ascii) :
  Ascii.compare a b = (N_of_ascii a ?= N_of_ascii b)%N.
Proof. reflexivity. Qed.

Lemma string_leb_cons (a b : ascii) (s t : string) :
  String.leb (String a s) (String b t) = true
  <-> (N_of_ascii a < N_of_ascii b)%N \/ (a = b /\ String.leb s t = true).
Proof.
  unfold String.leb. cbn [String.compare]. rewrite ascii_compare_N.
  destruct (N.compare_spec (N_of_ascii a) (N_of_ascii b)) as [E | E | E].
  - split.
    + intros H. right. split; [| exact H].
      rewrite <- (ascii_N_embedding a), <- (ascii_N_embedding b), E. reflexivity.
    + intros [H | [_ H]]; [lia | exact H].
  - split; [intros _; left; exact E | reflexivity].
  - split; [discriminate |].
    intros [H | [-> _]]; lia.
Qed.

Lemma string_leb_trans (a b c : string) :
  String.leb a b = true -> String.leb b c = true -> String.leb a c = true.
Proof.
  revert b c. induction a as [| x a IH]; intros b c Hab Hbc.
  - destruct c; reflexivity.
  - destruct b as [| y b]; [discriminate Hab |].
    destruct c as [| z c]; [discriminate Hbc |].
    apply string_leb_cons in Hab. apply string_leb_cons in Hbc.
    apply string_leb_cons.
    destruct Hab as [Hab | [-> Hab]], Hbc as [Hbc | [-> Hbc]].
    + left. lia.
    + left. exact Hab.
    + left. exact Hbc.
    + right. split; [reflexivity | exact (IH _ _ Hab Hbc)].
Qed.

Lemma StronglySorted_strict {A} (R : A -> A -> Prop) (l : list A) :
  StronglySorted R l -> NoDup l -> StronglySorted (fun a b => R a b /\ a <> b) l.
Proof.
  induction 1 as [| a l Hs IH Hall]; intros Hnd; constructor.
  - apply IH. exact (NoDup_cons_1_2 _ _ Hnd).
  - apply NoDup_cons in Hnd as [Hna _].
    rewrite Forall_forall in Hall. apply Forall_forall. intros b Hb. split.
    + exact (Hall b Hb).
    + intros ->. exact (Hna Hb).
Qed.

Lemma StronglySorted_fmap {A B} (f : A -> B) (R : B -> B -> Prop) (l : list A) :
  StronglySorted (fun a b => R (f a) (f b)) l -> StronglySorted R (f <$> l).
Proof.
  induction 1 as [| a l Hs IH Hall]; cbn; constructor.
  - exact IH.
  - apply Forall_fmap. exact Hall.
Qed.

(** The categories of a report: the items of the board that pass the
    filter, by increasing name. *)
Lemma board_categories_spec (board : gmap string (list AthleteRecord))
    (category_ : option string) :
  (forall c entries,
      {| report_category := c; report_athletes := entries |}
        ∈ board_categories_of board category_
      <-> exists top,
            board !! c = Some top
            /\ (Py.truthy category_ = true ->
                Py.contains (Py.lower (default "" category_)) (Py.lower c) = true)
            /\ entries = athlete_entry <$> top)
  /\ StronglySorted name_before
                    (report_category <$> board_categories_of board category_).
Proof.
  unfold board_categories_of.
  set (kept := if Py.truthy category_ then filter _ board else board).
  rewrite foldl_snoc. cbn [app].
  assert (Hkept : forall c top,
             kept !! c = Some top
             <-> board !! c = Some top
                 /\ (Py.truthy category_ = true ->
                     Py.contains (Py.lower (default "" category_))
                                 (Py.lower c) = true)).
  { intros c top. subst kept. destruct (Py.truthy category_).
    - rewrite map_lookup_filter_Some. cbn [fst]. tauto.
    - split; [intros H; split; [exact H | discriminate] | tauto]. }
  split.
  - intros c entries. rewrite list_elem_of_fmap. split.
    + intros [[k top] [Heq Hin]].
      rewrite (sort_by_perm String.leb fst) in Hin.
      apply elem_of_map_to_list in Hin. apply Hkept in Hin as [Hb Hf].
      unfold category_report in Heq. cbn [fst snd] in Heq.
      rewrite foldl_snoc in Heq. cbn [app] in Heq.
      injection Heq as -> ->. exists top. auto.
    + intros [top (Hb & Hf & ->)]. exists (c, top). split.
      * unfold category_report. cbn [fst snd]. rewrite foldl_snoc. reflexivity.
      * rewrite (sort_by_perm String.leb fst).
        apply elem_of_map_to_list, Hkept. auto.
  - rewrite <- list_fmap_compose.
    change (report_category ∘ category_report)
      with (fst : string * list AthleteRecord -> string).
    apply StronglySorted_strict.
    + apply StronglySorted_fmap with (f := fst)
                                     (R := fun a b => String.leb a b = true).
      apply (sort_by_sorted String.leb fst).
      * intros a b Hab. destruct (String.leb_total a b) as [H | H];
          [congruence | exact H].
      * apply string_leb_trans.
    + rewrite (sort_by_perm String.leb fst). apply NoDup_fst_map_to_list.
Qed.
Lemma board_category_names (board : gmap string (list AthleteRecord))
    (category_ : option string) (c : string) :
  c ∈ report_category <$> board_categories_of board category_
  <-> is_Some (board !! c)
      /\ (Py.truthy category_ = true ->
          Py.contains (Py.lower (default "" category_)) (Py.lower c) = true).
Proof.
  destruct (board_categories_spec board category_) as [Hspec _].
  rewrite list_elem_of_fmap. split.
  - intros [[c' entries] [-> Hin]]. cbn [report_category].
    apply Hspec in Hin as (top & Hb & Hf & _). split; [eauto | exact Hf].
  - intros [[top Hb] Hf].
    exists {| report_category := c; report_athletes := athlete_entry <$> top |}.
    split; [reflexivity |]. apply Hspec. eauto.
Qed.

(** X17: the categories of a leaderboard report are the keys of the
    leaderboard that pass the category filter (case-insensitive containment,
    no filter for a missing or empty argument), each once and by increasing
    name in code-point order, with the athletes of the leaderboard in their
    order.  Every category of the Asian report is one of the world report. *)
Theorem report_categories_sorted_and_filtered (self : LossChainAnalyzer)
    (now : string) (category_ : option string) (top_n : Z) :
  let asian := board_categories
                 (generate_asian_scouting_report self now category_ top_n) in
  let world := board_categories
                 (generate_world_scouting_report self now category_ top_n) in
  let selected c :=
    Py.truthy category_ = true ->
    Py.contains (Py.lower (default "" category_)) (Py.lower c) = true in
  (forall c entries,
      {| report_category := c; report_athletes := entries |} ∈ asian
      <-> exists top,
            get_top_asian_athletes_by_category self top_n !! c = Some top
            /\ selected c /\ entries = athlete_entry <$> top)
  /\ (forall c entries,
        {| report_category := c; report_athletes := entries |} ∈ world
        <-> exists top,
              get_top_world_athletes_by_category self top_n !! c = Some top
              /\ selected c /\ entries = athlete_entry <$> top)
  /\ StronglySorted name_before (report_category <$> asian)
  /\ StronglySorted name_before (report_category <$> world)
  /\ (forall c, c ∈ report_category <$> asian -> c ∈ report_category <$> world).
Proof.
  cbn zeta. unfold generate_asian_scouting_report, generate_world_scouting_report.
  cbn [board_categories].
  split; [apply board_categories_spec |].
  split; [apply board_categories_spec |].
  split; [apply board_categories_spec |].
  split; [apply board_categories_spec |].
  intros c. rewrite !board_category_names. intros [Ha Hf]. split; [| exact Hf].
  unfold get_top_asian_athletes_by_category in Ha.
  rewrite (leaderboard_key _ is_asian) in Ha by (intros ca k r; reflexivity).
  unfold get_top_world_athletes_by_category.
  rewrite (leaderboard_key _ (fun _ => true)) by (intros ca k r; reflexivity).
  destruct Ha as (r & Hr & _ & Hc). exists r. auto.
Qed.



(** ** The key losses of a target *)

Lemma target_key_losses self R O :
  key_losses (calculate_beatability self R O)
  = (fun loss => {| kl_to := winner loss;
                    kl_country := winner_country loss;
                    kl_score := score loss;
                    kl_event := event loss;
                    kl_round := round loss |})
      <$> Py.last_n 5 (losses O).
Proof.
  unfold calculate_beatability.
  destruct (recent_form_signal O _) as [acc form].
  cbn [key_losses]. rewrite foldl_snoc. reflexivity.
Qed.

(** X19: the key losses of a target are the opponent's last five losses (all
    of them when there are fewer), in order.  For an opponent record of an
    analyzer built from matches, each key loss names an athlete that the
    loss graph holds as having beaten the opponent, and with at most five
    losses the key losses name exactly those athletes. *)
Theorem key_losses_are_latest (ms : list MatchResult) (k : string)
    (R O : AthleteRecord) :
  let self := foldl ingest __init__ ms in
  let target := calculate_beatability self R O in
  Py.dict_get k (athlete_records self) = Some O ->
  length (key_losses target) = Nat.min 5 (length (losses O))
  /\ (kl_to <$> key_losses target) `suffix_of` (winner <$> losses O)
  /\ Forall (fun kl => kl_to kl ∈ Py.graph_get (loss_graph self) k)
            (key_losses target)
  /\ ((length (losses O) <= 5)%nat ->
      forall x, x ∈ Py.graph_get (loss_graph self) k
                <-> x ∈ kl_to <$> key_losses target).
Proof.
  cbn zeta. intros HO.
  pose proof (ingested_records_faithful ms k) as Hf. rewrite HO in Hf.
  destruct Hf as (_ & _ & Hlosses & _).
  destruct (ingested_graphs_exact ms) as (_ & Hgraph & _).
  cbn zeta in Hgraph.
  rewrite target_key_losses. rewrite <- list_fmap_compose.
  unfold compose. cbn [kl_to]. unfold Py.last_n.
  split; [| split; [| split]].
  - rewrite length_fmap, length_drop. lia.
  - rewrite fmap_drop. apply suffix_drop.
  - apply Forall_fmap, Forall_forall. intros m Hm. cbn [kl_to].
    apply Hgraph. exists m.
    assert (Hin : m ∈ losses O).
    { exact (elem_of_sublist _ _ _ Hm (sublist_drop _ _)). }
    rewrite Hlosses in Hin. apply list_elem_of_filter in Hin as [Hk Hin].
    auto.
  - intros Hfew x. replace (length (losses O) - 5)%nat with 0%nat by lia.
    rewrite drop_0, Hgraph, list_elem_of_fmap. split.
    + intros (m & Hin & Hw & Hl). exists m. split; [auto |].
      rewrite Hlosses. apply list_elem_of_filter. auto.
    + intros (m & -> & Hin). exists m.
      rewrite Hlosses in Hin. apply list_elem_of_filter in Hin as [Hk Hin].
      auto.
Qed.

Lemma key_losses_are_latest_witness :
  let ms := feed_results two_category_feed in
  let self := foldl ingest __init__ ms in
  let O := default (fresh_record "" "")
                   (Py.dict_get "SMITH" (athlete_records self)) in
  let target := calculate_beatability self O O in
  Py.dict_get "SMITH" (athlete_records self) = Some O
  /\ (kl_to <$> key_losses target) `suffix_of` (winner <$> losses O).
Proof.
  cbn zeta.
  assert (H : Py.dict_get "SMITH"
                (athlete_records
                   (foldl ingest __init__ (feed_results two_category_feed)))
              = Some (default (fresh_record "" "")
                        (Py.dict_get "SMITH"
                           (athlete_records
                              (foldl ingest __init__
                                 (feed_results two_category_feed))))))
    by (vm_compute; reflexivity).
  split; [exact H |].
  exact (proj1 (proj2 (key_losses_are_latest _ "SMITH" _ _ H))).
Defined.
